(** * Knowledge chunking service: a shallow embedding and its properties

    The development follows [backend/services/knowledge_chunking_service.py].
    The class [KnowledgeChunkingService] defines several of its methods twice;
    in Python the later definition of a method replaces the earlier one, so
    the methods in force are the last ones in the file:
    [chunk_knowledge_base], [process_knowledge_chunk],
    [_aggregate_processed_chunks], [get_condensed_knowledge_for_prompt],
    [save_processed_knowledge] and [load_processed_knowledge] of the second
    half, and [_parse_structured_response], which is defined once. The
    definitions of the development are those; where the two halves differ in
    what they compute (the aggregator, the condensed text, the save), the
    replaced definition is modelled as well, in the module [Earlier].

    Around the service, the development follows what it calls and what
    calls it: the loader of the knowledge text
    ([prompts/warren_buffett_knowledge_loader.py]) and the initialisation of
    the knowledge base in the two agents ([agent/warren_buffett_agent.py],
    [agent/langgraph_warren_buffett_agent.py]).

    Modelling conventions:
    - Python integers are [Z]; a text is a [string] holding its UTF-8 bytes,
      as in the files; case and white space follow the ASCII rules (a
      character outside ASCII has no case and is not white space);
    - Python values that cross the layers (dicts, lists, strings, ints,
      booleans, [None]) are the type [pyval]; a dict is an association list in
      insertion order with distinct string keys; floats are left out;
    - an exception is a value of [result]; [try ... except Exception] is
      [try_except], which lets pass what does not derive from [Exception];
    - the [while] loop of the chunker runs on fuel, one unit per iteration;
    - what Python leaves open or what lies outside the repository is a
      parameter: the tokenizer, the order in which a set hands out its
      members, the [repr] of a container, the rules of [pathlib] on the
      suffix of a name;
    - the files are a finite map from paths to their text; what the loader
      finds in its folders is a record of its own ([dataset]);
    - a coroutine is a plain function: the tasks of a run share no state, and
      their outcomes are taken in the order of the chunks;
    - a function that runs the chunker runs on its fuel and returns [None]
      when the fuel does not suffice. *)

From Stdlib Require Import ZArith List String Ascii Bool Lia Permutation.
From Stdlib Require Import DecimalString DecimalFacts DecimalPos DecimalZ.
From stdpp Require Import base option gmap strings.
Import ListNotations.

Local Open Scope Z_scope.

(** ** Python values, exceptions and results *)

Unset Elimination Schemes.
Inductive pyval : Type :=
| PNone
| PBool (b : bool)
| PInt (z : Z)
| PStr (s : string)
| PList (l : list pyval)
| PDict (d : list (string * pyval)).
Set Elimination Schemes.

(** The exception classes the service can meet. [BaseExceptionOnly] stands
    for the classes that derive from [BaseException] and not from
    [Exception] ([KeyboardInterrupt], [SystemExit], [CancelledError]). *)
Inductive exn_class :=
| AttributeError | TypeError | KeyError | ValueError | JSONDecodeError
| FileNotFoundError | OSError | RecursionError | RuntimeError
| BaseExceptionOnly.

Record exn := Exn { exn_cls : exn_class; exn_msg : string }.

Definition is_Exception (e : exn) : bool :=
  match exn_cls e with
  | BaseExceptionOnly => false
  | _ => true
  end.

Inductive result (A : Type) : Type :=
| Ok (a : A)
| Raise (e : exn).
Arguments Ok {A} a.
Arguments Raise {A} e.

#[global] Instance result_ret : MRet result := fun A a => Ok a.
#[global] Instance result_bind : MBind result := fun A B f m =>
  match m with
  | Ok a => f a
  | Raise e => Raise e
  end.

(** [try: body except Exception as e: handler e] *)
Definition try_except {A : Type} (body : result A) (handler : exn -> result A)
  : result A :=
  match body with
  | Ok a => Ok a
  | Raise e => if is_Exception e then handler e else Raise e
  end.

(** ** Sequences: [s[a:b]] *)

(** The index normalisation of a slice bound: a negative bound counts from
    the end, and every bound is clamped to [0..len]. *)
Definition slice_bound (len i : Z) : Z :=
  if i <? 0 then Z.max (i + len) 0 else Z.min i len.

Definition py_slice {A : Type} (l : list A) (start stop : Z) : list A :=
  let len := Z.of_nat (length l) in
  let a := slice_bound len start in
  let b := slice_bound len stop in
  firstn (Z.to_nat (b - a)) (skipn (Z.to_nat a) l).

(** ** The tokenizer

    [tiktoken] is outside the repository; the chunker only needs its two
    functions. *)
Class Tokenizer := {
  token : Type;
  encode : string -> list token;
  decode : list token -> string
}.

(** A tokenizer with one token per byte, for concrete runs. *)
Definition char_tokenizer : Tokenizer :=
  {| token := ascii;
     encode := list_ascii_of_string;
     decode := string_of_list_ascii |}.

(** ** The service object *)

Record service := Service {
  max_tokens_per_chunk : Z;
  overlap_tokens : Z;
  processed_knowledge : pyval;
  (** [self.agent]: [__init__] does not set it, so it is absent unless a
      caller assigns it. *)
  agent : option (string -> result pyval)
}.

(** [__init__] *)
Definition init_service : service :=
  {| max_tokens_per_chunk := 8000;
     overlap_tokens := 200;
     processed_knowledge := PDict [];
     agent := None |}.

Definition set_processed_knowledge (self : service) (v : pyval) : service :=
  {| max_tokens_per_chunk := max_tokens_per_chunk self;
     overlap_tokens := overlap_tokens self;
     processed_knowledge := v;
     agent := agent self |}.

(** ** [chunk_knowledge_base] *)

Section Chunker.
Context {T : Tokenizer}.
Variable self : service.
Variable tokens : list token.

Inductive loop_state :=
| Running (start_idx : Z) (chunks : list string)
| Returned (chunks : list string).

(** One evaluation of the loop test followed, when it holds, by one run of
    the body. *)
Definition chunk_step (start_idx : Z) (chunks : list string) : loop_state :=
  let len := Z.of_nat (length tokens) in
  if start_idx <? len then
    let end_idx := Z.min (start_idx + max_tokens_per_chunk self) len in
    let chunk_tokens := py_slice tokens start_idx end_idx in
    let chunk_text := decode chunk_tokens in
    let chunks := chunks ++ [chunk_text] in
    let start_idx := end_idx - overlap_tokens self in
    if start_idx >=? len then Returned chunks
    else Running start_idx chunks
  else Returned chunks.

(** The loop: [None] when the fuel does not suffice. *)
Fixpoint chunk_while (fuel : nat) (start_idx : Z) (chunks : list string)
  : option (list string) :=
  match fuel with
  | O => None
  | S fuel' =>
      match chunk_step start_idx chunks with
      | Returned chunks' => Some chunks'
      | Running start_idx' chunks' => chunk_while fuel' start_idx' chunks'
      end
  end.

(** The state after [n] steps of the loop. *)
Fixpoint chunk_iterate (n : nat) (st : loop_state) : loop_state :=
  match n with
  | O => st
  | S n' =>
      match st with
      | Returned chunks => Returned chunks
      | Running start_idx chunks =>
          chunk_iterate n' (chunk_step start_idx chunks)
      end
  end.
End Chunker.

Definition chunk_knowledge_base {T : Tokenizer} (self : service)
    (fuel : nat) (knowledge_text : string) : option (list string) :=
  let chunks := [] in
  let tokens := encode knowledge_text in
  let start_idx := 0 in
  chunk_while self tokens fuel start_idx chunks.


(** ** Text: characters

    A text holds the UTF-8 bytes of its characters, as the files do. A
    character starts at every byte that is not a continuation byte
    [10xxxxxx]. *)

Definition newline : ascii := "010"%char.

Definition is_empty (s : string) : bool :=
  match s with
  | EmptyString => true
  | String _ _ => false
  end.

Definition is_continuation (c : ascii) : bool :=
  let n := nat_of_ascii c in ((128 <=? n) && (n <=? 191))%nat.

Definition continues (s : string) : bool :=
  match s with
  | String c _ => is_continuation c
  | EmptyString => false
  end.

(** The characters of a text. *)
Fixpoint utf8_chars (s : string) : list string :=
  match s with
  | EmptyString => []
  | String c s' =>
      if continues s' then
        match utf8_chars s' with
        | ch :: rest => String c ch :: rest
        | [] => [String c EmptyString]
        end
      else String c EmptyString :: utf8_chars s'
  end.

(** A character: one byte and the continuation bytes that follow it. *)
Fixpoint all_continuation (s : string) : bool :=
  match s with
  | EmptyString => true
  | String c s' => is_continuation c && all_continuation s'
  end.

Definition one_char (ch : string) : bool :=
  match ch with
  | EmptyString => false
  | String _ tail => all_continuation tail
  end.

(** The text of a sequence of characters, or of pieces of text. *)
Fixpoint cat (parts : list string) : string :=
  match parts with
  | [] => EmptyString
  | p :: rest => p +:+ cat rest
  end.

(** A sequence of characters as [utf8_chars] cuts it: what follows a
    character does not start with a continuation byte. *)
Fixpoint well_split (chars : list string) : Prop :=
  match chars with
  | [] => True
  | ch :: rest =>
      one_char ch = true /\ continues (cat rest) = false /\ well_split rest
  end.

(** [chr(uni)], as the bytes of its UTF-8 form. *)
Definition utf8_encode (uni : N) : string :=
  (if uni <? 128 then String (ascii_of_N uni) ""
   else if uni <? 2048 then
     String (ascii_of_N (192 + uni / 64))
       (String (ascii_of_N (128 + uni mod 64)) "")
   else if uni <? 65536 then
     String (ascii_of_N (224 + uni / 4096))
       (String (ascii_of_N (128 + (uni / 64) mod 64))
          (String (ascii_of_N (128 + uni mod 64)) ""))
   else
     String (ascii_of_N (240 + uni / 262144))
       (String (ascii_of_N (128 + (uni / 4096) mod 64))
          (String (ascii_of_N (128 + (uni / 64) mod 64))
             (String (ascii_of_N (128 + uni mod 64)) ""))))%N.

(** [ord(ch)]: the code point whose UTF-8 form is [ch]. Bytes that are not
    the UTF-8 form of a character (a stray continuation byte, a form longer
    than needed, a surrogate, a value above U+10FFFF) have none; no Python
    string holds them. *)
Definition ord (ch : string) : option N :=
  let b c := N_of_ascii c in
  let candidate :=
    (match ch with
     | String c1 "" => Some (b c1)
     | String c1 (String c2 "") => Some ((b c1 - 192) * 64 + (b c2 - 128))
     | String c1 (String c2 (String c3 "")) =>
         Some ((b c1 - 224) * 4096 + (b c2 - 128) * 64 + (b c3 - 128))
     | String c1 (String c2 (String c3 (String c4 ""))) =>
         Some ((b c1 - 240) * 262144 + (b c2 - 128) * 4096
               + (b c3 - 128) * 64 + (b c4 - 128))
     | _ => None
     end)%N in
  match candidate with
  | Some uni =>
      if String.eqb (utf8_encode uni) ch
         && negb ((55296 <=? uni) && (uni <=? 57343))%N
         && (uni <=? 1114111)%N
      then Some uni else None
  | None => None
  end.

Definition in_ranges (ranges : list (N * N)) (uni : N) : bool :=
  existsb (fun range => (fst range <=? uni) && (uni <=? snd range))%N ranges.

(** ** Text: [str.strip] *)

(** [str.isspace] on a character: the white space of Unicode. *)
Definition whitespace_ranges : list (N * N) :=
  [(9, 13); (28, 32); (133, 133); (160, 160); (5760, 5760); (8192, 8202);
   (8232, 8233); (8239, 8239); (8287, 8287); (12288, 12288)]%N.

Definition isspace (ch : string) : bool :=
  match ord ch with
  | Some uni => in_ranges whitespace_ranges uni
  | None => false
  end.

Fixpoint lstrip (chars : list string) : list string :=
  match chars with
  | [] => []
  | ch :: rest => if isspace ch then lstrip rest else chars
  end.

Fixpoint rstrip (chars : list string) : list string :=
  match chars with
  | [] => []
  | ch :: rest =>
      match rstrip rest with
      | [] => if isspace ch then [] else [ch]
      | kept => ch :: kept
      end
  end.

(** [s.strip()] *)
Definition strip (s : string) : string :=
  cat (rstrip (lstrip (utf8_chars s))).

(** ** Text: [str.upper], [str.title]

    The case mappings are those of the Unicode character database that the
    interpreter carries (version 14.0, CPython 3.11), in full: the mappings
    to one character as runs, the mappings to several characters one by
    one. *)

(** The characters with a one-character upper case: runs
    [(first, last, step, image of first)]; within a run the image moves with
    the character. *)
Definition uppercase_ranges : list (N * N * N * N) :=
  [
   (97, 122, 1, 65); (181, 181, 1, 924); (224, 246, 1, 192);
   (248, 254, 1, 216); (255, 255, 1, 376); (257, 303, 2, 256);
   (305, 305, 1, 73); (307, 311, 2, 306); (314, 328, 2, 313);
   (331, 375, 2, 330); (378, 382, 2, 377); (383, 383, 1, 83);
   (384, 384, 1, 579); (387, 389, 2, 386); (392, 392, 1, 391);
   (396, 396, 1, 395); (402, 402, 1, 401); (405, 405, 1, 502);
   (409, 409, 1, 408); (410, 410, 1, 573); (414, 414, 1, 544);
   (417, 421, 2, 416); (424, 424, 1, 423); (429, 429, 1, 428);
   (432, 432, 1, 431); (436, 438, 2, 435); (441, 441, 1, 440);
   (445, 445, 1, 444); (447, 447, 1, 503); (453, 453, 1, 452);
   (454, 454, 1, 452); (456, 456, 1, 455); (457, 457, 1, 455);
   (459, 459, 1, 458); (460, 460, 1, 458); (462, 476, 2, 461);
   (477, 477, 1, 398); (479, 495, 2, 478); (498, 498, 1, 497);
   (499, 499, 1, 497); (501, 501, 1, 500); (505, 543, 2, 504);
   (547, 563, 2, 546); (572, 572, 1, 571); (575, 576, 1, 11390);
   (578, 578, 1, 577); (583, 591, 2, 582); (592, 592, 1, 11375);
   (593, 593, 1, 11373); (594, 594, 1, 11376); (595, 595, 1, 385);
   (596, 596, 1, 390); (598, 599, 1, 393); (601, 601, 1, 399);
   (603, 603, 1, 400); (604, 604, 1, 42923); (608, 608, 1, 403);
   (609, 609, 1, 42924); (611, 611, 1, 404); (613, 613, 1, 42893);
   (614, 614, 1, 42922); (616, 616, 1, 407); (617, 617, 1, 406);
   (618, 618, 1, 42926); (619, 619, 1, 11362); (620, 620, 1, 42925);
   (623, 623, 1, 412); (625, 625, 1, 11374); (626, 626, 1, 413);
   (629, 629, 1, 415); (637, 637, 1, 11364); (640, 640, 1, 422);
   (642, 642, 1, 42949); (643, 643, 1, 425); (647, 647, 1, 42929);
   (648, 648, 1, 430); (649, 649, 1, 580); (650, 651, 1, 433);
   (652, 652, 1, 581); (658, 658, 1, 439); (669, 669, 1, 42930);
   (670, 670, 1, 42928); (837, 837, 1, 921); (881, 883, 2, 880);
   (887, 887, 1, 886); (891, 893, 1, 1021); (940, 940, 1, 902);
   (941, 943, 1, 904); (945, 961, 1, 913); (962, 962, 1, 931);
   (963, 971, 1, 931); (972, 972, 1, 908); (973, 974, 1, 910);
   (976, 976, 1, 914); (977, 977, 1, 920); (981, 981, 1, 934);
   (982, 982, 1, 928); (983, 983, 1, 975); (985, 1007, 2, 984);
   (1008, 1008, 1, 922); (1009, 1009, 1, 929); (1010, 1010, 1, 1017);
   (1011, 1011, 1, 895); (1013, 1013, 1, 917); (1016, 1016, 1, 1015);
   (1019, 1019, 1, 1018); (1072, 1103, 1, 1040); (1104, 1119, 1, 1024);
   (1121, 1153, 2, 1120); (1163, 1215, 2, 1162); (1218, 1230, 2, 1217);
   (1231, 1231, 1, 1216); (1233, 1327, 2, 1232); (1377, 1414, 1, 1329);
   (4304, 4346, 1, 7312); (4349, 4351, 1, 7357); (5112, 5117, 1, 5104);
   (7296, 7296, 1, 1042); (7297, 7297, 1, 1044); (7298, 7298, 1, 1054);
   (7299, 7300, 1, 1057); (7301, 7301, 1, 1058); (7302, 7302, 1, 1066);
   (7303, 7303, 1, 1122); (7304, 7304, 1, 42570); (7545, 7545, 1, 42877);
   (7549, 7549, 1, 11363); (7566, 7566, 1, 42950); (7681, 7829, 2, 7680);
   (7835, 7835, 1, 7776); (7841, 7935, 2, 7840); (7936, 7943, 1, 7944);
   (7952, 7957, 1, 7960); (7968, 7975, 1, 7976); (7984, 7991, 1, 7992);
   (8000, 8005, 1, 8008); (8017, 8023, 2, 8025); (8032, 8039, 1, 8040);
   (8048, 8049, 1, 8122); (8050, 8053, 1, 8136); (8054, 8055, 1, 8154);
   (8056, 8057, 1, 8184); (8058, 8059, 1, 8170); (8060, 8061, 1, 8186);
   (8112, 8113, 1, 8120); (8126, 8126, 1, 921); (8144, 8145, 1, 8152);
   (8160, 8161, 1, 8168); (8165, 8165, 1, 8172); (8526, 8526, 1, 8498);
   (8560, 8575, 1, 8544); (8580, 8580, 1, 8579); (9424, 9449, 1, 9398);
   (11312, 11359, 1, 11264); (11361, 11361, 1, 11360);
   (11365, 11365, 1, 570); (11366, 11366, 1, 574); (11368, 11372, 2, 11367);
   (11379, 11379, 1, 11378); (11382, 11382, 1, 11381);
   (11393, 11491, 2, 11392); (11500, 11502, 2, 11499);
   (11507, 11507, 1, 11506); (11520, 11557, 1, 4256);
   (11559, 11559, 1, 4295); (11565, 11565, 1, 4301);
   (42561, 42605, 2, 42560); (42625, 42651, 2, 42624);
   (42787, 42799, 2, 42786); (42803, 42863, 2, 42802);
   (42874, 42876, 2, 42873); (42879, 42887, 2, 42878);
   (42892, 42892, 1, 42891); (42897, 42899, 2, 42896);
   (42900, 42900, 1, 42948); (42903, 42921, 2, 42902);
   (42933, 42947, 2, 42932); (42952, 42954, 2, 42951);
   (42961, 42961, 1, 42960); (42967, 42969, 2, 42966);
   (42998, 42998, 1, 42997); (43859, 43859, 1, 42931);
   (43888, 43967, 1, 5024); (65345, 65370, 1, 65313);
   (66600, 66639, 1, 66560); (66776, 66811, 1, 66736);
   (66967, 66977, 1, 66928); (66979, 66993, 1, 66940);
   (66995, 67001, 1, 66956); (67003, 67004, 1, 66964);
   (68800, 68850, 1, 68736); (71872, 71903, 1, 71840);
   (93792, 93823, 1, 93760); (125218, 125251, 1, 125184)
  ]%N.

(** The characters whose upper case has several characters. *)
Definition uppercase_special : list (N * list N) :=
  [
   (223, [83; 83]); (329, [700; 78]); (496, [74; 780]);
   (912, [921; 776; 769]); (944, [933; 776; 769]); (1415, [1333; 1362]);
   (7830, [72; 817]); (7831, [84; 776]); (7832, [87; 778]);
   (7833, [89; 778]); (7834, [65; 702]); (8016, [933; 787]);
   (8018, [933; 787; 768]); (8020, [933; 787; 769]); (8022, [933; 787; 834]);
   (8064, [7944; 921]); (8065, [7945; 921]); (8066, [7946; 921]);
   (8067, [7947; 921]); (8068, [7948; 921]); (8069, [7949; 921]);
   (8070, [7950; 921]); (8071, [7951; 921]); (8072, [7944; 921]);
   (8073, [7945; 921]); (8074, [7946; 921]); (8075, [7947; 921]);
   (8076, [7948; 921]); (8077, [7949; 921]); (8078, [7950; 921]);
   (8079, [7951; 921]); (8080, [7976; 921]); (8081, [7977; 921]);
   (8082, [7978; 921]); (8083, [7979; 921]); (8084, [7980; 921]);
   (8085, [7981; 921]); (8086, [7982; 921]); (8087, [7983; 921]);
   (8088, [7976; 921]); (8089, [7977; 921]); (8090, [7978; 921]);
   (8091, [7979; 921]); (8092, [7980; 921]); (8093, [7981; 921]);
   (8094, [7982; 921]); (8095, [7983; 921]); (8096, [8040; 921]);
   (8097, [8041; 921]); (8098, [8042; 921]); (8099, [8043; 921]);
   (8100, [8044; 921]); (8101, [8045; 921]); (8102, [8046; 921]);
   (8103, [8047; 921]); (8104, [8040; 921]); (8105, [8041; 921]);
   (8106, [8042; 921]); (8107, [8043; 921]); (8108, [8044; 921]);
   (8109, [8045; 921]); (8110, [8046; 921]); (8111, [8047; 921]);
   (8114, [8122; 921]); (8115, [913; 921]); (8116, [902; 921]);
   (8118, [913; 834]); (8119, [913; 834; 921]); (8124, [913; 921]);
   (8130, [8138; 921]); (8131, [919; 921]); (8132, [905; 921]);
   (8134, [919; 834]); (8135, [919; 834; 921]); (8140, [919; 921]);
   (8146, [921; 776; 768]); (8147, [921; 776; 769]); (8150, [921; 834]);
   (8151, [921; 776; 834]); (8162, [933; 776; 768]); (8163, [933; 776; 769]);
   (8164, [929; 787]); (8166, [933; 834]); (8167, [933; 776; 834]);
   (8178, [8186; 921]); (8179, [937; 921]); (8180, [911; 921]);
   (8182, [937; 834]); (8183, [937; 834; 921]); (8188, [937; 921]);
   (64256, [70; 70]); (64257, [70; 73]); (64258, [70; 76]);
   (64259, [70; 70; 73]); (64260, [70; 70; 76]); (64261, [83; 84]);
   (64262, [83; 84]); (64275, [1348; 1350]); (64276, [1348; 1333]);
   (64277, [1348; 1339]); (64278, [1358; 1350]); (64279, [1348; 1341])
  ]%N.

(** The characters with a one-character lower case. *)
Definition lowercase_ranges : list (N * N * N * N) :=
  [
   (65, 90, 1, 97); (192, 214, 1, 224); (216, 222, 1, 248);
   (256, 302, 2, 257); (306, 310, 2, 307); (313, 327, 2, 314);
   (330, 374, 2, 331); (376, 376, 1, 255); (377, 381, 2, 378);
   (385, 385, 1, 595); (386, 388, 2, 387); (390, 390, 1, 596);
   (391, 391, 1, 392); (393, 394, 1, 598); (395, 395, 1, 396);
   (398, 398, 1, 477); (399, 399, 1, 601); (400, 400, 1, 603);
   (401, 401, 1, 402); (403, 403, 1, 608); (404, 404, 1, 611);
   (406, 406, 1, 617); (407, 407, 1, 616); (408, 408, 1, 409);
   (412, 412, 1, 623); (413, 413, 1, 626); (415, 415, 1, 629);
   (416, 420, 2, 417); (422, 422, 1, 640); (423, 423, 1, 424);
   (425, 425, 1, 643); (428, 428, 1, 429); (430, 430, 1, 648);
   (431, 431, 1, 432); (433, 434, 1, 650); (435, 437, 2, 436);
   (439, 439, 1, 658); (440, 440, 1, 441); (444, 444, 1, 445);
   (452, 452, 1, 454); (453, 453, 1, 454); (455, 455, 1, 457);
   (456, 456, 1, 457); (458, 458, 1, 460); (459, 475, 2, 460);
   (478, 494, 2, 479); (497, 497, 1, 499); (498, 500, 2, 499);
   (502, 502, 1, 405); (503, 503, 1, 447); (504, 542, 2, 505);
   (544, 544, 1, 414); (546, 562, 2, 547); (570, 570, 1, 11365);
   (571, 571, 1, 572); (573, 573, 1, 410); (574, 574, 1, 11366);
   (577, 577, 1, 578); (579, 579, 1, 384); (580, 580, 1, 649);
   (581, 581, 1, 652); (582, 590, 2, 583); (880, 882, 2, 881);
   (886, 886, 1, 887); (895, 895, 1, 1011); (902, 902, 1, 940);
   (904, 906, 1, 941); (908, 908, 1, 972); (910, 911, 1, 973);
   (913, 929, 1, 945); (931, 939, 1, 963); (975, 975, 1, 983);
   (984, 1006, 2, 985); (1012, 1012, 1, 952); (1015, 1015, 1, 1016);
   (1017, 1017, 1, 1010); (1018, 1018, 1, 1019); (1021, 1023, 1, 891);
   (1024, 1039, 1, 1104); (1040, 1071, 1, 1072); (1120, 1152, 2, 1121);
   (1162, 1214, 2, 1163); (1216, 1216, 1, 1231); (1217, 1229, 2, 1218);
   (1232, 1326, 2, 1233); (1329, 1366, 1, 1377); (4256, 4293, 1, 11520);
   (4295, 4295, 1, 11559); (4301, 4301, 1, 11565); (5024, 5103, 1, 43888);
   (5104, 5109, 1, 5112); (7312, 7354, 1, 4304); (7357, 7359, 1, 4349);
   (7680, 7828, 2, 7681); (7838, 7838, 1, 223); (7840, 7934, 2, 7841);
   (7944, 7951, 1, 7936); (7960, 7965, 1, 7952); (7976, 7983, 1, 7968);
   (7992, 7999, 1, 7984); (8008, 8013, 1, 8000); (8025, 8031, 2, 8017);
   (8040, 8047, 1, 8032); (8072, 8079, 1, 8064); (8088, 8095, 1, 8080);
   (8104, 8111, 1, 8096); (8120, 8121, 1, 8112); (8122, 8123, 1, 8048);
   (8124, 8124, 1, 8115); (8136, 8139, 1, 8050); (8140, 8140, 1, 8131);
   (8152, 8153, 1, 8144); (8154, 8155, 1, 8054); (8168, 8169, 1, 8160);
   (8170, 8171, 1, 8058); (8172, 8172, 1, 8165); (8184, 8185, 1, 8056);
   (8186, 8187, 1, 8060); (8188, 8188, 1, 8179); (8486, 8486, 1, 969);
   (8490, 8490, 1, 107); (8491, 8491, 1, 229); (8498, 8498, 1, 8526);
   (8544, 8559, 1, 8560); (8579, 8579, 1, 8580); (9398, 9423, 1, 9424);
   (11264, 11311, 1, 11312); (11360, 11360, 1, 11361);
   (11362, 11362, 1, 619); (11363, 11363, 1, 7549); (11364, 11364, 1, 637);
   (11367, 11371, 2, 11368); (11373, 11373, 1, 593); (11374, 11374, 1, 625);
   (11375, 11375, 1, 592); (11376, 11376, 1, 594); (11378, 11378, 1, 11379);
   (11381, 11381, 1, 11382); (11390, 11391, 1, 575);
   (11392, 11490, 2, 11393); (11499, 11501, 2, 11500);
   (11506, 11506, 1, 11507); (42560, 42604, 2, 42561);
   (42624, 42650, 2, 42625); (42786, 42798, 2, 42787);
   (42802, 42862, 2, 42803); (42873, 42875, 2, 42874);
   (42877, 42877, 1, 7545); (42878, 42886, 2, 42879);
   (42891, 42891, 1, 42892); (42893, 42893, 1, 613);
   (42896, 42898, 2, 42897); (42902, 42920, 2, 42903);
   (42922, 42922, 1, 614); (42923, 42923, 1, 604); (42924, 42924, 1, 609);
   (42925, 42925, 1, 620); (42926, 42926, 1, 618); (42928, 42928, 1, 670);
   (42929, 42929, 1, 647); (42930, 42930, 1, 669); (42931, 42931, 1, 43859);
   (42932, 42946, 2, 42933); (42948, 42948, 1, 42900);
   (42949, 42949, 1, 642); (42950, 42950, 1, 7566); (42951, 42953, 2, 42952);
   (42960, 42960, 1, 42961); (42966, 42968, 2, 42967);
   (42997, 42997, 1, 42998); (65313, 65338, 1, 65345);
   (66560, 66599, 1, 66600); (66736, 66771, 1, 66776);
   (66928, 66938, 1, 66967); (66940, 66954, 1, 66979);
   (66956, 66962, 1, 66995); (66964, 66965, 1, 67003);
   (68736, 68786, 1, 68800); (71840, 71871, 1, 71872);
   (93760, 93791, 1, 93792); (125184, 125217, 1, 125218)
  ]%N.

(** The character whose lower case has two characters. *)
Definition lowercase_special : list (N * list N) :=
  [
   (304, [105; 775])
  ]%N.

(** The characters whose title case is one character and is not their upper
    case. *)
Definition titlecase_ranges : list (N * N * N * N) :=
  [
   (452, 452, 1, 453); (453, 453, 1, 453); (454, 454, 1, 453);
   (455, 455, 1, 456); (456, 456, 1, 456); (457, 457, 1, 456);
   (458, 458, 1, 459); (459, 459, 1, 459); (460, 460, 1, 459);
   (497, 497, 1, 498); (498, 498, 1, 498); (499, 499, 1, 498);
   (4304, 4346, 1, 4304); (4349, 4351, 1, 4349); (8064, 8071, 1, 8072);
   (8072, 8079, 1, 8072); (8080, 8087, 1, 8088); (8088, 8095, 1, 8088);
   (8096, 8103, 1, 8104); (8104, 8111, 1, 8104); (8115, 8115, 1, 8124);
   (8124, 8124, 1, 8124); (8131, 8131, 1, 8140); (8140, 8140, 1, 8140);
   (8179, 8179, 1, 8188); (8188, 8188, 1, 8188)
  ]%N.

(** The characters whose title case has several characters and is not
    their upper case. *)
Definition titlecase_special : list (N * list N) :=
  [
   (223, [83; 115]); (1415, [1333; 1410]); (8114, [8122; 837]);
   (8116, [902; 837]); (8119, [913; 834; 837]); (8130, [8138; 837]);
   (8132, [905; 837]); (8135, [919; 834; 837]); (8178, [8186; 837]);
   (8180, [911; 837]); (8183, [937; 834; 837]); (64256, [70; 102]);
   (64257, [70; 105]); (64258, [70; 108]); (64259, [70; 102; 105]);
   (64260, [70; 102; 108]); (64261, [83; 116]); (64262, [83; 116]);
   (64275, [1348; 1398]); (64276, [1348; 1381]); (64277, [1348; 1387]);
   (64278, [1358; 1398]); (64279, [1348; 1389])
  ]%N.

(** The cased characters. *)
Definition cased_ranges : list (N * N) :=
  [
   (65, 90); (97, 122); (170, 170); (181, 181); (186, 186); (192, 214);
   (216, 246); (248, 442); (444, 447); (452, 659); (661, 696); (704, 705);
   (736, 740); (837, 837); (880, 883); (886, 887); (890, 893); (895, 895);
   (902, 902); (904, 906); (908, 908); (910, 929); (931, 1013); (1015, 1153);
   (1162, 1327); (1329, 1366); (1376, 1416); (4256, 4293); (4295, 4295);
   (4301, 4301); (4304, 4346); (4349, 4351); (5024, 5109); (5112, 5117);
   (7296, 7304); (7312, 7354); (7357, 7359); (7424, 7615); (7680, 7957);
   (7960, 7965); (7968, 8005); (8008, 8013); (8016, 8023); (8025, 8025);
   (8027, 8027); (8029, 8029); (8031, 8061); (8064, 8116); (8118, 8124);
   (8126, 8126); (8130, 8132); (8134, 8140); (8144, 8147); (8150, 8155);
   (8160, 8172); (8178, 8180); (8182, 8188); (8305, 8305); (8319, 8319);
   (8336, 8348); (8450, 8450); (8455, 8455); (8458, 8467); (8469, 8469);
   (8473, 8477); (8484, 8484); (8486, 8486); (8488, 8488); (8490, 8493);
   (8495, 8500); (8505, 8505); (8508, 8511); (8517, 8521); (8526, 8526);
   (8544, 8575); (8579, 8580); (9398, 9449); (11264, 11492); (11499, 11502);
   (11506, 11507); (11520, 11557); (11559, 11559); (11565, 11565);
   (42560, 42605); (42624, 42653); (42786, 42887); (42891, 42894);
   (42896, 42954); (42960, 42961); (42963, 42963); (42965, 42969);
   (42997, 42998); (43000, 43002); (43824, 43866); (43868, 43880);
   (43888, 43967); (64256, 64262); (64275, 64279); (65313, 65338);
   (65345, 65370); (66560, 66639); (66736, 66771); (66776, 66811);
   (66928, 66938); (66940, 66954); (66956, 66962); (66964, 66965);
   (66967, 66977); (66979, 66993); (66995, 67001); (67003, 67004);
   (67456, 67456); (67459, 67461); (67463, 67504); (67506, 67514);
   (68736, 68786); (68800, 68850); (71840, 71903); (93760, 93823);
   (119808, 119892); (119894, 119964); (119966, 119967); (119970, 119970);
   (119973, 119974); (119977, 119980); (119982, 119993); (119995, 119995);
   (119997, 120003); (120005, 120069); (120071, 120074); (120077, 120084);
   (120086, 120092); (120094, 120121); (120123, 120126); (120128, 120132);
   (120134, 120134); (120138, 120144); (120146, 120485); (120488, 120512);
   (120514, 120538); (120540, 120570); (120572, 120596); (120598, 120628);
   (120630, 120654); (120656, 120686); (120688, 120712); (120714, 120744);
   (120746, 120770); (120772, 120779); (122624, 122633); (122635, 122654);
   (125184, 125251); (127280, 127305); (127312, 127337); (127344, 127369)
  ]%N.

(** The case-ignorable characters. *)
Definition case_ignorable_ranges : list (N * N) :=
  [
   (39, 39); (46, 46); (58, 58); (94, 94); (96, 96); (168, 168); (173, 173);
   (175, 175); (180, 180); (183, 184); (688, 879); (884, 885); (890, 890);
   (900, 901); (903, 903); (1155, 1161); (1369, 1369); (1375, 1375);
   (1425, 1469); (1471, 1471); (1473, 1474); (1476, 1477); (1479, 1479);
   (1524, 1524); (1536, 1541); (1552, 1562); (1564, 1564); (1600, 1600);
   (1611, 1631); (1648, 1648); (1750, 1757); (1759, 1768); (1770, 1773);
   (1807, 1807); (1809, 1809); (1840, 1866); (1958, 1968); (2027, 2037);
   (2042, 2042); (2045, 2045); (2070, 2093); (2137, 2139); (2184, 2184);
   (2192, 2193); (2200, 2207); (2249, 2306); (2362, 2362); (2364, 2364);
   (2369, 2376); (2381, 2381); (2385, 2391); (2402, 2403); (2417, 2417);
   (2433, 2433); (2492, 2492); (2497, 2500); (2509, 2509); (2530, 2531);
   (2558, 2558); (2561, 2562); (2620, 2620); (2625, 2626); (2631, 2632);
   (2635, 2637); (2641, 2641); (2672, 2673); (2677, 2677); (2689, 2690);
   (2748, 2748); (2753, 2757); (2759, 2760); (2765, 2765); (2786, 2787);
   (2810, 2815); (2817, 2817); (2876, 2876); (2879, 2879); (2881, 2884);
   (2893, 2893); (2901, 2902); (2914, 2915); (2946, 2946); (3008, 3008);
   (3021, 3021); (3072, 3072); (3076, 3076); (3132, 3132); (3134, 3136);
   (3142, 3144); (3146, 3149); (3157, 3158); (3170, 3171); (3201, 3201);
   (3260, 3260); (3263, 3263); (3270, 3270); (3276, 3277); (3298, 3299);
   (3328, 3329); (3387, 3388); (3393, 3396); (3405, 3405); (3426, 3427);
   (3457, 3457); (3530, 3530); (3538, 3540); (3542, 3542); (3633, 3633);
   (3636, 3642); (3654, 3662); (3761, 3761); (3764, 3772); (3782, 3782);
   (3784, 3789); (3864, 3865); (3893, 3893); (3895, 3895); (3897, 3897);
   (3953, 3966); (3968, 3972); (3974, 3975); (3981, 3991); (3993, 4028);
   (4038, 4038); (4141, 4144); (4146, 4151); (4153, 4154); (4157, 4158);
   (4184, 4185); (4190, 4192); (4209, 4212); (4226, 4226); (4229, 4230);
   (4237, 4237); (4253, 4253); (4348, 4348); (4957, 4959); (5906, 5908);
   (5938, 5939); (5970, 5971); (6002, 6003); (6068, 6069); (6071, 6077);
   (6086, 6086); (6089, 6099); (6103, 6103); (6109, 6109); (6155, 6159);
   (6211, 6211); (6277, 6278); (6313, 6313); (6432, 6434); (6439, 6440);
   (6450, 6450); (6457, 6459); (6679, 6680); (6683, 6683); (6742, 6742);
   (6744, 6750); (6752, 6752); (6754, 6754); (6757, 6764); (6771, 6780);
   (6783, 6783); (6823, 6823); (6832, 6862); (6912, 6915); (6964, 6964);
   (6966, 6970); (6972, 6972); (6978, 6978); (7019, 7027); (7040, 7041);
   (7074, 7077); (7080, 7081); (7083, 7085); (7142, 7142); (7144, 7145);
   (7149, 7149); (7151, 7153); (7212, 7219); (7222, 7223); (7288, 7293);
   (7376, 7378); (7380, 7392); (7394, 7400); (7405, 7405); (7412, 7412);
   (7416, 7417); (7468, 7530); (7544, 7544); (7579, 7679); (8125, 8125);
   (8127, 8129); (8141, 8143); (8157, 8159); (8173, 8175); (8189, 8190);
   (8203, 8207); (8216, 8217); (8228, 8228); (8231, 8231); (8234, 8238);
   (8288, 8292); (8294, 8303); (8305, 8305); (8319, 8319); (8336, 8348);
   (8400, 8432); (11388, 11389); (11503, 11505); (11631, 11631);
   (11647, 11647); (11744, 11775); (11823, 11823); (12293, 12293);
   (12330, 12333); (12337, 12341); (12347, 12347); (12441, 12446);
   (12540, 12542); (40981, 40981); (42232, 42237); (42508, 42508);
   (42607, 42610); (42612, 42621); (42623, 42623); (42652, 42655);
   (42736, 42737); (42752, 42785); (42864, 42864); (42888, 42890);
   (42994, 42996); (43000, 43001); (43010, 43010); (43014, 43014);
   (43019, 43019); (43045, 43046); (43052, 43052); (43204, 43205);
   (43232, 43249); (43263, 43263); (43302, 43309); (43335, 43345);
   (43392, 43394); (43443, 43443); (43446, 43449); (43452, 43453);
   (43471, 43471); (43493, 43494); (43561, 43566); (43569, 43570);
   (43573, 43574); (43587, 43587); (43596, 43596); (43632, 43632);
   (43644, 43644); (43696, 43696); (43698, 43700); (43703, 43704);
   (43710, 43711); (43713, 43713); (43741, 43741); (43756, 43757);
   (43763, 43764); (43766, 43766); (43867, 43871); (43881, 43883);
   (44005, 44005); (44008, 44008); (44013, 44013); (64286, 64286);
   (64434, 64450); (65024, 65039); (65043, 65043); (65056, 65071);
   (65106, 65106); (65109, 65109); (65279, 65279); (65287, 65287);
   (65294, 65294); (65306, 65306); (65342, 65342); (65344, 65344);
   (65392, 65392); (65438, 65439); (65507, 65507); (65529, 65531);
   (66045, 66045); (66272, 66272); (66422, 66426); (67456, 67461);
   (67463, 67504); (67506, 67514); (68097, 68099); (68101, 68102);
   (68108, 68111); (68152, 68154); (68159, 68159); (68325, 68326);
   (68900, 68903); (69291, 69292); (69446, 69456); (69506, 69509);
   (69633, 69633); (69688, 69702); (69744, 69744); (69747, 69748);
   (69759, 69761); (69811, 69814); (69817, 69818); (69821, 69821);
   (69826, 69826); (69837, 69837); (69888, 69890); (69927, 69931);
   (69933, 69940); (70003, 70003); (70016, 70017); (70070, 70078);
   (70089, 70092); (70095, 70095); (70191, 70193); (70196, 70196);
   (70198, 70199); (70206, 70206); (70367, 70367); (70371, 70378);
   (70400, 70401); (70459, 70460); (70464, 70464); (70502, 70508);
   (70512, 70516); (70712, 70719); (70722, 70724); (70726, 70726);
   (70750, 70750); (70835, 70840); (70842, 70842); (70847, 70848);
   (70850, 70851); (71090, 71093); (71100, 71101); (71103, 71104);
   (71132, 71133); (71219, 71226); (71229, 71229); (71231, 71232);
   (71339, 71339); (71341, 71341); (71344, 71349); (71351, 71351);
   (71453, 71455); (71458, 71461); (71463, 71467); (71727, 71735);
   (71737, 71738); (71995, 71996); (71998, 71998); (72003, 72003);
   (72148, 72151); (72154, 72155); (72160, 72160); (72193, 72202);
   (72243, 72248); (72251, 72254); (72263, 72263); (72273, 72278);
   (72281, 72283); (72330, 72342); (72344, 72345); (72752, 72758);
   (72760, 72765); (72767, 72767); (72850, 72871); (72874, 72880);
   (72882, 72883); (72885, 72886); (73009, 73014); (73018, 73018);
   (73020, 73021); (73023, 73029); (73031, 73031); (73104, 73105);
   (73109, 73109); (73111, 73111); (73459, 73460); (78896, 78904);
   (92912, 92916); (92976, 92982); (92992, 92995); (94031, 94031);
   (94095, 94111); (94176, 94177); (94179, 94180); (110576, 110579);
   (110581, 110587); (110589, 110590); (113821, 113822); (113824, 113827);
   (118528, 118573); (118576, 118598); (119143, 119145); (119155, 119170);
   (119173, 119179); (119210, 119213); (119362, 119364); (121344, 121398);
   (121403, 121452); (121461, 121461); (121476, 121476); (121499, 121503);
   (121505, 121519); (122880, 122886); (122888, 122904); (122907, 122913);
   (122915, 122916); (122918, 122922); (123184, 123197); (123566, 123566);
   (123628, 123631); (125136, 125142); (125252, 125259); (127995, 127999);
   (917505, 917505); (917536, 917631); (917760, 917999)
  ]%N.

(** The image of a character in a table of runs. *)
Definition run_image (runs : list (N * N * N * N)) (uni : N) : option N :=
  match
    List.find
      (fun run =>
         let '(first, last, step, _) := run in
         ((first <=? uni) && (uni <=? last)
          && ((uni - first) mod step =? 0))%N)
      runs
  with
  | Some (first, _, _, image) => Some (image + (uni - first))%N
  | None => None
  end.

Definition special_image (table : list (N * list N)) (uni : N)
  : option (list N) :=
  match List.find (fun entry => (fst entry =? uni)%N) table with
  | Some entry => Some (snd entry)
  | None => None
  end.

(** The full case mappings of a character. *)
Definition to_upper (uni : N) : list N :=
  match special_image uppercase_special uni with
  | Some image => image
  | None => [default uni (run_image uppercase_ranges uni)]
  end.

Definition to_lower (uni : N) : list N :=
  match special_image lowercase_special uni with
  | Some image => image
  | None => [default uni (run_image lowercase_ranges uni)]
  end.

Definition to_title (uni : N) : list N :=
  match special_image titlecase_special uni with
  | Some image => image
  | None =>
      match run_image titlecase_ranges uni with
      | Some image => [image]
      | None => to_upper uni
      end
  end.

Definition is_cased (ch : string) : bool :=
  match ord ch with
  | Some uni => in_ranges cased_ranges uni
  | None => false
  end.

Definition is_case_ignorable (ch : string) : bool :=
  match ord ch with
  | Some uni => in_ranges case_ignorable_ranges uni
  | None => false
  end.

(** The text of a sequence of code points. *)
Definition text_of (unis : list N) : string := cat (map utf8_encode unis).

Definition upper_char (ch : string) : string :=
  match ord ch with
  | Some uni => text_of (to_upper uni)
  | None => ch
  end.

(** [s.upper()] *)
Definition upper (s : string) : string := cat (map upper_char (utf8_chars s)).

(** The first character that is not case-ignorable is there and is cased. *)
Fixpoint cased_comes_first (chars : list string) : bool :=
  match chars with
  | [] => false
  | ch :: rest =>
      if is_case_ignorable ch then cased_comes_first rest else is_cased ch
  end.

(** The capital sigma is final in its word: a cased character stands before
    it and none after it, the case-ignorable characters set aside.
    [before] holds the characters before it, the nearest first. *)
Definition final_sigma (before after : list string) : bool :=
  cased_comes_first before && negb (cased_comes_first after).

(** The lower case of a character where it stands. *)
Definition lower_char (before : list string) (ch : string)
    (after : list string) : string :=
  match ord ch with
  | Some uni =>
      if (uni =? 931)%N then
        utf8_encode (if final_sigma before after then 962 else 963)%N
      else text_of (to_lower uni)
  | None => ch
  end.

Definition title_char (ch : string) : string :=
  match ord ch with
  | Some uni => text_of (to_title uni)
  | None => ch
  end.

Fixpoint title_from (before : list string) (previous_is_cased : bool)
    (chars : list string) : string :=
  match chars with
  | [] => EmptyString
  | ch :: after =>
      (if previous_is_cased then lower_char before ch after
       else title_char ch)
      +:+ title_from (ch :: before) (is_cased ch) after
  end.

(** [s.title()]: a cased character that follows a cased one is put in lower
    case, any other character in title case. *)
Definition title (s : string) : string :=
  title_from [] false (utf8_chars s).

(** ** Text: [str.startswith], [str.split], [str.join] *)

(** [s.startswith(p)] *)
Definition startswith (s p : string) : bool := String.prefix p s.

(** [s[n:]] for [0 <= n] *)
Fixpoint drop_chars (n : nat) (s : string) : string :=
  match n, s with
  | O, _ => s
  | S _, EmptyString => EmptyString
  | S n', String _ s' => drop_chars n' s'
  end.

(** [s.split('\n')]: the pieces between line feeds; never empty. *)
Fixpoint split_lines (s : string) : list string :=
  match s with
  | EmptyString => [EmptyString]
  | String c s' =>
      if Ascii.eqb c newline then EmptyString :: split_lines s'
      else match split_lines s' with
           | l :: ls => String c l :: ls
           | [] => [String c EmptyString]
           end
  end.

(** [sep.join(parts)] *)
Fixpoint join (sep : string) (parts : list string) : string :=
  match parts with
  | [] => ""
  | [p] => p
  | p :: rest => p +:+ sep +:+ join sep rest
  end.

(** ** [_parse_structured_response] *)

(** The five keys of the result dict; [current_section] is one of them or
    [None]. *)
Inductive section_key :=
| principles | strategies | metrics | insights | quotes.

Definition section_key_eqb (a b : section_key) : bool :=
  match a, b with
  | principles, principles | strategies, strategies | metrics, metrics
  | insights, insights | quotes, quotes => true
  | _, _ => false
  end.

Record parsed := Parsed {
  p_principles : list string;
  p_strategies : list string;
  p_metrics : list string;
  p_insights : list string;
  p_quotes : list string
}.

Definition empty_parsed : parsed := Parsed [] [] [] [] [].

(** [result[key]] *)
Definition section_items (key : section_key) (r : parsed) : list string :=
  match key with
  | principles => p_principles r
  | strategies => p_strategies r
  | metrics => p_metrics r
  | insights => p_insights r
  | quotes => p_quotes r
  end.

(** [result[key].append(item)] *)
Definition section_append (key : section_key) (item : string) (r : parsed)
  : parsed :=
  match key with
  | principles => Parsed (p_principles r ++ [item]) (p_strategies r)
                    (p_metrics r) (p_insights r) (p_quotes r)
  | strategies => Parsed (p_principles r) (p_strategies r ++ [item])
                    (p_metrics r) (p_insights r) (p_quotes r)
  | metrics => Parsed (p_principles r) (p_strategies r)
                    (p_metrics r ++ [item]) (p_insights r) (p_quotes r)
  | insights => Parsed (p_principles r) (p_strategies r)
                    (p_metrics r) (p_insights r ++ [item]) (p_quotes r)
  | quotes => Parsed (p_principles r) (p_strategies r)
                    (p_metrics r) (p_insights r) (p_quotes r ++ [item])
  end.

(** The chain of header tests on a stripped line. *)
Definition header_of (line : string) : option section_key :=
  if startswith (upper line) "PRINCIPLES:" then Some principles
  else if startswith (upper line) "STRATEGIES:" then Some strategies
  else if startswith (upper line) "METRICS:" then Some metrics
  else if startswith (upper line) "INSIGHTS:" then Some insights
  else if startswith (upper line) "QUOTES:" then Some quotes
  else None.

(** One turn of the [for line in lines] loop on the cursor and the result. *)
Definition parse_line (st : option section_key * parsed) (raw : string)
  : option section_key * parsed :=
  let '(current_section, result) := st in
  let line := strip raw in
  if is_empty line then st
  else
    match header_of line with
    | Some key => (Some key, result)
    | None =>
        match current_section with
        | Some key =>
            if startswith line "- " then
              let item := strip (drop_chars 2 line) in
              if is_empty item then st
              else (current_section, section_append key item result)
            else st
        | None => st
        end
    end.

Definition parse_lines (st : option section_key * parsed)
    (lines : list string) : option section_key * parsed :=
  fold_left parse_line lines st.

Definition _parse_structured_response (response : string) : parsed :=
  let result := empty_parsed in
  let current_section := None in
  let lines := split_lines response in
  snd (parse_lines (current_section, result) lines).

(** *** The parser as the specification words it

    A second description of the parser, to compare with the loop above.
    The headers are the five keywords; a line is the header of a section
    when it starts with the keyword of the section, the case of the letters
    set aside. The section in force at a line is the one named by the last
    header line before it, and a section holds the items of the bullet
    lines met while it is in force. *)

Definition keyword (key : section_key) : string :=
  match key with
  | principles => "PRINCIPLES:"
  | strategies => "STRATEGIES:"
  | metrics => "METRICS:"
  | insights => "INSIGHTS:"
  | quotes => "QUOTES:"
  end.

Definition section_keys : list section_key :=
  [principles; strategies; metrics; insights; quotes].

Definition recognized_header (line : string) : option section_key :=
  List.find (fun key => startswith (upper line) (keyword key)) section_keys.

(** The same for a line of ASCII characters, without the case mappings:
    character by character, a letter of the keyword stands for itself and
    for its small letter. *)
Definition same_letter (a b : ascii) : bool :=
  let x := nat_of_ascii a in
  let y := nat_of_ascii b in
  ((x =? y) || (65 <=? x) && (x <=? 90) && (y =? x + 32))%nat.

Fixpoint caseless_prefix (p s : string) : bool :=
  match p, s with
  | EmptyString, _ => true
  | String a p', String b s' => same_letter a b && caseless_prefix p' s'
  | String _ _, EmptyString => false
  end.

Definition is_ascii (s : string) : bool :=
  forallb (fun c => (nat_of_ascii c <? 128)%nat) (list_ascii_of_string s).

Definition active_section (before : list string) : option section_key :=
  last (omap (fun raw => recognized_header (strip raw)) before).

Definition bullet_item (line : string) : option string :=
  if startswith line "- " then
    let item := strip (drop_chars 2 line) in
    if is_empty item then None else Some item
  else None.

Definition collected_at (key : section_key) (lines : list string) (i : nat)
  : list string :=
  let line := strip (nth i lines EmptyString) in
  match recognized_header line, bullet_item line with
  | None, Some item =>
      match active_section (firstn i lines) with
      | Some key' => if section_key_eqb key' key then [item] else []
      | None => []
      end
  | _, _ => []
  end.

Definition spec_collect (key : section_key) (lines : list string)
  : list string :=
  flat_map (collected_at key lines) (seq 0 (length lines)).

(** ** Dicts, attribute access, truthiness, iteration *)

(** [str(n)] for an integer: its decimal digits, with a sign when negative. *)
Definition Z_to_string (z : Z) : string :=
  NilEmpty.string_of_int (Z.to_int z).

(** [d[key]] as an option. *)
Fixpoint dict_lookup (d : list (string * pyval)) (key : string)
  : option pyval :=
  match d with
  | [] => None
  | (k, v) :: d' => if String.eqb k key then Some v else dict_lookup d' key
  end.

(** [d[key] = v]: a key already present keeps its place. *)
Fixpoint dict_insert (key : string) (v : pyval) (d : list (string * pyval))
  : list (string * pyval) :=
  match d with
  | [] => [(key, v)]
  | (k, w) :: d' =>
      if String.eqb k key then (k, v) :: d'
      else (k, w) :: dict_insert key v d'
  end.

(** [dict(pairs)], and the merge of [d.update(other)] for a dict [other]. *)
Definition dict_merge (d other : list (string * pyval))
  : list (string * pyval) :=
  fold_left (fun acc kv => dict_insert (fst kv) (snd kv) acc) other d.

Definition type_name (v : pyval) : string :=
  match v with
  | PNone => "NoneType"
  | PBool _ => "bool"
  | PInt _ => "int"
  | PStr _ => "str"
  | PList _ => "list"
  | PDict _ => "dict"
  end.

Definition no_attribute (v : pyval) (attr : string) : exn :=
  Exn AttributeError
    ("'" +:+ type_name v +:+ "' object has no attribute '" +:+ attr +:+ "'").

(** [obj.get(key, default)]: only a dict has the method. *)
Definition py_get (obj : pyval) (key : string) (dflt : pyval)
  : result pyval :=
  match obj with
  | PDict d => Ok (default dflt (dict_lookup d key))
  | _ => Raise (no_attribute obj "get")
  end.

(** [bool(v)] *)
Definition py_truthy (v : pyval) : bool :=
  match v with
  | PNone => false
  | PBool b => b
  | PInt z => negb (z =? 0)
  | PStr s => negb (is_empty s)
  | PList l => match l with [] => false | _ => true end
  | PDict d => match d with [] => false | _ => true end
  end.

(** [iter(v)]: the items of a list, the characters of a string, the keys of
    a dict. *)
Definition py_iter (v : pyval) : result (list pyval) :=
  match v with
  | PList l => Ok l
  | PStr s => Ok (map PStr (utf8_chars s))
  | PDict d => Ok (map (fun kv => PStr (fst kv)) d)
  | _ => Raise (Exn TypeError
                  ("'" +:+ type_name v +:+ "' object is not iterable"))
  end.

(** ** [process_knowledge_chunk] *)

Definition processing_prompt (chunk : string) (chunk_index : Z) : string :=
  "
            You are analyzing Warren Buffett knowledge chunk " +:+ Z_to_string (chunk_index + 1) +:+ ".
            
            Your task is to:
            1. Extract the most important investment principles
            2. Identify specific strategies and methodologies
            3. Note any quantitative metrics or criteria mentioned
            4. Capture memorable quotes or key insights
            5. Summarize actionable advice
            
            Knowledge chunk:
            " +:+ chunk +:+ "
            
            Please provide a structured analysis focusing on practical investment wisdom.
            ".

(** [self.agent.run]: the attribute lookup fails when [agent] was never
    assigned. *)
Definition agent_run (self : service) : result (string -> result pyval) :=
  match agent self with
  | Some run => Ok run
  | None => Raise (Exn AttributeError
      "'KnowledgeChunkingService' object has no attribute 'agent'")
  end.

(** The body of the [try] block. The [await asyncio.to_thread(...)] is a
    plain call here: the thread and the scheduling are outside the model. *)
Definition chunk_attempt (self : service) (chunk : string) (chunk_index : Z)
  : result pyval :=
  let processing_prompt := processing_prompt chunk chunk_index in
  run ← agent_run self;
  result ← run processing_prompt;
  summary ← py_get result "summary" (PStr "");
  principles ← py_get result "principles" (PList []);
  insights ← py_get result "insights" (PList []);
  quotes ← py_get result "quotes" (PList []);
  metrics ← py_get result "metrics" (PDict []);
  Ok (PDict [("chunk_index", PInt chunk_index);
             ("summary", summary);
             ("principles", principles);
             ("insights", insights);
             ("quotes", quotes);
             ("metrics", metrics);
             ("processed", PBool true)]).

Definition process_knowledge_chunk (self : service) (chunk : string)
    (chunk_index : Z) : result pyval :=
  try_except
    (chunk_attempt self chunk chunk_index)
    (fun e =>
     Ok (PDict [("chunk_index", PInt chunk_index);
                ("error", PStr (exn_msg e));
                ("processed", PBool false)])).

(** The failed extraction as the specification describes it: the index, the
    failure flag, a message, and the five list fields present and empty. *)
Definition list_fields : list string :=
  ["principles"; "strategies"; "metrics"; "insights"; "quotes"].

Definition failed_extraction_as_specified (r : result pyval)
    (chunk_index : Z) : Prop :=
  exists d msg,
    r = Ok (PDict d)
    /\ dict_lookup d "chunk_index" = Some (PInt chunk_index)
    /\ dict_lookup d "processed" = Some (PBool false)
    /\ dict_lookup d "error" = Some (PStr msg)
    /\ forall key, In key list_fields -> dict_lookup d key = Some (PList []).

(** ** [list(set(items))] *)

(** Lists and dicts cannot be members of a set. *)
Definition hashable (v : pyval) : bool :=
  match v with
  | PList _ | PDict _ => false
  | _ => true
  end.

(** [a == b] on hashable values: [True] and [False] equal [1] and [0]. *)
Definition py_eqb (a b : pyval) : bool :=
  match a, b with
  | PNone, PNone => true
  | PStr s, PStr t => String.eqb s t
  | PInt x, PInt y => x =? y
  | PBool x, PBool y => Bool.eqb x y
  | PBool x, PInt y | PInt y, PBool x => (if x then 1 else 0) =? y
  | _, _ => false
  end.

(** The members of [set(items)]: the first of every group of equal items. *)
Fixpoint py_dedup (items : list pyval) : list pyval :=
  match items with
  | [] => []
  | x :: rest =>
      x :: List.filter (fun y => negb (py_eqb x y)) (py_dedup rest)
  end.

(** The order in which a set hands out its members is not specified by
    Python; every result below holds for every such order. *)
Class SetOrder := {
  iteration_order : list pyval -> list pyval;
  iteration_order_perm : forall l, Permutation (iteration_order l) l
}.

(** One admissible order, for concrete runs. *)
Definition insertion_order : SetOrder :=
  {| iteration_order := fun l => l;
     iteration_order_perm := fun l => Permutation_refl l |}.

Definition py_list_set {O : SetOrder} (items : list pyval)
  : result (list pyval) :=
  if forallb hashable items then Ok (iteration_order (py_dedup items))
  else Raise (Exn TypeError "unhashable type").

(** ** [_aggregate_processed_chunks] *)

Record accumulators := Acc {
  all_principles : list pyval;
  all_insights : list pyval;
  all_quotes : list pyval;
  all_metrics : list (string * pyval);
  summaries : list pyval
}.

(** [if chunk.get(key): acc.extend(chunk[key])] *)
Definition extend_from (chunk : pyval) (key : string) (acc : list pyval)
  : result (list pyval) :=
  v ← py_get chunk key PNone;
  if py_truthy v then
    items ← py_iter v;
    Ok (acc ++ items)
  else Ok acc.

(** [d.update(other)]. The service merges mappings; the second form of the
    argument of [dict.update], a sequence of key/value pairs, is not
    modelled and is reported as the error of a sequence of the wrong shape. *)
Definition dict_update (d : list (string * pyval)) (other : pyval)
  : result (list (string * pyval)) :=
  match other with
  | PDict o => Ok (dict_merge d o)
  | PList _ | PStr _ =>
      Raise (Exn ValueError "dictionary update sequence element has the wrong length")
  | _ => Raise (Exn TypeError
                  ("'" +:+ type_name other +:+ "' object is not iterable"))
  end.

(** The body of [for chunk in processed_chunks]. *)
Definition aggregate_chunk (acc : accumulators) (chunk : pyval)
  : result accumulators :=
  ps ← extend_from chunk "principles" (all_principles acc);
  ins ← extend_from chunk "insights" (all_insights acc);
  qs ← extend_from chunk "quotes" (all_quotes acc);
  m ← py_get chunk "metrics" PNone;
  ms ← (if py_truthy m then dict_update (all_metrics acc) m
        else Ok (all_metrics acc));
  sm ← py_get chunk "summary" PNone;
  Ok (Acc ps ins qs ms
        (if py_truthy sm then summaries acc ++ [sm] else summaries acc)).

Fixpoint for_each {S A : Type} (body : S -> A -> result S) (items : list A)
    (st : S) : result S :=
  match items with
  | [] => Ok st
  | x :: rest => st' ← body st x; for_each body rest st'
  end.

Definition _aggregate_processed_chunks {O : SetOrder}
    (processed_chunks : list pyval) : result pyval :=
  acc ← for_each aggregate_chunk processed_chunks (Acc [] [] [] [] []);
  investment_principles ← py_list_set (all_principles acc);
  key_insights ← py_list_set (all_insights acc);
  memorable_quotes ← py_list_set (all_quotes acc);
  Ok (PDict
        [("investment_principles", PList investment_principles);
         ("key_insights", PList key_insights);
         ("memorable_quotes", PList memorable_quotes);
         ("quantitative_metrics", PDict (all_metrics acc));
         ("chunk_summaries", PList (summaries acc));
         ("total_processed_chunks",
          PInt (Z.of_nat (length processed_chunks)))]).

(** *** Reading a digest as the specification does *)

(** The list under [key] of a chunk record, empty when absent. *)
Definition chunk_items (key : string) (chunk : pyval) : list pyval :=
  match chunk with
  | PDict d =>
      match dict_lookup d key with
      | Some (PList l) => l
      | _ => []
      end
  | _ => []
  end.

Definition is_str (v : pyval) : bool :=
  match v with
  | PStr _ => true
  | _ => false
  end.

Definition is_str_list (v : pyval) : bool :=
  match v with
  | PList l => forallb is_str l
  | _ => false
  end.

Definition is_dict (v : pyval) : bool :=
  match v with
  | PDict _ => true
  | _ => false
  end.

(** A chunk record of the expected shape: a dict whose [principles],
    [insights] and [quotes], when present, are lists of strings and whose
    [metrics], when present, is a dict. *)
Definition typed_chunk (chunk : pyval) : bool :=
  match chunk with
  | PDict d =>
      forallb
        (fun key =>
           match dict_lookup d key with
           | Some v => is_str_list v
           | None => true
           end)
        ["principles"; "insights"; "quotes"]
      && match dict_lookup d "metrics" with
         | Some v => is_dict v
         | None => true
         end
  | _ => false
  end.

(** [items] is the set union of the lists under [key] of the chunks: no
    item twice, and an item is there exactly when a chunk has it. *)
Definition union_of (key : string) (chunks : list pyval)
    (items : list pyval) : Prop :=
  List.NoDup items
  /\ forall v, In v items <-> exists chunk, In chunk chunks /\ In v (chunk_items key chunk).

(** Where the digest keeps the union for a field of the extractions. *)
Definition digest_field_is_union (digest : pyval)
    (digest_key chunk_key : string) (chunks : list pyval) : Prop :=
  exists d items,
    digest = PDict d
    /\ dict_lookup d digest_key = Some (PList items)
    /\ union_of chunk_key chunks items.

(** The mapping under [metrics] of a chunk record, empty when absent. *)
Definition chunk_metrics (chunk : pyval) : list (string * pyval) :=
  match chunk with
  | PDict d =>
      match dict_lookup d "metrics" with
      | Some (PDict m) => m
      | _ => []
      end
  | _ => []
  end.

(** The summary of a chunk record, when it has one that is not empty. *)
Definition chunk_summary (chunk : pyval) : list pyval :=
  match chunk with
  | PDict d =>
      match dict_lookup d "summary" with
      | Some v => if py_truthy v then [v] else []
      | None => []
      end
  | _ => []
  end.

(** The metrics of the chunks merged in order: for a key that several chunks
    give, the value of the last one. *)
Definition merged_metrics (chunks : list pyval) : list (string * pyval) :=
  fold_left (fun acc chunk => dict_merge acc (chunk_metrics chunk)) chunks [].

(** ** JSON text: [json.dump(obj, f, indent=2, ensure_ascii=False)]

    The encoder and the decoder of the [json] module, on [pyval]. Floats
    are outside [pyval]. The limits of the interpreter (depth of the stack,
    digits of an integer, memory) are not modelled. *)

Definition dquote : ascii := "034"%char.
Definition backslash : ascii := "\"%char.

Definition hex_digit (n : nat) : ascii :=
  if (n <? 10)%nat then ascii_of_nat (48 + n) else ascii_of_nat (87 + n).

(** [ESCAPE_DCT]: the replacement of a character inside a string literal. *)
Definition escape_char (c : ascii) : string :=
  let n := nat_of_ascii c in
  if Ascii.eqb c backslash then "\\"
  else if Ascii.eqb c dquote then String backslash (String dquote "")
  else if (n =? 8)%nat then "\b"
  else if (n =? 12)%nat then "\f"
  else if (n =? 10)%nat then "\n"
  else if (n =? 13)%nat then "\r"
  else if (n =? 9)%nat then "\t"
  else if (n <? 32)%nat then
    "\u00" +:+ String (hex_digit (n / 16)) (String (hex_digit (n mod 16)) "")
  else String c "".

Fixpoint escape_string (s : string) : string :=
  match s with
  | EmptyString => EmptyString
  | String c s' => escape_char c +:+ escape_string s'
  end.

(** [py_encode_basestring] *)
Definition encode_basestring (s : string) : string :=
  String dquote (escape_string s +:+ String dquote "").

Fixpoint spaces (n : nat) : string :=
  match n with
  | O => EmptyString
  | S n' => String " " (spaces n')
  end.

(** ['\n' + _indent * _current_indent_level] with [_indent = '  '] *)
Definition newline_indent (level : nat) : string :=
  String newline (spaces (2 * level)).

(** [_item_separator + newline_indent] *)
Definition item_separator (level : nat) : string :=
  String "," (newline_indent level).

(** [_iterencode], [_iterencode_list] and [_iterencode_dict], the yielded
    pieces put together. *)
Fixpoint iterencode (level : nat) (o : pyval) : string :=
  match o with
  | PStr s => encode_basestring s
  | PNone => "null"
  | PBool true => "true"
  | PBool false => "false"
  | PInt z => Z_to_string z
  | PList lst =>
      match lst with
      | [] => "[]"
      | _ =>
          String "[" (newline_indent (S level)
          +:+ join (item_separator (S level))
                (map (iterencode (S level)) lst)
          +:+ newline_indent level +:+ "]")
      end
  | PDict dct =>
      match dct with
      | [] => "{}"
      | _ =>
          String "{" (newline_indent (S level)
          +:+ join (item_separator (S level))
                (map (fun kv => encode_basestring (fst kv) +:+ ": "
                                +:+ iterencode (S level) (snd kv)) dct)
          +:+ newline_indent level +:+ "}")
      end
  end.

(** The text of one entry of a dict: the key, the key separator, the
    value. *)
Definition encode_pair (level : nat) (kv : string * pyval) : string :=
  encode_basestring (fst kv) +:+ ": " +:+ iterencode level (snd kv).

(** The text that [json.dump(obj, f, indent=2, ensure_ascii=False)] writes. *)
Definition json_dump (obj : pyval) : string := iterencode 0 obj.

(** The text that [json.dump(obj, f, ensure_ascii=False)] writes: without
    [indent] the items are separated by [', '] and nothing else. *)
Fixpoint iterencode_flat (o : pyval) : string :=
  match o with
  | PStr s => encode_basestring s
  | PNone => "null"
  | PBool true => "true"
  | PBool false => "false"
  | PInt z => Z_to_string z
  | PList lst =>
      match lst with
      | [] => "[]"
      | _ => String "[" (join ", " (map iterencode_flat lst) +:+ "]")
      end
  | PDict dct =>
      match dct with
      | [] => "{}"
      | _ =>
          String "{" (join ", "
                        (map (fun kv => encode_basestring (fst kv) +:+ ": "
                                        +:+ iterencode_flat (snd kv)) dct)
                      +:+ "}")
      end
  end.

(** ** JSON text: [json.load(f)] *)

Definition decode_error (msg : string) : exn := Exn JSONDecodeError msg.

(** [WHITESPACE]: space, tab, line feed, carriage return. *)
Definition is_json_ws (c : ascii) : bool :=
  let n := nat_of_ascii c in
  ((n =? 32) || (n =? 9) || (n =? 10) || (n =? 13))%nat.

Fixpoint skip_ws (s : string) : string :=
  match s with
  | String c s' => if is_json_ws c then skip_ws s' else s
  | EmptyString => EmptyString
  end.

Definition hex_value (c : ascii) : option N :=
  let n := N_of_ascii c in
  (if (48 <=? n) && (n <=? 57) then Some (n - 48)
   else if (97 <=? n) && (n <=? 102) then Some (n - 87)
   else if (65 <=? n) && (n <=? 70) then Some (n - 55)
   else None)%N.

(** [_decode_uXXXX] *)
Definition decode_uXXXX (h1 h2 h3 h4 : ascii) : option N :=
  a ← hex_value h1; b ← hex_value h2; c ← hex_value h3; d ← hex_value h4;
  Some (((a * 16 + b) * 16 + c) * 16 + d)%N.

(** [BACKSLASH]: the one-letter escapes. *)
Definition unescape (esc : ascii) : option ascii :=
  if Ascii.eqb esc dquote then Some dquote
  else if Ascii.eqb esc backslash then Some backslash
  else if Ascii.eqb esc "/" then Some "/"%char
  else if Ascii.eqb esc "b" then Some (ascii_of_nat 8)
  else if Ascii.eqb esc "f" then Some (ascii_of_nat 12)
  else if Ascii.eqb esc "n" then Some (ascii_of_nat 10)
  else if Ascii.eqb esc "r" then Some (ascii_of_nat 13)
  else if Ascii.eqb esc "t" then Some (ascii_of_nat 9)
  else None.

(** [scanstring] in strict mode, from the character after the opening
    quote: the content of the literal and the text after its closing
    quote. *)
Fixpoint scanstring (s : string) : result (string * string) :=
  match s with
  | EmptyString => Raise (decode_error "Unterminated string starting at")
  | String c s' =>
      if Ascii.eqb c dquote then Ok (EmptyString, s')
      else if Ascii.eqb c backslash then
        match s' with
        | EmptyString => Raise (decode_error "Unterminated string starting at")
        | String esc s'' =>
            if Ascii.eqb esc "u" then
              match s'' with
              | String h1 (String h2 (String h3 (String h4 t))) =>
                  match decode_uXXXX h1 h2 h3 h4 with
                  | None => Raise (decode_error "Invalid \uXXXX escape")
                  | Some uni =>
                      let single :=
                        '(content, rest) ← scanstring t;
                        Ok (utf8_encode uni +:+ content, rest) in
                      if ((55296 <=? uni) && (uni <=? 56319))%N then
                        match t with
                        | String b (String u
                            (String l1 (String l2 (String l3 (String l4 t2)))))
                          =>
                            if Ascii.eqb b backslash && Ascii.eqb u "u" then
                              match decode_uXXXX l1 l2 l3 l4 with
                              | None =>
                                  Raise (decode_error "Invalid \uXXXX escape")
                              | Some uni2 =>
                                  if ((56320 <=? uni2) && (uni2 <=? 57343))%N
                                  then
                                    '(content, rest) ← scanstring t2;
                                    Ok (utf8_encode
                                          (65536 + ((uni - 55296) * 1024
                                                    + (uni2 - 56320)))%N
                                        +:+ content, rest)
                                  else single
                              end
                            else single
                        | _ => single
                        end
                      else single
                  end
              | _ => Raise (decode_error "Invalid \uXXXX escape")
              end
            else
              match unescape esc with
              | None => Raise (decode_error "Invalid \escape")
              | Some ch =>
                  '(content, rest) ← scanstring s'';
                  Ok (String ch content, rest)
              end
        end
      else if (nat_of_ascii c <? 32)%nat then
        Raise (decode_error "Invalid control character at")
      else
        '(content, rest) ← scanstring s';
        Ok (String c content, rest)
  end.

Definition is_digit (c : ascii) : bool :=
  let n := nat_of_ascii c in ((48 <=? n) && (n <=? 57))%nat.

(** The longest run of digits at the head of a text, and what follows. *)
Fixpoint span_digits (s : string) : string * string :=
  match s with
  | String c s' =>
      if is_digit c then
        let '(ds, rest) := span_digits s' in (String c ds, rest)
      else (EmptyString, s)
  | EmptyString => (EmptyString, EmptyString)
  end.

(** The first group of [NUMBER_RE]: an optional minus sign, then either a
    single 0 or a digit from 1 to 9 with the digits that follow it. The
    result is the matched text and what follows. *)
Definition match_integer (s : string) : option (string * string) :=
  let '(sign, body) :=
    match s with
    | String c t => if Ascii.eqb c "-" then ("-", t) else ("", s)
    | EmptyString => ("", s)
    end in
  match body with
  | String c t =>
      if Ascii.eqb c "0" then Some (sign +:+ "0", t)
      else if is_digit c then
        let '(ds, rest) := span_digits t in Some (sign +:+ String c ds, rest)
      else None
  | EmptyString => None
  end.

(** The second group, [(\.[0-9]+)?], matches here. *)
Definition has_frac (s : string) : bool :=
  match s with
  | String c (String d _) => Ascii.eqb c "." && is_digit d
  | _ => false
  end.

(** The third group, [([eE][-+]?[0-9]+)?], matches here. *)
Definition has_exp (s : string) : bool :=
  match s with
  | String e (String d t) =>
      (Ascii.eqb e "e" || Ascii.eqb e "E")
      && (is_digit d
          || (Ascii.eqb d "+" || Ascii.eqb d "-")
             && match t with
                | String d' _ => is_digit d'
                | EmptyString => false
                end)
  | _ => false
  end.

(** A float is outside [pyval]: a text that holds one is not decoded, and
    the model reports it with the class of the decoding errors. *)
Definition float_outside_model : exn :=
  decode_error "a float is outside the modelled values".

(** [int(integer)] for a text matched by [match_integer]. *)
Definition int_of_text (integer : string) : Z :=
  match NilEmpty.int_of_string integer with
  | Some d => Z.of_int d
  | None => 0
  end.

(** [scan_once] with [JSONArray] and [JSONObject]. A [StopIteration] of
    [scan_once] is turned by every caller into the error "Expecting value",
    so it is that error from the start. The fuel bounds the number of
    values read on one path; [json_loads] gives enough of it. *)
Fixpoint scan_once (fuel : nat) (s : string) : result (pyval * string) :=
  match fuel with
  | O => Raise (Exn RecursionError "maximum recursion depth exceeded")
  | S fuel' =>
      match s with
      | EmptyString => Raise (decode_error "Expecting value")
      | String nextchar s' =>
          if Ascii.eqb nextchar dquote then
            '(content, rest) ← scanstring s';
            Ok (PStr content, rest)
          else if Ascii.eqb nextchar "{" then
            match skip_ws s' with
            | String c rest =>
                if Ascii.eqb c "}" then Ok (PDict [], rest)
                else if Ascii.eqb c dquote then object_items fuel' rest []
                else Raise (decode_error
                  "Expecting property name enclosed in double quotes")
            | EmptyString => Raise (decode_error
                  "Expecting property name enclosed in double quotes")
            end
          else if Ascii.eqb nextchar "[" then
            match skip_ws s' with
            | String c rest =>
                if Ascii.eqb c "]" then Ok (PList [], rest)
                else array_items fuel' (skip_ws s') []
            | EmptyString => Raise (decode_error "Expecting value")
            end
          else if startswith s "null" then Ok (PNone, drop_chars 4 s)
          else if startswith s "true" then Ok (PBool true, drop_chars 4 s)
          else if startswith s "false" then Ok (PBool false, drop_chars 5 s)
          else
            match match_integer s with
            | Some (integer, rest) =>
                if has_frac rest || has_exp rest then
                  Raise float_outside_model
                else Ok (PInt (int_of_text integer), rest)
            | None =>
                if startswith s "NaN" || startswith s "Infinity"
                   || startswith s "-Infinity"
                then Raise float_outside_model
                else Raise (decode_error "Expecting value")
            end
      end
  end

(** The loop of [JSONArray], at the start of a value. *)
with array_items (fuel : nat) (s : string) (values : list pyval)
  : result (pyval * string) :=
  match fuel with
  | O => Raise (Exn RecursionError "maximum recursion depth exceeded")
  | S fuel' =>
      '(value, rest) ← scan_once fuel' s;
      match skip_ws rest with
      | String c rest' =>
          if Ascii.eqb c "]" then Ok (PList (values ++ [value]), rest')
          else if Ascii.eqb c "," then
            array_items fuel' (skip_ws rest') (values ++ [value])
          else Raise (decode_error "Expecting ',' delimiter")
      | EmptyString => Raise (decode_error "Expecting ',' delimiter")
      end
  end

(** The loop of [JSONObject], after the opening quote of a key. *)
with object_items (fuel : nat) (s : string) (pairs : list (string * pyval))
  : result (pyval * string) :=
  match fuel with
  | O => Raise (Exn RecursionError "maximum recursion depth exceeded")
  | S fuel' =>
      '(key, rest) ← scanstring s;
      match skip_ws rest with
      | String c rest1 =>
          if Ascii.eqb c ":" then
            '(value, rest2) ← scan_once fuel' (skip_ws rest1);
            match skip_ws rest2 with
            | String c' rest3 =>
                if Ascii.eqb c' "}" then
                  Ok (PDict (dict_merge [] (pairs ++ [(key, value)])), rest3)
                else if Ascii.eqb c' "," then
                  match skip_ws rest3 with
                  | String q rest4 =>
                      if Ascii.eqb q dquote then
                        object_items fuel' rest4 (pairs ++ [(key, value)])
                      else Raise (decode_error
                        "Expecting property name enclosed in double quotes")
                  | EmptyString => Raise (decode_error
                        "Expecting property name enclosed in double quotes")
                  end
                else Raise (decode_error "Expecting ',' delimiter")
            | EmptyString => Raise (decode_error "Expecting ',' delimiter")
            end
          else Raise (decode_error "Expecting ':' delimiter")
      | EmptyString => Raise (decode_error "Expecting ':' delimiter")
      end
  end.

(** The byte order mark [U+FEFF] in UTF-8. *)
Definition utf8_bom : string :=
  String (ascii_of_nat 239) (String (ascii_of_nat 187)
    (String (ascii_of_nat 191) "")).

(** [json.loads(s)]: one value, white space around it, nothing else. *)
Definition json_loads (s : string) : result pyval :=
  if startswith s utf8_bom then
    Raise (decode_error "Unexpected UTF-8 BOM (decode using utf-8-sig)")
  else
    '(obj, rest) ← scan_once (S (String.length s)) (skip_ws s);
    match skip_ws rest with
    | EmptyString => Ok obj
    | String _ _ => Raise (decode_error "Extra data")
    end.

(** *** The values that the codec carries over *)

Fixpoint distinct (keys : list string) : bool :=
  match keys with
  | [] => true
  | k :: rest => negb (existsb (String.eqb k) rest) && distinct rest
  end.

(** The keys of a dict are distinct, at every depth. A [pyval] that stands
    for a Python value has this property. *)
Fixpoint distinct_keys (v : pyval) : bool :=
  match v with
  | PList l => forallb distinct_keys l
  | PDict d =>
      forallb (fun kv => distinct_keys (snd kv)) d && distinct (map fst d)
  | _ => true
  end.

(** The fuel that reading a value back takes: one unit for the value and
    one for each item of a list or dict, at every depth. *)
Fixpoint fuel_needed (v : pyval) : nat :=
  match v with
  | PList l => S (list_sum (map (fun x => S (fuel_needed x)) l))
  | PDict d => S (list_sum (map (fun kv => S (fuel_needed (snd kv))) d))
  | _ => 1%nat
  end.

(** A text on which a number stops: it does not go on with a digit, a
    fraction or an exponent. *)
Definition number_ends (s : string) : bool :=
  match s with
  | EmptyString => true
  | String c _ =>
      negb (is_digit c || Ascii.eqb c "." || Ascii.eqb c "e"
            || Ascii.eqb c "E")
  end.

(** The first character of a number: a digit or the minus sign. *)
Definition starts_number (s : string) : bool :=
  match s with
  | String c _ => is_digit c || Ascii.eqb c "-"
  | EmptyString => false
  end.

(** The first character of an encoded value: not white space, not a
    closing bracket, not the first byte of a byte order mark. *)
Definition plain_head (s : string) : bool :=
  match s with
  | String c _ =>
      negb (is_json_ws c) && negb (Ascii.eqb c "]")
      && negb (Ascii.eqb c (ascii_of_nat 239))
  | EmptyString => false
  end.

(** Reading back what the encoder wrote for a value, whatever the level of
    indentation and the text that follows, given the fuel. *)
Definition reads_back (v : pyval) : Prop :=
  forall level fuel rest,
    (fuel_needed v <= fuel)%nat ->
    number_ends rest = true ->
    scan_once fuel (iterencode level v +:+ rest) = Ok (v, rest).

(** ** The files *)

(** What the service sees of the file system: the text of the files that
    exist (and can be read), and the paths that can be opened for writing.
    The text of a file is its decoded content, in UTF-8. *)
Record filesystem := Filesystem {
  files : gmap string string;
  writable : string -> bool
}.

(** [open(filepath, 'r', encoding='utf-8')] followed by a full read *)
Definition read_text (fs : filesystem) (filepath : string) : result string :=
  match files fs !! filepath with
  | Some content => Ok content
  | None => Raise (Exn FileNotFoundError
                     ("No such file or directory: '" +:+ filepath +:+ "'"))
  end.

(** [open(filepath, 'w', encoding='utf-8')] followed by the writes: the file
    is replaced as a whole. *)
Definition write_text (fs : filesystem) (filepath content : string)
  : result filesystem :=
  if writable fs filepath then
    Ok {| files := <[filepath := content]> (files fs);
          writable := writable fs |}
  else Raise (Exn OSError ("cannot open for writing: '" +:+ filepath +:+ "'")).

(** ** [save_processed_knowledge] and [load_processed_knowledge] *)

Definition save_processed_knowledge (self : service) (filepath : string)
    (fs : filesystem) : result filesystem :=
  write_text fs filepath (json_dump (processed_knowledge self)).

(** The result carries the service after the call. The assignment to
    [self.processed_knowledge] is the last step of the [try] block, so the
    handler runs on the service as it was. *)
Definition load_processed_knowledge (self : service) (filepath : string)
    (fs : filesystem) : result (service * bool) :=
  try_except
    (content ← read_text fs filepath;
     loaded ← json_loads content;
     Ok (set_processed_knowledge self loaded, true))
    (fun e => Ok (self, false)).

(** *** One line or several *)

(** A text that occupies one line: it has no line feed, except possibly as
    its last character. *)
Fixpoint single_line (s : string) : bool :=
  match s with
  | EmptyString => true
  | String c s' => if Ascii.eqb c newline then is_empty s' else single_line s'
  end.

Fixpoint no_line_feed (s : string) : bool :=
  match s with
  | EmptyString => true
  | String c s' => negb (Ascii.eqb c newline) && no_line_feed s'
  end.

(** A list or a dict with at least one item. *)
Definition has_entries (v : pyval) : bool :=
  match v with
  | PList (_ :: _) | PDict (_ :: _) => true
  | _ => false
  end.

(** ** [get_condensed_knowledge_for_prompt] *)

(** [repr] of a list or a dict, which shows its strings quoted and escaped
    by rules that depend on the Unicode tables, is left open. *)
Class Repr := { py_repr : pyval -> string }.

(** One way to show them, for concrete runs: as JSON. *)
Definition json_repr : Repr := {| py_repr := json_dump |}.

(** What an f-string puts for [{v}]: [str(v)]. *)
Definition py_str {R : Repr} (v : pyval) : string :=
  match v with
  | PStr s => s
  | PInt z => Z_to_string z
  | PBool true => "True"
  | PBool false => "False"
  | PNone => "None"
  | PList _ | PDict _ => py_repr v
  end.

(** The items that [for x in v[:stop]] goes through. A dict cannot be
    sliced ([TypeError], [KeyError] from Python 3.12 on). *)
Definition sliced_items (v : pyval) (stop : Z) : result (list pyval) :=
  match v with
  | PList l => Ok (py_slice l 0 stop)
  | PStr s => Ok (map PStr (py_slice (utf8_chars s) 0 stop))
  | PDict _ => Raise (Exn TypeError "unhashable type: 'slice'")
  | _ => Raise (Exn TypeError
                  ("'" +:+ type_name v +:+ "' object is not subscriptable"))
  end.

(** [v.items()] *)
Definition py_items (v : pyval) : result (list (string * pyval)) :=
  match v with
  | PDict d => Ok d
  | _ => Raise (no_attribute v "items")
  end.

(** The values that the fields of the f-string are built from, in the order
    in which Python evaluates them. *)
Record condensed_sections := Sections {
  cs_total : pyval;
  cs_principles : list pyval;
  cs_insights : list pyval;
  cs_quotes : list pyval;
  cs_metrics : list (string * pyval)
}.

Definition condensed_sections_of (aggregated : pyval)
  : result condensed_sections :=
  total ← py_get aggregated "total_processed_chunks" (PInt 0);
  investment_principles ← py_get aggregated "investment_principles" (PList []);
  principles ← sliced_items investment_principles 20;
  key_insights ← py_get aggregated "key_insights" (PList []);
  insights ← sliced_items key_insights 15;
  memorable_quotes ← py_get aggregated "memorable_quotes" (PList []);
  quotes ← sliced_items memorable_quotes 10;
  quantitative_metrics ← py_get aggregated "quantitative_metrics" (PDict []);
  metrics ← py_items quantitative_metrics;
  Ok (Sections total principles insights quotes metrics).

Definition bullet {R : Repr} (item : pyval) : string := "• " +:+ py_str item.

Definition quoted_bullet {R : Repr} (item : pyval) : string :=
  "• " +:+ String dquote (py_str item +:+ String dquote "").

Definition metric_bullet {R : Repr} (entry : string * pyval) : string :=
  "• " +:+ fst entry +:+ ": " +:+ py_str (snd entry).

Definition lines (parts : list string) : string :=
  join (String newline "") parts.

(** The f-string, with its fixed banners. *)
Definition render_condensed {R : Repr} (s : condensed_sections) : string :=
  "
WARREN BUFFETT INVESTMENT WISDOM (Processed from " +:+ py_str (cs_total s)
  +:+ " knowledge chunks)

KEY INVESTMENT PRINCIPLES:
" +:+ lines (map bullet (cs_principles s)) +:+ "

CRITICAL INSIGHTS:
" +:+ lines (map bullet (cs_insights s)) +:+ "

MEMORABLE QUOTES:
" +:+ lines (map quoted_bullet (cs_quotes s)) +:+ "

QUANTITATIVE METRICS:
" +:+ lines (map metric_bullet (cs_metrics s)) +:+ "
".

Definition get_condensed_knowledge_for_prompt {R : Repr} (self : service)
  : result string :=
  if negb (py_truthy (processed_knowledge self)) then Ok ""
  else
    aggregated ← py_get (processed_knowledge self) "aggregated_knowledge"
                   (PDict []);
    sections ← condensed_sections_of aggregated;
    Ok (render_condensed sections).

(** The length of the banners of the f-string, in bytes. *)
Definition banner_length : nat :=
  String.length (render_condensed (R := json_repr)
                   (Sections (PStr "") [] [] [] [])).

(** A record whose digest has [n] metrics and nothing else. *)
Definition record_with_metrics (n : nat) : pyval :=
  PDict
    [("aggregated_knowledge",
      PDict
        [("quantitative_metrics",
          PDict (map (fun i => (Z_to_string (Z.of_nat i), PStr "high"))
                   (seq 0 n)))])].

(** A record whose digest has, besides one principle, the given entry for
    strategies. *)
Definition record_with_strategies (investment_strategies : pyval) : pyval :=
  PDict
    [("aggregated_knowledge",
      PDict
        [("investment_principles", PList [PStr "Circle of Competence"]);
         ("investment_strategies", investment_strategies);
         ("total_processed_chunks", PInt 1)])].

(** Every section of the condensed text holds at most [cap] items, for
    every valid record: what the specification asks of the rendering. *)
Definition sections_capped (cap : nat) : Prop :=
  forall self aggregated sections,
    distinct_keys (processed_knowledge self) = true ->
    py_get (processed_knowledge self) "aggregated_knowledge" (PDict [])
    = Ok aggregated ->
    condensed_sections_of aggregated = Ok sections ->
    (length (cs_principles sections) <= cap)%nat
    /\ (length (cs_insights sections) <= cap)%nat
    /\ (length (cs_quotes sections) <= cap)%nat
    /\ (length (cs_metrics sections) <= cap)%nat.

(** ** The definitions that are replaced

    The first half of the class holds a definition of
    [_aggregate_processed_chunks], of [get_condensed_knowledge_for_prompt]
    and of [save_processed_knowledge] too (lines 240 to 320 of the file).
    Python keeps the later ones, which are the ones above; the earlier ones
    are modelled in the module [Earlier], to set the two side by side. *)

(** [str(Path(filepath).with_suffix(suffix))]. The rules of [pathlib] on
    names (where the suffix of a name starts, which names are refused) are
    left open. *)
Class PathRules := { with_suffix : string -> string -> result string }.

Fixpoint has_dot (name : string) : bool :=
  match name with
  | EmptyString => false
  | String c name' => Ascii.eqb c "." || has_dot name'
  end.

Fixpoint stem (name : string) : string :=
  match name with
  | EmptyString => EmptyString
  | String c name' =>
      if Ascii.eqb c "." && negb (has_dot name') then EmptyString
      else String c (stem name')
  end.

(** One reading of them, for the plain file names of the concrete runs: the
    suffix of a name starts at its last dot. *)
Definition last_dot_rule : PathRules :=
  {| with_suffix := fun filepath suffix => Ok (stem filepath +:+ suffix) |}.

Module Earlier.

Record accumulators := Acc {
  all_principles : list pyval;
  all_strategies : list pyval;
  all_metrics : list pyval;
  all_insights : list pyval;
  all_quotes : list pyval
}.

(** The body of [for chunk in processed_chunks]. *)
Definition aggregate_chunk (acc : accumulators) (chunk : pyval)
  : result accumulators :=
  ps ← extend_from chunk "principles" (all_principles acc);
  ss ← extend_from chunk "strategies" (all_strategies acc);
  ms ← extend_from chunk "metrics" (all_metrics acc);
  ins ← extend_from chunk "insights" (all_insights acc);
  qs ← extend_from chunk "quotes" (all_quotes acc);
  Ok (Acc ps ss ms ins qs).

Definition _aggregate_processed_chunks {O : SetOrder}
    (processed_chunks : list pyval) : result pyval :=
  acc ← for_each aggregate_chunk processed_chunks (Acc [] [] [] [] []);
  investment_principles ← py_list_set (all_principles acc);
  investment_strategies ← py_list_set (all_strategies acc);
  quantitative_metrics ← py_list_set (all_metrics acc);
  key_insights ← py_list_set (all_insights acc);
  memorable_quotes ← py_list_set (all_quotes acc);
  Ok (PDict
        [("investment_principles", PList investment_principles);
         ("investment_strategies", PList investment_strategies);
         ("quantitative_metrics", PList quantitative_metrics);
         ("key_insights", PList key_insights);
         ("memorable_quotes", PList memorable_quotes);
         ("total_processed_chunks",
          PInt (Z.of_nat (length processed_chunks)))]).

(** The values that the fields of the f-string are built from, in the order
    in which Python evaluates them. *)
Record condensed_sections := Sections {
  cs_total : pyval;
  cs_principles : list pyval;
  cs_strategies : list pyval;
  cs_metrics : list pyval;
  cs_insights : list pyval;
  cs_quotes : list pyval
}.

Definition condensed_sections_of (aggregated : pyval)
  : result condensed_sections :=
  total ← py_get aggregated "total_processed_chunks" (PInt 0);
  investment_principles ← py_get aggregated "investment_principles" (PList []);
  principles ← sliced_items investment_principles 25;
  investment_strategies ← py_get aggregated "investment_strategies" (PList []);
  strategies ← sliced_items investment_strategies 20;
  quantitative_metrics ← py_get aggregated "quantitative_metrics" (PList []);
  metrics ← sliced_items quantitative_metrics 15;
  key_insights ← py_get aggregated "key_insights" (PList []);
  insights ← sliced_items key_insights 20;
  memorable_quotes ← py_get aggregated "memorable_quotes" (PList []);
  quotes ← sliced_items memorable_quotes 10;
  Ok (Sections total principles strategies metrics insights quotes).

(** The f-string, with its fixed banners. *)
Definition render_condensed {R : Repr} (s : condensed_sections) : string :=
  "
WARREN BUFFETT INVESTMENT WISDOM (Processed from " +:+ py_str (cs_total s)
  +:+ " knowledge chunks)

KEY INVESTMENT PRINCIPLES:
" +:+ lines (map bullet (cs_principles s)) +:+ "

INVESTMENT STRATEGIES:
" +:+ lines (map bullet (cs_strategies s)) +:+ "

QUANTITATIVE METRICS & CRITERIA:
" +:+ lines (map bullet (cs_metrics s)) +:+ "

CRITICAL INSIGHTS:
" +:+ lines (map bullet (cs_insights s)) +:+ "

MEMORABLE QUOTES:
" +:+ lines (map quoted_bullet (cs_quotes s)) +:+ "
".

Definition get_condensed_knowledge_for_prompt {R : Repr} (self : service)
  : result string :=
  if negb (py_truthy (processed_knowledge self)) then Ok ""
  else
    aggregated ← py_get (processed_knowledge self) "aggregated_knowledge"
                   (PDict []);
    sections ← condensed_sections_of aggregated;
    Ok (render_condensed sections).

(** [json.dump(self.processed_knowledge, f, ensure_ascii=False)] and
    [f.write('\n')] on the file opened at the path with the suffix
    [.jsonl]. *)
Definition save_processed_knowledge {P : PathRules} (self : service)
    (filepath : string) (fs : filesystem) : result filesystem :=
  filepath' ← with_suffix filepath ".jsonl";
  write_text fs filepath'
    (iterencode_flat (processed_knowledge self) +:+ String newline "").

End Earlier.

(** The length of the banners of the earlier f-string, in bytes. *)
Definition earlier_banner_length : nat :=
  String.length (Earlier.render_condensed (R := json_repr)
                   (Earlier.Sections (PStr "") [] [] [] [] [])).

(** A chunk record as the response parser fills it: a dict whose five list
    fields, when present, are lists of strings. *)
Definition typed_extraction (chunk : pyval) : bool :=
  match chunk with
  | PDict d =>
      forallb
        (fun key =>
           match dict_lookup d key with
           | Some v => is_str_list v
           | None => true
           end)
        list_fields
  | _ => false
  end.

(** ** Concrete services and records for the examples *)

Definition with_agent (self : service) (run : string -> result pyval)
  : service :=
  {| max_tokens_per_chunk := max_tokens_per_chunk self;
     overlap_tokens := overlap_tokens self;
     processed_knowledge := processed_knowledge self;
     agent := Some run |}.

(** A service whose chunker is set to the given limits. *)
Definition with_limits (self : service) (max_tokens overlap : Z) : service :=
  {| max_tokens_per_chunk := max_tokens;
     overlap_tokens := overlap;
     processed_knowledge := processed_knowledge self;
     agent := agent self |}.

(** A text of [n] characters. *)
Definition text_of_length (n : Z) : string :=
  string_of_list_ascii (repeat "a"%char (Z.to_nat n)).

(** The summarizer stubbed to answer with one principle for every chunk. *)
Definition stub_agent (prompt : string) : result pyval :=
  Ok (PDict [("principles", PList [PStr "Circle of Competence"])]).

Definition sample_chunks : list pyval :=
  [PDict [("chunk_index", PInt 0);
          ("summary", PStr "On price and value.");
          ("principles", PList [PStr "Margin of safety"; PStr "Moat"]);
          ("strategies", PList [PStr "Buy and hold"]);
          ("metrics", PDict [("ROE", PStr "above 15%")]);
          ("processed", PBool true)];
   PDict [("chunk_index", PInt 1);
          ("principles", PList [PStr "Moat"]);
          ("quotes", PList [PStr "Be fearful when others are greedy"]);
          ("metrics", PDict [("ROE", PStr "above 20%")]);
          ("processed", PBool true)]].

(** Two chunk records as the earlier [process_knowledge_chunk] fills them
    from the parsed answer. *)
Definition sample_extractions : list pyval :=
  [PDict [("chunk_index", PInt 0);
          ("principles", PList [PStr "Margin of safety"; PStr "Moat"]);
          ("strategies", PList [PStr "Buy and hold"]);
          ("metrics", PList []);
          ("insights", PList []);
          ("quotes", PList []);
          ("raw_response", PStr "PRINCIPLES:");
          ("processed", PBool true)];
   PDict [("chunk_index", PInt 1);
          ("principles", PList [PStr "Moat"]);
          ("strategies", PList [PStr "Buy and hold"]);
          ("metrics", PList []);
          ("insights", PList []);
          ("quotes", PList [PStr "Be fearful when others are greedy"]);
          ("raw_response", PStr "PRINCIPLES:");
          ("processed", PBool true)]].

(** A processed-knowledge record as [process_full_knowledge_base] builds
    it, with one principle in its digest. *)
Definition sample_record : pyval :=
  PDict
    [("total_chunks", PInt 4);
     ("successful_chunks", PInt 4);
     ("failed_chunks", PInt 0);
     ("aggregated_knowledge",
      PDict
        [("investment_principles", PList [PStr "Circle of Competence"]);
         ("key_insights", PList []);
         ("memorable_quotes", PList []);
         ("quantitative_metrics", PDict []);
         ("chunk_summaries", PList []);
         ("total_processed_chunks", PInt 4)]);
     ("processing_stats",
      PDict
        [("total_tokens", PInt 25000);
         ("tokens_per_chunk", PInt 8000);
         ("overlap_tokens", PInt 200)])].


(** A file system with no file, where every path can be written. *)
Definition empty_disk : filesystem :=
  {| files := ∅; writable := fun _ => true |}.

(** A file system with one file. *)
Definition disk_with (filepath content : string) : filesystem :=
  {| files := {[ filepath := content ]}; writable := fun _ => true |}.

(** ** The knowledge loader

    [prompts/warren_buffett_knowledge_loader.py]: the class
    [WarrenBuffettKnowledgeBase], its instance [_knowledge_base] of the
    module, and [get_warren_buffett_knowledge], which the service calls. *)

(** [s.replace(old, new)]: the occurrences of [old] are replaced from left
    to right, without overlap; [skip] counts the characters of an occurrence
    that are still to be passed over. An empty [old] matches before every
    character and at the end. *)
Fixpoint replace_from (old new : string) (skip : nat) (s : string) : string :=
  match s with
  | EmptyString => EmptyString
  | String c s' =>
      match skip with
      | S skip' => replace_from old new skip' s'
      | O =>
          if String.prefix old s then
            new +:+ replace_from old new (String.length old - 1) s'
          else String c (replace_from old new 0 s')
      end
  end.

Fixpoint replace_empty (new : string) (s : string) : string :=
  match s with
  | EmptyString => new
  | String c s' => new +:+ String c (replace_empty new s')
  end.

Definition replace (s old new : string) : string :=
  if is_empty old then replace_empty new s else replace_from old new 0 s.



(** [d[key] = value] on a dict of strings. *)
Fixpoint setitem (key value : string) (d : list (string * string))
  : list (string * string) :=
  match d with
  | [] => [(key, value)]
  | (k, w) :: d' =>
      if String.eqb k key then (k, value) :: d'
      else (k, w) :: setitem key value d'
  end.

Fixpoint getitem (d : list (string * string)) (key : string)
  : option string :=
  match d with
  | [] => None
  | (k, v) :: d' => if String.eqb k key then Some v else getitem d' key
  end.

(** What the loader finds on the disk. A folder is [None] when it does not
    exist, and otherwise the files that [glob("*.txt")] yields, in the order
    in which it yields them, each with its stem and with the text read from
    it, [None] when opening or reading it raises. *)
Record dataset := Dataset {
  extracted_texts : option (list (string * option string));
  transcripts_raw : option (list (string * option string));
  knowledge_base_file : option (option string)
}.

(** The three dicts hold [None] until the first load, which assigns them
    before anything reads them; they start empty here. *)
Record WarrenBuffettKnowledgeBase := KnowledgeBase {
  _data : list (string * string);
  _books : list (string * string);
  _transcripts : list (string * string);
  _loaded : bool
}.

(** [WarrenBuffettKnowledgeBase()], the value of [_knowledge_base] when the
    module is imported. *)
Definition new_knowledge_base : WarrenBuffettKnowledgeBase :=
  KnowledgeBase [] [] [] false.

(** The body of [for file_path in folder.glob("*.txt")], on the dict
    [_data] and on the dict of the folder. *)
Definition load_file (prefix : string)
    (dicts : list (string * string) * list (string * string))
    (file : string * option string)
  : list (string * string) * list (string * string) :=
  let '(data, named) := dicts in
  let '(stem, text) := file in
  match text with
  | Some raw =>
      let content := strip raw in
      if is_empty content then dicts
      else (setitem (prefix +:+ stem) content data,
            setitem stem content named)
  | None => dicts
  end.

Definition load_folder (prefix : string)
    (folder : option (list (string * option string)))
    (data : list (string * string))
  : list (string * string) * list (string * string) :=
  match folder with
  | Some files => fold_left (load_file prefix) files (data, [])
  | None => (data, [])
  end.

Definition _load_data (self : WarrenBuffettKnowledgeBase) (disk : dataset)
  : WarrenBuffettKnowledgeBase :=
  if _loaded self then self
  else
    let '(data, books) := load_folder "BOOK_" (extracted_texts disk) [] in
    let '(data, transcripts) :=
      load_folder "TRANSCRIPT_" (transcripts_raw disk) data in
    let data :=
      match knowledge_base_file disk with
      | Some (Some raw) =>
          let content := strip raw in
          if is_empty content then data
          else setitem "KNOWLEDGE_BASE" content data
      | _ => data
      end in
    KnowledgeBase data books transcripts true.

Definition book_section (entry : string * string) : list string :=
  let '(filename, content) := entry in
  let book_name := strip (replace (replace filename "_" " ") "(Z-Library)" "") in
  [String newline ("--- " +:+ book_name +:+ " ---"); content].

Definition transcript_section (entry : string * string) : list string :=
  let '(filename, content) := entry in
  let transcript_name := title (replace (replace filename "_" " ") "-" " ") in
  [String newline ("--- " +:+ transcript_name +:+ " ---"); content].

(** The list [sections] of [get_formatted_knowledge_base] before it is
    joined. *)
Definition formatted_sections (self : WarrenBuffettKnowledgeBase)
  : list string :=
  match getitem (_data self) "KNOWLEDGE_BASE" with
  | Some content =>
      ["========================================";
       "WARREN BUFFETT COMPREHENSIVE KNOWLEDGE BASE";
       "========================================";
       content]
  | None => []
  end
  ++ match _books self with
     | [] => []
     | books =>
         ["========================================";
          "WARREN BUFFETT BOOKS & LITERATURE";
          "========================================";
          "The following books contain Warren Buffett's investment philosophy, strategies, and wisdom:"]
         ++ flat_map book_section books
     end
  ++ match _transcripts self with
     | [] => []
     | transcripts =>
         [String newline "========================================";
          "WARREN BUFFETT INTERVIEWS & TRANSCRIPTS";
          "========================================";
          "The following transcripts contain Warren Buffett's actual words from interviews, shareholder meetings, and speeches:"]
         ++ flat_map transcript_section transcripts
     end.

(** The knowledge base after the call, and the text. *)
Definition get_formatted_knowledge_base (self : WarrenBuffettKnowledgeBase)
    (disk : dataset) : WarrenBuffettKnowledgeBase * string :=
  let self := _load_data self disk in
  (self, lines (formatted_sections self)).

(** [get_warren_buffett_knowledge()], with [_knowledge_base] passed in and
    out. *)
Definition get_warren_buffett_knowledge
    (_knowledge_base : WarrenBuffettKnowledgeBase) (disk : dataset)
  : WarrenBuffettKnowledgeBase * string :=
  get_formatted_knowledge_base _knowledge_base disk.

(** ** [process_full_knowledge_base] and [initialize_knowledge_base] *)

Definition count_tokens {T : Tokenizer} (text : string) : Z :=
  Z.of_nat (length (encode text)).

(** [asyncio.gather] on the tasks, with [return_exceptions=True]: the
    outcomes of the tasks, in the order of the tasks. A task that ends with an
    exception deriving from [Exception] gives that exception as its
    outcome; an interrupt or an exit in a task ends the run. The
    cancellation of a task from outside is not modelled; the tasks do not
    share state, so that the order in which they run does not matter. *)
Fixpoint gather (tasks : list (result pyval)) : result (list (pyval + exn)) :=
  match tasks with
  | [] => Ok []
  | task :: rest =>
      match task with
      | Ok v => outcomes ← gather rest; Ok (inl v :: outcomes)
      | Raise e =>
          if is_Exception e then
            outcomes ← gather rest; Ok (inr e :: outcomes)
          else Raise e
      end
  end.

(** [isinstance(chunk, dict) and chunk.get('processed', False)] *)
Definition is_successful (chunk : pyval + exn) : bool :=
  match chunk with
  | inl (PDict d) => py_truthy (default (PBool false) (dict_lookup d "processed"))
  | _ => false
  end.

(** [isinstance(chunk, Exception) or not chunk.get('processed', False)] *)
Definition is_failed (chunk : pyval + exn) : result bool :=
  match chunk with
  | inr e => Ok true
  | inl v => processed ← py_get v "processed" (PBool false);
             Ok (negb (py_truthy processed))
  end.

(** [[chunk for chunk in processed_chunks if test(chunk)]] for a test that
    may raise. *)
Fixpoint filter_chunks {A : Type} (test : A -> result bool) (chunks : list A)
  : result (list A) :=
  match chunks with
  | [] => Ok []
  | chunk :: rest =>
      keep ← test chunk;
      kept ← filter_chunks test rest;
      Ok (if (keep : bool) then chunk :: kept else kept)
  end.

(** The dicts among the outcomes. *)
Definition dicts_of (chunks : list (pyval + exn)) : list pyval :=
  omap (fun chunk => match chunk with inl v => Some v | inr _ => None end)
    chunks.

(** The call runs the chunker, and so runs on its fuel. The result carries
    the knowledge base of the loader after the call. *)
Definition process_full_knowledge_base {T : Tokenizer} {O : SetOrder}
    (self : service) (fuel : nat)
    (_knowledge_base : WarrenBuffettKnowledgeBase) (disk : dataset)
  : option (WarrenBuffettKnowledgeBase * result pyval) :=
  let '(_knowledge_base, full_knowledge) :=
    get_warren_buffett_knowledge _knowledge_base disk in
  let total_tokens := count_tokens full_knowledge in
  chunks ← chunk_knowledge_base self fuel full_knowledge;
  Some (_knowledge_base,
    (processed_chunks ←
       gather (imap (fun i chunk =>
                       process_knowledge_chunk self chunk (Z.of_nat i))
                 chunks);
     let successful_chunks :=
       dicts_of (List.filter is_successful processed_chunks) in
     failed_chunks ← filter_chunks is_failed processed_chunks;
     aggregated_knowledge ← _aggregate_processed_chunks successful_chunks;
     Ok (PDict
           [("total_chunks", PInt (Z.of_nat (length chunks)));
            ("successful_chunks",
             PInt (Z.of_nat (length successful_chunks)));
            ("failed_chunks", PInt (Z.of_nat (length failed_chunks)));
            ("aggregated_knowledge", aggregated_knowledge);
            ("processing_stats",
             PDict [("total_tokens", PInt total_tokens);
                    ("tokens_per_chunk", PInt (max_tokens_per_chunk self));
                    ("overlap_tokens", PInt (overlap_tokens self))])]))).

Definition initialize_knowledge_base {T : Tokenizer} {O : SetOrder}
    (self : service) (fuel : nat)
    (_knowledge_base : WarrenBuffettKnowledgeBase) (disk : dataset)
  : option (WarrenBuffettKnowledgeBase * result (service * bool)) :=
  '(_knowledge_base, processed) ←
    process_full_knowledge_base self fuel _knowledge_base disk;
  Some (_knowledge_base,
        try_except
          (processed_knowledge ← processed;
           Ok (set_processed_knowledge self processed_knowledge, true))
          (fun e => Ok (self, false))).

(** ** The agents that call the service

    [agent/warren_buffett_agent.py] and
    [agent/langgraph_warren_buffett_agent.py]: of each agent, the fields
    that the initialisation of the knowledge base reads or writes. The
    results carry the agent, the files and the knowledge base of the loader
    after the call. *)

Module WarrenBuffettAgent.

Record t := Agent {
  knowledge_service : service;
  knowledge_initialized : bool;
  condensed_knowledge : string
}.

Definition __init__ : t := Agent init_service false "".

Definition knowledge_cache_path : string := "processed_knowledge.json".

Definition with_service (self : t) (svc : service) : t :=
  Agent svc (knowledge_initialized self) (condensed_knowledge self).

Section Initialize.
Context {T : Tokenizer} {O : SetOrder} {R : Repr}.
Variable self : t.

(** The handler of the [try] block, run on the state that the block has
    reached. *)
Definition failed (svc : service) (fs : filesystem)
    (kb : WarrenBuffettKnowledgeBase) (e : exn)
  : result (t * filesystem * WarrenBuffettKnowledgeBase * bool) :=
  if is_Exception e then Ok (with_service self svc, fs, kb, false)
  else Raise e.

(** The end of the [try] block: the condensed text is taken and the agent
    is marked as initialised. *)
Definition finish (svc : service) (fs : filesystem)
    (kb : WarrenBuffettKnowledgeBase)
  : result (t * filesystem * WarrenBuffettKnowledgeBase * bool) :=
  match get_condensed_knowledge_for_prompt svc with
  | Ok text => Ok (Agent svc true text, fs, kb, true)
  | Raise e => failed svc fs kb e
  end.

Definition initialize_knowledge_base (fuel : nat) (fs : filesystem)
    (kb : WarrenBuffettKnowledgeBase) (disk : dataset)
  : option (result (t * filesystem * WarrenBuffettKnowledgeBase * bool)) :=
  if knowledge_initialized self then Some (Ok (self, fs, kb, true))
  else
    match load_processed_knowledge (knowledge_service self)
            knowledge_cache_path fs with
    | Raise e => Some (failed (knowledge_service self) fs kb e)
    | Ok (svc, true) => Some (finish svc fs kb)
    | Ok (svc, false) =>
        match initialize_knowledge_base svc fuel kb disk with
        | None => None
        | Some (kb, Raise e) => Some (failed svc fs kb e)
        | Some (kb, Ok (svc, true)) =>
            match save_processed_knowledge svc knowledge_cache_path fs with
            | Ok fs => Some (finish svc fs kb)
            | Raise e => Some (failed svc fs kb e)
            end
        | Some (kb, Ok (svc, false)) =>
            Some (Ok (with_service self svc, fs, kb, false))
        end
    end.
End Initialize.

End WarrenBuffettAgent.

Module LangGraphWarrenBuffettAgent.

Record t := Agent {
  knowledge_service : service;
  knowledge_initialized : bool;
  condensed_knowledge : string
}.

Definition __init__ : t := Agent init_service false "".

Section Initialize.
Context {T : Tokenizer} {O : SetOrder} {R : Repr}.
Variable self : t.

(** The path [base_dir / "processed_knowledge.jsonl"], which depends on
    where the package is installed. *)
Variable cache_path : string.

Definition finish (svc : service) (fs : filesystem)
    (kb : WarrenBuffettKnowledgeBase)
  : result (t * filesystem * WarrenBuffettKnowledgeBase) :=
  text ← get_condensed_knowledge_for_prompt svc;
  Ok (Agent svc true text, fs, kb).

Definition _initialize_knowledge_base (fuel : nat) (fs : filesystem)
    (kb : WarrenBuffettKnowledgeBase) (disk : dataset)
  : option (result (t * filesystem * WarrenBuffettKnowledgeBase)) :=
  if knowledge_initialized self then Some (Ok (self, fs, kb))
  else
    match load_processed_knowledge (knowledge_service self) cache_path fs with
    | Raise e => Some (Raise e)
    | Ok (svc, true) => Some (finish svc fs kb)
    | Ok (svc, false) =>
        match initialize_knowledge_base svc fuel kb disk with
        | None => None
        | Some (kb, Raise e) => Some (Raise e)
        | Some (kb, Ok (svc, _)) =>
            Some (fs ← save_processed_knowledge svc cache_path fs;
                  finish svc fs kb)
        end
    end.
End Initialize.

End LangGraphWarrenBuffettAgent.

(** ** Notions used to state the properties of the loader *)

(** A file that the loader keeps: it can be read and its text is not
    blank. *)
Definition usable (text : option string) : bool :=
  match text with
  | Some raw => negb (is_empty (strip raw))
  | None => false
  end.

(** The files of a folder, none when the folder does not exist. *)
Definition files_of (folder : option (list (string * option string)))
  : list (string * option string) :=
  match folder with
  | Some files => files
  | None => []
  end.

(** [part] occurs in [text]. *)
Definition occurs_in (part text : string) : Prop :=
  exists before after, text = before +:+ part +:+ after.

(** ** Notions used to state the properties of the pipeline *)

(** The test of [successful_chunks] on a record. *)
Definition was_processed (record : pyval) : bool := is_successful (inl record).

(** The record that [process_knowledge_chunk] returns for a chunk that it
    could not process. *)
Definition failed_record (chunk_index : Z) (e : exn) : pyval :=
  PDict [("chunk_index", PInt chunk_index);
         ("error", PStr (exn_msg e));
         ("processed", PBool false)].

(** The digest of no chunk at all. *)
Definition empty_digest : pyval :=
  PDict [("investment_principles", PList []);
         ("key_insights", PList []);
         ("memorable_quotes", PList []);
         ("quantitative_metrics", PDict []);
         ("chunk_summaries", PList []);
         ("total_processed_chunks", PInt 0)].

(** The record that [process_full_knowledge_base] returns. *)
Definition knowledge_record {T : Tokenizer} (self : service)
    (full_knowledge : string) (total successful : nat) (digest : pyval)
  : pyval :=
  PDict
    [("total_chunks", PInt (Z.of_nat total));
     ("successful_chunks", PInt (Z.of_nat successful));
     ("failed_chunks", PInt (Z.of_nat (total - successful)));
     ("aggregated_knowledge", digest);
     ("processing_stats",
      PDict [("total_tokens", PInt (count_tokens full_knowledge));
             ("tokens_per_chunk", PInt (max_tokens_per_chunk self));
             ("overlap_tokens", PInt (overlap_tokens self))])].

(** What [load_processed_knowledge] reads at a path: the record of the
    file, or the exception of the missing file or of the decoder. *)
Definition cached_record (fs : filesystem) (filepath : string)
  : result pyval :=
  content ← read_text fs filepath;
  json_loads content.

(** A summarizer whose answer holds a number where a list is expected. *)
Definition ill_typed_agent (prompt : string) : result pyval :=
  Ok (PDict [("principles", PInt 5)]).

(* ===================================================================== *)
(** * Properties *)

(** ** The result monad *)

Lemma bind_Ok {A B : Type} (a : A) (f : A -> result B) : (Ok a ≫= f) = f a.
Proof. reflexivity. Qed.

(** ** The chunker *)

Section ChunkerFacts.
Context {T : Tokenizer}.
Variable self : service.
Variable tokens : list token.

(** With a positive overlap the start index never reaches the end of a
    non-empty token list: the body leaves it at most at [len - overlap]. *)
Lemma chunk_step_running start_idx chunks :
  0 < overlap_tokens self ->
  start_idx < Z.of_nat (length tokens) ->
  exists start_idx',
    chunk_step self tokens start_idx chunks
    = Running start_idx' (chunks ++ [decode (py_slice tokens start_idx
          (Z.min (start_idx + max_tokens_per_chunk self)
                 (Z.of_nat (length tokens))))])
    /\ start_idx' < Z.of_nat (length tokens).
Proof.
  intros Hov Hlt. unfold chunk_step.
  destruct (Z.ltb_spec start_idx (Z.of_nat (length tokens))) as [_|Hge]; [|lia].
  set (end_idx := Z.min _ _).
  assert (end_idx <= Z.of_nat (length tokens)) by (subst end_idx; lia).
  destruct (Z.geb_spec (end_idx - overlap_tokens self) (Z.of_nat (length tokens)))
    as [Hbad|Hok]; [lia|].
  eexists; split; [reflexivity|lia].
Qed.

Lemma chunk_while_out_of_fuel fuel : forall start_idx chunks,
  0 < overlap_tokens self ->
  start_idx < Z.of_nat (length tokens) ->
  chunk_while self tokens fuel start_idx chunks = None.
Proof.
  induction fuel as [|fuel IH]; intros start_idx chunks Hov Hlt; [reflexivity|].
  destruct (chunk_step_running start_idx chunks Hov Hlt) as (s' & Hs & Hlt').
  simpl. rewrite Hs. now apply IH.
Qed.

Lemma chunk_iterate_running n : forall start_idx chunks,
  0 < overlap_tokens self ->
  start_idx < Z.of_nat (length tokens) ->
  exists start_idx' chunks',
    chunk_iterate self tokens n (Running start_idx chunks)
    = Running start_idx' chunks'
    /\ start_idx' < Z.of_nat (length tokens)
    /\ length chunks' = (length chunks + n)%nat.
Proof.
  induction n as [|n IH]; intros start_idx chunks Hov Hlt.
  - exists start_idx, chunks. repeat split; [assumption|simpl; lia].
  - destruct (chunk_step_running start_idx chunks Hov Hlt) as (s' & Hs & Hlt').
    simpl. rewrite Hs.
    destruct (IH s' (chunks ++ [decode (py_slice tokens start_idx
          (Z.min (start_idx + max_tokens_per_chunk self)
                 (Z.of_nat (length tokens))))]) Hov Hlt')
      as (s'' & c'' & Hit & Hlt'' & Hlen).
    exists s'', c''. repeat split; try assumption.
    rewrite Hlen, length_app. simpl. lia.
Qed.
End ChunkerFacts.

(** The loop does return when the overlap is zero. *)
Example chunk_without_overlap :
  chunk_knowledge_base (T := char_tokenizer) (with_limits init_service 2 0)
    4 "abcde" = Some ["ab"; "cd"; "e"].
Proof. reflexivity. Qed.

(** C1 fails on the code. With a positive overlap the loop of
    [chunk_knowledge_base] never ends on a text that has at least one token:
    once the window reaches the end of the tokens, the start index is set
    back to [len - overlap_tokens], which is below [len], so neither the
    [break] nor the loop test stops the loop, and the last window is
    appended again and again. No amount of fuel lets the function return,
    and after [n] turns the loop is still running with [n] chunks, whatever
    [max_tokens_per_chunk] is; this covers [max_tokens = 100],
    [overlap_tokens = 100]. *)
Theorem chunk_knowledge_base_diverges {T : Tokenizer} (self : service)
    (knowledge_text : string) :
  encode knowledge_text <> [] ->
  0 < overlap_tokens self ->
  (forall fuel, chunk_knowledge_base self fuel knowledge_text = None)
  /\ (forall n, exists start_idx chunks,
        chunk_iterate self (encode knowledge_text) n (Running 0 [])
        = Running start_idx chunks
        /\ length chunks = n).
Proof.
  intros Hne Hov.
  assert (Hlen : 0 < Z.of_nat (length (encode knowledge_text)))
    by (destruct (encode knowledge_text); [contradiction|simpl; lia]).
  split.
  - intros fuel. unfold chunk_knowledge_base.
    now apply chunk_while_out_of_fuel.
  - intros n.
    destruct (chunk_iterate_running self (encode knowledge_text) n 0 []
                Hov Hlen) as (start_idx & chunks & Hrun & _ & Hcount).
    exists start_idx, chunks. split; [exact Hrun|exact Hcount].
Qed.

Lemma chunk_knowledge_base_diverges_witness :
  encode (Tokenizer := char_tokenizer) "a" <> []
  /\ 0 < overlap_tokens (with_limits init_service 100 100)
  /\ forall fuel,
       chunk_knowledge_base (T := char_tokenizer)
         (with_limits init_service 100 100) fuel "a" = None.
Proof.
  assert (Hne : encode (Tokenizer := char_tokenizer) "a" <> [])
    by discriminate.
  assert (Hov : 0 < overlap_tokens (with_limits init_service 100 100))
    by reflexivity.
  split; [exact Hne|]. split; [exact Hov|].
  exact (proj1 (chunk_knowledge_base_diverges (T := char_tokenizer)
                  (with_limits init_service 100 100) "a" Hne Hov)).
Defined.

(** The first five turns of the loop on 25,000 tokens with the limits of
    [__init__]: four windows that cover the tokens, then the tail window
    again, with the start index left where it was. *)
Lemma chunk_iterate_25000 {T : Tokenizer} (tokens : list token) :
  Z.of_nat (length tokens) = 25000 ->
  chunk_iterate init_service tokens 4 (Running 0 [])
  = Running 24800
      [decode (py_slice tokens 0 8000);
       decode (py_slice tokens 7800 15800);
       decode (py_slice tokens 15600 23600);
       decode (py_slice tokens 23400 25000)]
  /\ chunk_iterate init_service tokens 5 (Running 0 [])
     = Running 24800
         [decode (py_slice tokens 0 8000);
          decode (py_slice tokens 7800 15800);
          decode (py_slice tokens 15600 23600);
          decode (py_slice tokens 23400 25000);
          decode (py_slice tokens 24800 25000)].
Proof.
  intros Hlen. unfold chunk_iterate, chunk_step. rewrite Hlen.
  split; reflexivity.
Qed.


(** ** The response parser *)

Lemma is_empty_true s : is_empty s = true -> s = EmptyString.
Proof. destruct s; [reflexivity|discriminate]. Qed.

(** The chain of tests of the loop recognises the headers of the
    specification. *)
Lemma recognized_header_of line : recognized_header line = header_of line.
Proof. reflexivity. Qed.

Lemma header_of_empty : header_of EmptyString = None.
Proof. reflexivity. Qed.

Lemma bullet_item_empty : bullet_item EmptyString = None.
Proof. reflexivity. Qed.

(** One turn of the loop, told with [bullet_item]. *)
Lemma parse_line_cases cur r raw :
  parse_line (cur, r) raw =
  match header_of (strip raw) with
  | Some key => (Some key, r)
  | None =>
      match cur, bullet_item (strip raw) with
      | Some key, Some item => (cur, section_append key item r)
      | _, _ => (cur, r)
      end
  end.
Proof.
  unfold parse_line, bullet_item.
  destruct (is_empty (strip raw)) eqn:He.
  - apply is_empty_true in He. rewrite He. simpl. now destruct cur.
  - destruct (header_of (strip raw)); [reflexivity|].
    destruct cur; [|reflexivity].
    destruct (startswith (strip raw) "- "); [|reflexivity].
    now destruct (is_empty (strip (drop_chars 2 (strip raw)))).
Qed.

Lemma parse_lines_app st a b :
  parse_lines st (a ++ b) = parse_lines (parse_lines st a) b.
Proof. apply fold_left_app. Qed.

Lemma parse_lines_cons st raw rest :
  parse_lines st (raw :: rest) = parse_lines (parse_line st raw) rest.
Proof. reflexivity. Qed.

Lemma parse_lines_nil st : parse_lines st [] = st.
Proof. reflexivity. Qed.

Lemma active_section_snoc before raw :
  active_section (before ++ [raw]) =
  match header_of (strip raw) with
  | Some key => Some key
  | None => active_section before
  end.
Proof.
  unfold active_section. rewrite omap_app. simpl.
  rewrite recognized_header_of.
  destruct (header_of (strip raw)) as [key|]; simpl.
  - apply last_snoc.
  - now rewrite app_nil_r.
Qed.

Lemma collected_at_snoc key lines raw i :
  (i < length lines)%nat ->
  collected_at key (lines ++ [raw]) i = collected_at key lines i.
Proof.
  intros Hi. unfold collected_at.
  rewrite app_nth1 by assumption.
  rewrite firstn_app.
  replace (i - length lines)%nat with 0%nat by lia.
  simpl. now rewrite app_nil_r.
Qed.

Lemma flat_map_agree {A B : Type} (f g : A -> list B) (l : list A) :
  (forall a, In a l -> f a = g a) -> flat_map f l = flat_map g l.
Proof.
  induction l as [|a l IH]; intros Hfg; [reflexivity|].
  simpl. rewrite Hfg by now left. f_equal. apply IH.
  intros b Hb. apply Hfg. now right.
Qed.

Lemma spec_collect_snoc key lines raw :
  spec_collect key (lines ++ [raw]) =
  spec_collect key lines ++ collected_at key (lines ++ [raw]) (length lines).
Proof.
  unfold spec_collect.
  rewrite length_app. simpl.
  rewrite seq_app, flat_map_app. simpl. rewrite app_nil_r.
  f_equal. apply flat_map_agree.
  intros i Hi. apply in_seq in Hi. apply collected_at_snoc. lia.
Qed.

Lemma collected_at_last key lines raw :
  collected_at key (lines ++ [raw]) (length lines) =
  match header_of (strip raw), bullet_item (strip raw) with
  | None, Some item =>
      match active_section lines with
      | Some key' => if section_key_eqb key' key then [item] else []
      | None => []
      end
  | _, _ => []
  end.
Proof.
  unfold collected_at.
  rewrite app_nth2 by lia. rewrite Nat.sub_diag. simpl.
  rewrite firstn_app, Nat.sub_diag, firstn_all. simpl.
  now rewrite app_nil_r.
Qed.

Lemma section_items_append key key' item r :
  section_items key (section_append key' item r) =
  section_items key r ++ (if section_key_eqb key' key then [item] else []).
Proof. destruct key, key'; simpl; now rewrite ?app_nil_r. Qed.

(** The loop invariant: the cursor is the active section and every list is
    what the specification collects. *)
Lemma parse_lines_invariant lines :
  fst (parse_lines (None, empty_parsed) lines) = active_section lines
  /\ forall key,
       section_items key (snd (parse_lines (None, empty_parsed) lines))
       = spec_collect key lines.
Proof.
  induction lines as [|raw lines IH] using rev_ind.
  - split; [reflexivity|]. now intros [].
  - destruct IH as [IHc IHr].
    rewrite parse_lines_app, parse_lines_cons, parse_lines_nil.
    destruct (parse_lines (None, empty_parsed) lines) as [cur r] eqn:Hst.
    simpl in IHc, IHr. subst cur.
    rewrite parse_line_cases, active_section_snoc.
    split.
    + destruct (header_of (strip raw)); [reflexivity|].
      now destruct (active_section lines), (bullet_item (strip raw)).
    + intros key. rewrite spec_collect_snoc, collected_at_last, <- IHr.
      destruct (header_of (strip raw)); simpl; [now rewrite app_nil_r|].
      destruct (active_section lines) as [key'|],
               (bullet_item (strip raw)) as [item|];
        simpl; rewrite ?app_nil_r; try reflexivity.
      apply section_items_append.
Qed.

(** Lines that change neither the cursor nor the result. *)
Lemma parse_line_skip st raw :
  header_of (strip raw) = None ->
  (fst st = None \/ bullet_item (strip raw) = None) ->
  parse_line st raw = st.
Proof.
  intros Hh Hb. destruct st as [cur r]. rewrite parse_line_cases, Hh.
  destruct Hb as [Hc|Hb]; simpl in *.
  - now subst cur.
  - rewrite Hb. now destruct cur.
Qed.

Lemma parse_lines_no_header pre : forall r,
  Forall (fun raw => header_of (strip raw) = None) pre ->
  parse_lines (None, r) pre = (None, r).
Proof.
  induction pre as [|raw pre IH]; intros r Hpre; [reflexivity|].
  inversion Hpre; subst.
  rewrite parse_lines_cons, parse_line_skip by (simpl; auto). now apply IH.
Qed.

Lemma bullet_item_not_bullet line :
  startswith line "- " = false -> bullet_item line = None.
Proof. unfold bullet_item. now intros ->. Qed.

Lemma collected_at_bullet key lines i item :
  In item (collected_at key lines i) ->
  startswith (strip (nth i lines EmptyString)) "- " = true
  /\ item = strip (drop_chars 2 (strip (nth i lines EmptyString)))
  /\ recognized_header (strip (nth i lines EmptyString)) = None
  /\ active_section (firstn i lines) = Some key.
Proof.
  unfold collected_at, bullet_item.
  destruct (recognized_header _); [intros []|].
  destruct (startswith _ "- "); [|intros []].
  destruct (is_empty _); [intros []|].
  destruct (active_section _) as [key'|]; [|intros []].
  destruct (section_key_eqb key' key) eqn:Hk; [|intros []].
  intros [<-|[]]. repeat split; try reflexivity.
  now destruct key', key.
Qed.

(** *** Which lines are headers *)

Lemma prefix_head a p b s :
  String.prefix (String a p) (String b s) = true -> a = b.
Proof. simpl. destruct (Ascii.ascii_dec a b); [trivial|discriminate]. Qed.

Lemma recognized_header_keyword line key :
  recognized_header line = Some key
  <-> startswith (upper line) (keyword key) = true.
Proof.
  unfold recognized_header, section_keys, startswith. cbn [List.find keyword].
  destruct (upper line) as [|c1 u]; [destruct key; split; discriminate|].
  repeat
    match goal with
    | |- context [if String.prefix ?kw (String c1 u) then _ else _] =>
        let E := fresh "E" in
        destruct (String.prefix kw (String c1 u)) eqn:E;
        [pose proof (prefix_head _ _ _ _ E) as Hc1;
         destruct key; cbn [keyword]; split; intros H;
         try reflexivity; try exact E; try discriminate H;
         try (apply prefix_head in H; congruence)|]
    end;
    try (destruct key; cbn [keyword]; split; congruence).
Qed.

(** On the ASCII characters the upper case of a character is one
    character, and a character of a keyword (a capital letter or the colon)
    is the upper case of itself and of its small letter only. *)
Lemma upper_char_ascii_table :
  forallb
    (fun n =>
       match upper_char (String (ascii_of_nat n) "") with
       | String d EmptyString =>
           forallb
             (fun k =>
                let x := nat_of_ascii (ascii_of_nat k) in
                implb ((65 <=? x) && (x <=? 90) || (x =? 58))%nat
                  (Bool.eqb (Ascii.eqb (ascii_of_nat k) d)
                     (same_letter (ascii_of_nat k) (ascii_of_nat n))))
             (seq 0 256)
       | _ => false
       end)
    (seq 0 128)
  = true.
Proof. vm_compute. reflexivity. Qed.

Lemma upper_char_ascii c :
  (nat_of_ascii c < 128)%nat ->
  exists d,
    upper_char (String c "") = String d ""
    /\ forall k,
         ((65 <=? nat_of_ascii k) && (nat_of_ascii k <=? 90)
          || (nat_of_ascii k =? 58))%nat = true ->
         Ascii.eqb k d = same_letter k c.
Proof.
  intros Hc. pose proof upper_char_ascii_table as H.
  rewrite forallb_forall in H.
  specialize (H (nat_of_ascii c)). rewrite ascii_nat_embedding in H.
  assert (Hin : In (nat_of_ascii c) (seq 0 128)) by (apply in_seq; lia).
  specialize (H Hin).
  destruct (upper_char (String c "")) as [|d [|? ?]]; try discriminate.
  exists d. split; [reflexivity|]. intros k Hk.
  rewrite forallb_forall in H.
  assert (Hk' : In (nat_of_ascii k) (seq 0 256)).
  { apply in_seq. pose proof (nat_ascii_bounded k). lia. }
  apply H in Hk'. rewrite ascii_nat_embedding in Hk'. cbv zeta in Hk'.
  rewrite Hk in Hk'. cbn [implb] in Hk'. now apply eqb_prop in Hk'.
Qed.

Lemma upper_ascii c rest :
  (nat_of_ascii c < 128)%nat -> is_ascii rest = true ->
  exists d,
    upper (String c rest) = String d (upper rest)
    /\ forall k,
         ((65 <=? nat_of_ascii k) && (nat_of_ascii k <=? 90)
          || (nat_of_ascii k =? 58))%nat = true ->
         Ascii.eqb k d = same_letter k c.
Proof.
  intros Hc Hrest. destruct (upper_char_ascii c Hc) as (d & Hd & Hsame).
  exists d. split; [|exact Hsame].
  unfold upper. cbn [utf8_chars].
  assert (Hcont : continues rest = false).
  { destruct rest as [|c' rest]; [reflexivity|]. simpl in *.
    apply andb_prop in Hrest as [Hc' _]. apply Nat.ltb_lt in Hc'.
    unfold is_continuation.
    destruct (128 <=? nat_of_ascii c')%nat eqn:E; [|reflexivity].
    apply Nat.leb_le in E. lia. }
  rewrite Hcont. cbn [map cat]. now rewrite Hd.
Qed.

Lemma prefix_upper_ascii kw : forall line,
  is_ascii line = true ->
  forallb
    (fun k => (65 <=? nat_of_ascii k) && (nat_of_ascii k <=? 90)
              || (nat_of_ascii k =? 58))%nat
    (list_ascii_of_string kw) = true ->
  String.prefix kw (upper line) = caseless_prefix kw line.
Proof.
  induction kw as [|k kw IH]; intros line Hline Hkw;
    [now destruct (upper line)|].
  simpl in Hkw. apply andb_prop in Hkw as [Hk Hkw].
  destruct line as [|c rest]; [reflexivity|].
  simpl in Hline. apply andb_prop in Hline as [Hc Hrest].
  apply Nat.ltb_lt in Hc.
  destruct (upper_ascii c rest Hc Hrest) as (d & -> & Hsame).
  cbn [String.prefix caseless_prefix]. rewrite <- (Hsame k Hk).
  destruct (Ascii.ascii_dec k d) as [->|Hkd].
  - rewrite Ascii.eqb_refl. now apply IH.
  - apply Ascii.eqb_neq in Hkd. now rewrite Hkd.
Qed.

(** C3. The response parser scans the lines with a cursor that switches
    on the five headers. For every response: (1) a line is recognised as a
    header by the loop exactly when its upper case starts with one of the
    keywords [PRINCIPLES:], [STRATEGIES:], [METRICS:], [INSIGHTS:],
    [QUOTES:], and it then opens the section of that keyword; (2) on a line
    of ASCII characters this is to say that the line starts with the
    keyword, each letter in either case; (3) each section of the result
    holds, in order, the items of the lines that begin with ["- "] (once
    stripped) and stand under a header of that section, the header in force
    being the last recognised one; (4) every collected item comes from a
    line that begins with ["- "], is not a header, and follows a header of
    its section; (5) the lines before the first header are discarded; (6) a
    line that is neither a header nor a bullet changes nothing, wherever it
    stands. Headers may come in any order, any number of times, and a
    section may stay empty: the parser is total. *)
Theorem parse_structured_response_spec (response : string) :
  (forall line key,
     header_of line = Some key
     <-> startswith (upper line) (keyword key) = true)
  /\ (forall line key,
        is_ascii line = true ->
        (header_of line = Some key
         <-> caseless_prefix (keyword key) line = true))
  /\ (forall key,
        section_items key (_parse_structured_response response)
        = spec_collect key (split_lines response))
  /\ (forall key item,
        In item (section_items key (_parse_structured_response response)) ->
        exists i,
          (i < length (split_lines response))%nat
          /\ startswith (strip (nth i (split_lines response) EmptyString)) "- "
             = true
          /\ item = strip (drop_chars 2
                      (strip (nth i (split_lines response) EmptyString)))
          /\ recognized_header
               (strip (nth i (split_lines response) EmptyString))
             = None
          /\ active_section (firstn i (split_lines response)) = Some key)
  /\ (forall pre rest,
        split_lines response = pre ++ rest ->
        Forall (fun raw => recognized_header (strip raw) = None) pre ->
        _parse_structured_response response
        = snd (parse_lines (None, empty_parsed) rest))
  /\ (forall pre raw post,
        split_lines response = pre ++ raw :: post ->
        recognized_header (strip raw) = None ->
        startswith (strip raw) "- " = false ->
        _parse_structured_response response
        = snd (parse_lines (None, empty_parsed) (pre ++ post))).
Proof.
  unfold _parse_structured_response.
  split; [|split; [|split; [|split; [|split]]]].
  - intros line key. rewrite <- recognized_header_of.
    apply recognized_header_keyword.
  - intros line key Hascii. rewrite <- recognized_header_of.
    rewrite recognized_header_keyword. unfold startswith.
    rewrite prefix_upper_ascii by (assumption || now destruct key).
    reflexivity.
  - apply parse_lines_invariant.
  - intros key item Hin.
    rewrite (proj2 (parse_lines_invariant _)) in Hin.
    unfold spec_collect in Hin. apply in_flat_map in Hin.
    destruct Hin as (i & Hi & Hin). apply in_seq in Hi.
    exists i. split; [lia|]. now apply collected_at_bullet with (key := key).
  - intros pre rest -> Hpre.
    now rewrite parse_lines_app, parse_lines_no_header.
  - intros pre raw post -> Hh Hb.
    rewrite !parse_lines_app, parse_lines_cons.
    rewrite parse_line_skip; [reflexivity|assumption|].
    right. now apply bullet_item_not_bullet.
Qed.

Lemma parse_structured_response_spec_witness :
  _parse_structured_response
    "Here is the analysis.
- not kept
principles: the core
- Margin of safety
   -   Moat   
some remark
QUOTES:
- Be fearful when others are greedy
Metrics:
"
  = Parsed ["Margin of safety"; "Moat"] [] [] []
      ["Be fearful when others are greedy"]
  /\ header_of "Metrics: a few" = Some metrics
  /\ section_items principles
       (_parse_structured_response
          "STRATEGIES:
PRINCIPLES:
- Moat
text")
     = spec_collect principles
         (split_lines
            "STRATEGIES:
PRINCIPLES:
- Moat
text").
Proof.
  split; [vm_compute; reflexivity|]. split.
  - apply (proj1 (proj2 (parse_structured_response_spec ""))
             "Metrics: a few" metrics); reflexivity.
  - exact (proj1 (proj2 (proj2 (parse_structured_response_spec
                  "STRATEGIES:
PRINCIPLES:
- Moat
text"))) principles).
Defined.

(** Outside ASCII the parser follows the interpreter: the no-break space
    [U+00A0] is white space, around a line and at the end of an item, and a
    line written with the dotless i [U+0131], whose upper case is [I], is a
    header. *)
Example parse_structured_response_unicode :
  _parse_structured_response
    ("pr" +:+ utf8_encode 305 +:+ "nc" +:+ utf8_encode 305 +:+ "ples:
- Moat" +:+ utf8_encode 160 +:+ "
" +:+ utf8_encode 160 +:+ "- Margin of safety
-" +:+ utf8_encode 160 +:+ "no bullet")
  = Parsed ["Moat"; "Margin of safety"] [] [] [] [].
Proof. vm_compute. reflexivity. Qed.


(** ** The chunk processor *)

(** What makes the attempt raise: no agent, an agent that raises, or an
    answer that is not a dict. *)
Lemma chunk_attempt_raises self chunk chunk_index e :
  chunk_attempt self chunk chunk_index = Raise e <->
  (agent self = None
   /\ e = Exn AttributeError
            "'KnowledgeChunkingService' object has no attribute 'agent'")
  \/ (exists run, agent self = Some run
        /\ run (processing_prompt chunk chunk_index) = Raise e)
  \/ (exists run answer, agent self = Some run
        /\ run (processing_prompt chunk chunk_index) = Ok answer
        /\ is_dict answer = false
        /\ e = no_attribute answer "get").
Proof.
  unfold chunk_attempt, agent_run.
  destruct (agent self) as [run|]; simpl.
  - destruct (run (processing_prompt chunk chunk_index)) as [answer|e'] eqn:Hrun;
      simpl.
    + destruct answer; simpl; split;
        try (intros [= <-]; right; right; eauto 10);
        try discriminate;
        try (intros [[? ?]|[(run' & [= <-] & Hr)|(run' & a & [= <-] & Hr & Hd & ->)]];
             congruence).
      intros [[? ?]|[(run' & [= <-] & Hr)|(run' & a & [= <-] & Hr & Hd & ->)]];
        try congruence.
      rewrite Hrun in Hr. injection Hr as <-. discriminate.
    + split.
      * intros [= <-]. right; left. eauto.
      * intros [[? ?]|[(run' & [= <-] & Hr)|(run' & a & [= <-] & Hr & _)]];
          congruence.
  - split.
    + intros [= <-]. now left.
    + intros [[_ ->]|[(run' & ? & _)|(run' & a & ? & _)]];
        [reflexivity|discriminate|discriminate].
Qed.

(** C4, as the code has it. When the attempt (the summarization call or the
    reading of its answer) raises an exception that derives from
    [Exception], [process_knowledge_chunk] returns a failed extraction and
    raises nothing: the record holds exactly the chunk's index, the message
    and the flag [processed = False]. None of the five list fields is in the
    record; a reader that asks for one with an empty default gets the
    empty list. An exception that does not derive from [Exception] is passed
    on to the caller. *)
Theorem process_knowledge_chunk_failure self chunk chunk_index e :
  chunk_attempt self chunk chunk_index = Raise e ->
  (is_Exception e = true ->
   process_knowledge_chunk self chunk chunk_index
   = Ok (PDict [("chunk_index", PInt chunk_index);
                ("error", PStr (exn_msg e));
                ("processed", PBool false)])
   /\ forall key, In key list_fields ->
        dict_lookup [("chunk_index", PInt chunk_index);
                     ("error", PStr (exn_msg e));
                     ("processed", PBool false)] key = None
        /\ py_get (PDict [("chunk_index", PInt chunk_index);
                          ("error", PStr (exn_msg e));
                          ("processed", PBool false)]) key (PList [])
           = Ok (PList []))
  /\ (is_Exception e = false ->
      process_knowledge_chunk self chunk chunk_index = Raise e).
Proof.
  intros Hraise. unfold process_knowledge_chunk, try_except.
  rewrite Hraise. split; intros Hexc; rewrite Hexc; [|reflexivity].
  split; [reflexivity|].
  intros key Hkey. unfold list_fields in Hkey. simpl in Hkey.
  destruct Hkey as [<-|[<-|[<-|[<-|[<-|[]]]]]]; split; reflexivity.
Qed.

Lemma process_knowledge_chunk_failure_witness :
  chunk_attempt init_service "Price is what you pay." 2
  = Raise (Exn AttributeError
             "'KnowledgeChunkingService' object has no attribute 'agent'")
  /\ process_knowledge_chunk init_service "Price is what you pay." 2
     = Ok (PDict [("chunk_index", PInt 2);
                  ("error", PStr
                     "'KnowledgeChunkingService' object has no attribute 'agent'");
                  ("processed", PBool false)]).
Proof.
  split; [reflexivity|].
  exact (proj1 (proj1 (process_knowledge_chunk_failure init_service
                         "Price is what you pay." 2
                         (Exn AttributeError
                            "'KnowledgeChunkingService' object has no attribute 'agent'")
                         eq_refl) eq_refl)).
Defined.

(** The failed record is not the one the specification describes: the list
    fields are missing. And an exception outside [Exception] is passed on to
    the caller. *)
Lemma failed_extraction_lacks_list_fields :
  ~ failed_extraction_as_specified
      (process_knowledge_chunk
         (with_agent init_service
            (fun _ => Raise (Exn RuntimeError "rate limit exceeded")))
         "Price is what you pay." 2) 2
  /\ process_knowledge_chunk
       (with_agent init_service
          (fun _ => Raise (Exn BaseExceptionOnly "cancelled")))
       "Price is what you pay." 2
     = Raise (Exn BaseExceptionOnly "cancelled").
Proof.
  split; [|reflexivity].
  intros (d & msg & Hr & _ & _ & _ & Hfields).
  injection Hr as <-.
  specialize (Hfields "principles" (or_introl eq_refl)).
  discriminate.
Qed.

(** ** The aggregator *)

Lemma py_eqb_str a b :
  is_str a = true -> is_str b = true -> (py_eqb a b = true <-> a = b).
Proof.
  destruct a, b; try discriminate. intros _ _. simpl.
  rewrite String.eqb_eq. split; congruence.
Qed.

Lemma py_dedup_incl items v : In v (py_dedup items) -> In v items.
Proof.
  revert v. induction items as [|x rest IH]; intros v; simpl; [tauto|].
  intros [->|Hv]; [now left|].
  apply filter_In in Hv. right. now apply IH.
Qed.

Lemma py_dedup_In items v :
  forallb is_str items = true ->
  (In v (py_dedup items) <-> In v items).
Proof.
  intros Hstr. split; [apply py_dedup_incl|].
  revert Hstr. induction items as [|x rest IH]; simpl; [tauto|].
  intros Hstr. apply andb_prop in Hstr as [Hx Hrest].
  intros [->|Hv]; [now left|].
  destruct (py_eqb x v) eqn:Hxv.
  - left. apply py_eqb_str; try assumption.
    rewrite forallb_forall in Hrest. now apply Hrest.
  - right. apply filter_In. split; [now apply IH|]. now rewrite Hxv.
Qed.

Lemma py_dedup_NoDup items :
  forallb is_str items = true -> List.NoDup (py_dedup items).
Proof.
  induction items as [|x rest IH]; simpl; [constructor|].
  intros Hstr. apply andb_prop in Hstr as [Hx Hrest].
  constructor.
  - intros Hin. apply filter_In in Hin as [Hin Hne].
    assert (Hxx : py_eqb x x = true)
      by (apply py_eqb_str; [assumption|assumption|reflexivity]).
    now rewrite Hxx in Hne.
  - apply List.NoDup_filter. now apply IH.
Qed.

Lemma forallb_app_true {A : Type} (f : A -> bool) (l1 l2 : list A) :
  forallb f l1 = true -> forallb f l2 = true -> forallb f (l1 ++ l2) = true.
Proof. intros H1 H2. rewrite forallb_app. now rewrite H1, H2. Qed.

Lemma is_str_hashable items :
  forallb is_str items = true -> forallb hashable items = true.
Proof.
  rewrite !forallb_forall. intros H v Hv. specialize (H v Hv).
  now destruct v.
Qed.

Section AggregatorFacts.
Context {O : SetOrder}.

Lemma py_list_set_strings items :
  forallb is_str items = true ->
  exists out,
    py_list_set items = Ok out
    /\ List.NoDup out
    /\ forall v, In v out <-> In v items.
Proof.
  intros Hstr. unfold py_list_set.
  rewrite (is_str_hashable _ Hstr).
  exists (iteration_order (py_dedup items)).
  pose proof (iteration_order_perm (py_dedup items)) as Hperm.
  split; [reflexivity|]. split.
  - apply (Permutation_NoDup (Permutation_sym Hperm)).
    now apply py_dedup_NoDup.
  - intros v. rewrite <- (py_dedup_In items v Hstr).
    split; apply Permutation_in; [assumption|now apply Permutation_sym].
Qed.

Lemma extend_from_typed d key acc :
  match dict_lookup d key with
  | Some v => is_str_list v
  | None => true
  end = true ->
  extend_from (PDict d) key acc = Ok (acc ++ chunk_items key (PDict d))
  /\ forallb is_str (chunk_items key (PDict d)) = true.
Proof.
  unfold extend_from, chunk_items. simpl.
  destruct (dict_lookup d key) as [v|]; simpl.
  - destruct v; try discriminate. intros Hl.
    destruct l; simpl; [now rewrite app_nil_r|]. now split.
  - intros _. now rewrite app_nil_r.
Qed.

Lemma aggregate_chunk_typed acc chunk :
  typed_chunk chunk = true ->
  aggregate_chunk acc chunk
  = Ok (Acc (all_principles acc ++ chunk_items "principles" chunk)
            (all_insights acc ++ chunk_items "insights" chunk)
            (all_quotes acc ++ chunk_items "quotes" chunk)
            (dict_merge (all_metrics acc) (chunk_metrics chunk))
            (summaries acc ++ chunk_summary chunk))
  /\ forallb is_str (chunk_items "principles" chunk) = true
  /\ forallb is_str (chunk_items "insights" chunk) = true
  /\ forallb is_str (chunk_items "quotes" chunk) = true.
Proof.
  destruct chunk as [| | | | |d]; try discriminate.
  unfold typed_chunk. cbn [forallb].
  rewrite !andb_true_iff. intros [(Hp & Hi & Hq & _) Hm].
  destruct (extend_from_typed d "principles" (all_principles acc) Hp)
    as [Ep Sp].
  destruct (extend_from_typed d "insights" (all_insights acc) Hi)
    as [Ei Si].
  destruct (extend_from_typed d "quotes" (all_quotes acc) Hq) as [Eq Sq].
  repeat split; try assumption.
  unfold aggregate_chunk. rewrite Ep, Ei, Eq. simpl.
  unfold chunk_metrics, chunk_summary.
  destruct (dict_lookup d "metrics") as [m|]; simpl.
  - destruct m; try discriminate. destruct d0 as [|kv m]; simpl.
    + destruct (dict_lookup d "summary") as [sm|]; simpl;
        [destruct (py_truthy sm)|]; now rewrite ?app_nil_r.
    + destruct (dict_lookup d "summary") as [sm|]; simpl;
        [destruct (py_truthy sm)|]; now rewrite ?app_nil_r.
  - destruct (dict_lookup d "summary") as [sm|]; simpl;
      [destruct (py_truthy sm)|]; now rewrite ?app_nil_r.
Qed.

Lemma for_each_typed chunks : forall acc,
  forallb typed_chunk chunks = true ->
  for_each aggregate_chunk chunks acc
  = Ok (Acc (all_principles acc ++ flat_map (chunk_items "principles") chunks)
            (all_insights acc ++ flat_map (chunk_items "insights") chunks)
            (all_quotes acc ++ flat_map (chunk_items "quotes") chunks)
            (fold_left (fun m chunk => dict_merge m (chunk_metrics chunk))
               chunks (all_metrics acc))
            (summaries acc ++ flat_map chunk_summary chunks))
  /\ forallb is_str (flat_map (chunk_items "principles") chunks) = true
  /\ forallb is_str (flat_map (chunk_items "insights") chunks) = true
  /\ forallb is_str (flat_map (chunk_items "quotes") chunks) = true.
Proof.
  induction chunks as [|chunk chunks IH]; intros acc Htyped.
  - simpl. rewrite !app_nil_r. now destruct acc.
  - simpl in Htyped. apply andb_prop in Htyped as [Hc Hcs].
    destruct (aggregate_chunk_typed acc chunk Hc) as (E & Sp & Si & Sq).
    cbn [for_each]. rewrite E. simpl mbind.
    destruct (IH (Acc (all_principles acc ++ chunk_items "principles" chunk)
            (all_insights acc ++ chunk_items "insights" chunk)
            (all_quotes acc ++ chunk_items "quotes" chunk)
            (dict_merge (all_metrics acc) (chunk_metrics chunk))
            (summaries acc ++ chunk_summary chunk)) Hcs)
      as (E' & Sp' & Si' & Sq').
    unfold mbind, result_bind. rewrite E'. cbn [all_principles all_insights all_quotes all_metrics summaries flat_map fold_left].
    rewrite <- !app_assoc.
    repeat split; try reflexivity; now apply forallb_app_true.
Qed.

Lemma in_flat_map_chunks key chunks v :
  In v (flat_map (chunk_items key) chunks) <->
  exists chunk, In chunk chunks /\ In v (chunk_items key chunk).
Proof. apply in_flat_map. Qed.
End AggregatorFacts.

(** X5. The aggregator in force. For every sequence of chunk records of the
    shape it expects it returns a digest with six entries:
    [investment_principles], [key_insights] and [memorable_quotes] are the
    set unions of the chunks' [principles], [insights] and [quotes] (no item
    twice, equality of strings deciding what a duplicate is, in an order that
    is not specified); [quantitative_metrics] is the mapping obtained by
    merging the chunks' [metrics] mappings, a later chunk replacing the value
    of a key; [chunk_summaries] lists the summaries; the count is the number
    of records. The digest has no entry for strategies. For the empty
    sequence every entry is empty and the count is zero. *)
Lemma aggregate_processed_chunks_spec {O : SetOrder} (chunks : list pyval) :
  forallb typed_chunk chunks = true ->
  (exists ps ins qs,
     _aggregate_processed_chunks chunks
     = Ok (PDict
             [("investment_principles", PList ps);
              ("key_insights", PList ins);
              ("memorable_quotes", PList qs);
              ("quantitative_metrics", PDict (merged_metrics chunks));
              ("chunk_summaries", PList (flat_map chunk_summary chunks));
              ("total_processed_chunks", PInt (Z.of_nat (length chunks)))])
     /\ union_of "principles" chunks ps
     /\ union_of "insights" chunks ins
     /\ union_of "quotes" chunks qs)
  /\ _aggregate_processed_chunks []
     = Ok (PDict
             [("investment_principles", PList []);
              ("key_insights", PList []);
              ("memorable_quotes", PList []);
              ("quantitative_metrics", PDict []);
              ("chunk_summaries", PList []);
              ("total_processed_chunks", PInt 0)]).
Proof.
  intros Htyped. split.
  - destruct (for_each_typed chunks (Acc [] [] [] [] []) Htyped)
      as (E & Sp & Si & Sq).
    destruct (py_list_set_strings _ Sp) as (ps & Ep & Np & Mp).
    destruct (py_list_set_strings _ Si) as (ins & Ei & Ni & Mi).
    destruct (py_list_set_strings _ Sq) as (qs & Eq & Nq & Mq).
    exists ps, ins, qs.
    unfold _aggregate_processed_chunks. rewrite E. simpl.
    unfold mbind, result_bind. rewrite Ep, Ei, Eq.
    split; [reflexivity|].
    unfold union_of.
    repeat split; try assumption;
      try (intros Hv; apply in_flat_map_chunks;
           first [now apply Mp | now apply Mi | now apply Mq]);
      try (intros Hv; apply in_flat_map_chunks in Hv;
           first [now apply Mp | now apply Mi | now apply Mq]).
  - unfold _aggregate_processed_chunks, py_list_set. simpl.
    pose proof (Permutation_nil
                  (Permutation_sym (iteration_order_perm []))) as ->.
    reflexivity.
Qed.

Lemma aggregate_processed_chunks_spec_witness :
  exists ps ins qs,
    _aggregate_processed_chunks (O := insertion_order) sample_chunks
    = Ok (PDict
            [("investment_principles", PList ps);
             ("key_insights", PList ins);
             ("memorable_quotes", PList qs);
             ("quantitative_metrics", PDict [("ROE", PStr "above 20%")]);
             ("chunk_summaries", PList [PStr "On price and value."]);
             ("total_processed_chunks", PInt 2)])
    /\ union_of "principles" sample_chunks ps
    /\ union_of "insights" sample_chunks ins
    /\ union_of "quotes" sample_chunks qs.
Proof.
  exact (proj1 (aggregate_processed_chunks_spec (O := insertion_order)
                  sample_chunks eq_refl)).
Defined.

(** On two records with a strategy and with metrics as a mapping: the
    digest has no union of the strategies, and its [quantitative_metrics] is
    a mapping, not a set of strings. *)
Lemma aggregate_drops_strategies :
  _aggregate_processed_chunks (O := insertion_order) sample_chunks
  = Ok (PDict
          [("investment_principles",
            PList [PStr "Margin of safety"; PStr "Moat"]);
           ("key_insights", PList []);
           ("memorable_quotes",
            PList [PStr "Be fearful when others are greedy"]);
           ("quantitative_metrics", PDict [("ROE", PStr "above 20%")]);
           ("chunk_summaries", PList [PStr "On price and value."]);
           ("total_processed_chunks", PInt 2)])
  /\ (forall digest,
        _aggregate_processed_chunks (O := insertion_order) sample_chunks
        = Ok digest ->
        (forall digest_key,
            ~ digest_field_is_union digest digest_key "strategies"
                sample_chunks)
        /\ ~ digest_field_is_union digest "quantitative_metrics" "metrics"
               sample_chunks).
Proof.
  split; [reflexivity|].
  intros digest [= <-]. split.
  - intros digest_key (d & items & [= <-] & Hlook & _ & Hmem).
    assert (Hin : In (PStr "Buy and hold") items).
    { apply Hmem. eexists. split; [left; reflexivity|]. simpl. now left. }
    simpl in Hlook.
    repeat match type of Hlook with
           | (if ?b then _ else _) = _ => destruct b
           end;
      try discriminate; injection Hlook as <-;
      simpl in Hin; intuition discriminate.
  - intros (d & items & [= <-] & Hlook & _). discriminate.
Qed.

(** *** The earlier definition and the one in force *)

Lemma earlier_aggregate_chunk_typed acc chunk :
  typed_extraction chunk = true ->
  Earlier.aggregate_chunk acc chunk
  = Ok (Earlier.Acc
          (Earlier.all_principles acc ++ chunk_items "principles" chunk)
          (Earlier.all_strategies acc ++ chunk_items "strategies" chunk)
          (Earlier.all_metrics acc ++ chunk_items "metrics" chunk)
          (Earlier.all_insights acc ++ chunk_items "insights" chunk)
          (Earlier.all_quotes acc ++ chunk_items "quotes" chunk))
  /\ forall key, In key list_fields ->
       forallb is_str (chunk_items key chunk) = true.
Proof.
  destruct chunk as [| | | | |d]; try discriminate.
  unfold typed_extraction, list_fields. cbn [forallb].
  rewrite !andb_true_iff. intros (Hp & Hs & Hm & Hi & Hq & _).
  destruct (extend_from_typed d "principles" (Earlier.all_principles acc) Hp)
    as [Ep Sp].
  destruct (extend_from_typed d "strategies" (Earlier.all_strategies acc) Hs)
    as [Es Ss].
  destruct (extend_from_typed d "metrics" (Earlier.all_metrics acc) Hm)
    as [Em Sm].
  destruct (extend_from_typed d "insights" (Earlier.all_insights acc) Hi)
    as [Ei Si].
  destruct (extend_from_typed d "quotes" (Earlier.all_quotes acc) Hq)
    as [Eq Sq].
  split.
  - unfold Earlier.aggregate_chunk. now rewrite Ep, Es, Em, Ei, Eq.
  - intros key [<-|[<-|[<-|[<-|[<-|[]]]]]]; assumption.
Qed.

Lemma earlier_for_each_typed chunks : forall acc,
  forallb typed_extraction chunks = true ->
  for_each Earlier.aggregate_chunk chunks acc
  = Ok (Earlier.Acc
          (Earlier.all_principles acc
           ++ flat_map (chunk_items "principles") chunks)
          (Earlier.all_strategies acc
           ++ flat_map (chunk_items "strategies") chunks)
          (Earlier.all_metrics acc ++ flat_map (chunk_items "metrics") chunks)
          (Earlier.all_insights acc
           ++ flat_map (chunk_items "insights") chunks)
          (Earlier.all_quotes acc ++ flat_map (chunk_items "quotes") chunks))
  /\ forall key, In key list_fields ->
       forallb is_str (flat_map (chunk_items key) chunks) = true.
Proof.
  induction chunks as [|chunk chunks IH]; intros acc Htyped.
  - simpl. rewrite !app_nil_r. now destruct acc.
  - simpl in Htyped. apply andb_prop in Htyped as [Hc Hcs].
    destruct (earlier_aggregate_chunk_typed acc chunk Hc) as [E S].
    cbn [for_each]. rewrite E, bind_Ok.
    destruct (IH (Earlier.Acc
          (Earlier.all_principles acc ++ chunk_items "principles" chunk)
          (Earlier.all_strategies acc ++ chunk_items "strategies" chunk)
          (Earlier.all_metrics acc ++ chunk_items "metrics" chunk)
          (Earlier.all_insights acc ++ chunk_items "insights" chunk)
          (Earlier.all_quotes acc ++ chunk_items "quotes" chunk)) Hcs)
      as [E' S'].
    rewrite E'.
    cbn [Earlier.all_principles Earlier.all_strategies Earlier.all_metrics
         Earlier.all_insights Earlier.all_quotes flat_map].
    rewrite <- !app_assoc. split; [reflexivity|].
    intros key Hkey. apply forallb_app_true; auto.
Qed.

Lemma union_of_flat_map key chunks items :
  List.NoDup items ->
  (forall v, In v items <-> In v (flat_map (chunk_items key) chunks)) ->
  union_of key chunks items.
Proof.
  intros Hnodup Hmem. split; [exact Hnodup|].
  intros v. rewrite Hmem. apply in_flat_map.
Qed.

(** The earlier definition of the aggregator: the five list fields of the
    digest are the set unions of the chunks' fields. *)
Lemma earlier_aggregate_unions {O : SetOrder} (chunks : list pyval) :
  forallb typed_extraction chunks = true ->
  exists ps ss ms ins qs,
    Earlier._aggregate_processed_chunks chunks
    = Ok (PDict
            [("investment_principles", PList ps);
             ("investment_strategies", PList ss);
             ("quantitative_metrics", PList ms);
             ("key_insights", PList ins);
             ("memorable_quotes", PList qs);
             ("total_processed_chunks", PInt (Z.of_nat (length chunks)))])
    /\ union_of "principles" chunks ps
    /\ union_of "strategies" chunks ss
    /\ union_of "metrics" chunks ms
    /\ union_of "insights" chunks ins
    /\ union_of "quotes" chunks qs.
Proof.
  intros Htyped.
  destruct (earlier_for_each_typed chunks (Earlier.Acc [] [] [] [] []) Htyped)
    as [E S].
  destruct (py_list_set_strings _ (S "principles" ltac:(simpl; tauto)))
    as (ps & Ep & Np & Mp).
  destruct (py_list_set_strings _ (S "strategies" ltac:(simpl; tauto)))
    as (ss & Es & Ns & Ms).
  destruct (py_list_set_strings _ (S "metrics" ltac:(simpl; tauto)))
    as (ms & Em & Nm & Mm).
  destruct (py_list_set_strings _ (S "insights" ltac:(simpl; tauto)))
    as (ins & Ei & Ni & Mi).
  destruct (py_list_set_strings _ (S "quotes" ltac:(simpl; tauto)))
    as (qs & Eq & Nq & Mq).
  exists ps, ss, ms, ins, qs.
  unfold Earlier._aggregate_processed_chunks. rewrite E, bind_Ok.
  cbn [Earlier.all_principles Earlier.all_strategies Earlier.all_metrics
       Earlier.all_insights Earlier.all_quotes app].
  rewrite Ep, bind_Ok, Es, bind_Ok, Em, bind_Ok, Ei, bind_Ok, Eq, bind_Ok.
  split; [reflexivity|].
  split; [|split; [|split; [|split]]];
    apply union_of_flat_map; assumption.
Qed.

(** The definition in force: whatever the chunks, a digest it returns has
    the six entries below, none of them for the strategies, and its metrics
    are a mapping. *)
Lemma aggregate_digest_entries {O : SetOrder} (chunks : list pyval) digest :
  _aggregate_processed_chunks chunks = Ok digest ->
  exists ps ins qs ms sms,
    digest = PDict
               [("investment_principles", PList ps);
                ("key_insights", PList ins);
                ("memorable_quotes", PList qs);
                ("quantitative_metrics", PDict ms);
                ("chunk_summaries", PList sms);
                ("total_processed_chunks", PInt (Z.of_nat (length chunks)))].
Proof.
  unfold _aggregate_processed_chunks.
  destruct (for_each aggregate_chunk chunks (Acc [] [] [] [] []))
    as [acc|e]; [|discriminate].
  rewrite bind_Ok.
  destruct (py_list_set (all_principles acc)) as [ps|e]; [|discriminate].
  rewrite bind_Ok.
  destruct (py_list_set (all_insights acc)) as [ins|e]; [|discriminate].
  rewrite bind_Ok.
  destruct (py_list_set (all_quotes acc)) as [qs|e]; [|discriminate].
  rewrite bind_Ok. intros [= <-]. eauto 10.
Qed.

(** C5 on the code. The claim holds of the earlier definition of the
    aggregator and fails on the one in force. For every sequence of chunk
    records whose list fields are lists of strings, the earlier definition
    returns a digest whose [investment_principles], [investment_strategies],
    [quantitative_metrics], [key_insights] and [memorable_quotes] are the set
    unions of the chunks' fields and whose count is the number of records;
    a digest returned by the definition in force has no entry
    [investment_strategies], and its [quantitative_metrics] is a mapping, so
    that neither is the union that the claim describes. *)
Theorem aggregate_processed_chunks_misses_strategies {O : SetOrder}
    (chunks : list pyval) :
  forallb typed_extraction chunks = true ->
  (exists digest,
     Earlier._aggregate_processed_chunks chunks = Ok digest
     /\ digest_field_is_union digest "investment_principles" "principles"
          chunks
     /\ digest_field_is_union digest "investment_strategies" "strategies"
          chunks
     /\ digest_field_is_union digest "quantitative_metrics" "metrics" chunks
     /\ digest_field_is_union digest "key_insights" "insights" chunks
     /\ digest_field_is_union digest "memorable_quotes" "quotes" chunks
     /\ py_get digest "total_processed_chunks" PNone
        = Ok (PInt (Z.of_nat (length chunks))))
  /\ (forall digest,
        _aggregate_processed_chunks chunks = Ok digest ->
        exists d,
          digest = PDict d
          /\ dict_lookup d "investment_strategies" = None
          /\ ~ digest_field_is_union digest "investment_strategies"
                 "strategies" chunks
          /\ ~ digest_field_is_union digest "quantitative_metrics" "metrics"
                 chunks).
Proof.
  intros Htyped. split.
  - destruct (earlier_aggregate_unions chunks Htyped)
      as (ps & ss & ms & ins & qs & E & Up & Us & Um & Ui & Uq).
    eexists. split; [exact E|].
    unfold digest_field_is_union.
    repeat (split; [eexists; eexists; split; [reflexivity|];
                    split; [reflexivity|assumption]|]).
    reflexivity.
  - intros digest Hdigest.
    destruct (aggregate_digest_entries chunks digest Hdigest)
      as (ps & ins & qs & ms & sms & ->).
    eexists. split; [reflexivity|]. split; [reflexivity|].
    split; intros (d & items & [= <-] & Hlook & _); discriminate.
Qed.

Lemma aggregate_processed_chunks_misses_strategies_witness :
  forallb typed_extraction sample_extractions = true
  /\ (exists digest,
        Earlier._aggregate_processed_chunks (O := insertion_order)
          sample_extractions = Ok digest
        /\ digest_field_is_union digest "investment_strategies" "strategies"
             sample_extractions)
  /\ (forall digest,
        _aggregate_processed_chunks (O := insertion_order) sample_extractions
        = Ok digest ->
        exists d,
          digest = PDict d /\ dict_lookup d "investment_strategies" = None).
Proof.
  split; [reflexivity|].
  destruct (aggregate_processed_chunks_misses_strategies
              (O := insertion_order) sample_extractions eq_refl)
    as [(digest & E & _ & Us & _) Hforce].
  split.
  - exists digest. split; assumption.
  - intros digest' Hd. destruct (Hforce digest' Hd) as (d & -> & Hnone & _).
    exists d. split; [reflexivity|assumption].
Defined.

(** The two definitions on two extractions as the response parser fills
    them: the earlier one returns the five unions, the one in force returns
    a digest without the strategy. *)
Example aggregate_two_definitions :
  Earlier._aggregate_processed_chunks (O := insertion_order)
    sample_extractions
  = Ok (PDict
          [("investment_principles",
            PList [PStr "Margin of safety"; PStr "Moat"]);
           ("investment_strategies", PList [PStr "Buy and hold"]);
           ("quantitative_metrics", PList []);
           ("key_insights", PList []);
           ("memorable_quotes",
            PList [PStr "Be fearful when others are greedy"]);
           ("total_processed_chunks", PInt 2)])
  /\ _aggregate_processed_chunks (O := insertion_order) sample_extractions
     = Ok (PDict
             [("investment_principles",
               PList [PStr "Margin of safety"; PStr "Moat"]);
              ("key_insights", PList []);
              ("memorable_quotes",
               PList [PStr "Be fearful when others are greedy"]);
              ("quantitative_metrics", PDict []);
              ("chunk_summaries", PList []);
              ("total_processed_chunks", PInt 2)]).
Proof. split; reflexivity. Qed.

(** ** The end-to-end scenario *)

(** With the stubbed summarizer every chunk is processed into the same
    record but for its index. *)
Lemma process_knowledge_chunk_stub chunk chunk_index :
  process_knowledge_chunk (with_agent init_service stub_agent) chunk chunk_index
  = Ok (PDict [("chunk_index", PInt chunk_index);
               ("summary", PStr "");
               ("principles", PList [PStr "Circle of Competence"]);
               ("insights", PList []);
               ("quotes", PList []);
               ("metrics", PDict []);
               ("processed", PBool true)]).
Proof. reflexivity. Qed.

(** C2 on the code. The second half of the claim holds: four extractions that
    each give the principle ["Circle of Competence"] aggregate into a digest
    whose principles are that one item and whose count is 4, for every
    iteration order of the set. The first half does not: on 25,000 tokens
    with [max_tokens_per_chunk = 8000] and [overlap_tokens = 200] the
    chunker makes the four expected windows, keeps going with a fifth chunk
    (the tail [24800..25000] again), and never returns. *)
Theorem end_to_end_scenario {T : Tokenizer} {O : SetOrder}
    (knowledge_text : string) :
  Z.of_nat (length (encode knowledge_text)) = 25000 ->
  (forall fuel, chunk_knowledge_base init_service fuel knowledge_text = None)
  /\ (exists chunks,
        chunk_iterate init_service (encode knowledge_text) 5 (Running 0 [])
        = Running 24800 chunks
        /\ length chunks = 5%nat)
  /\ (forall c0 c1 c2 c3 r0 r1 r2 r3,
        process_knowledge_chunk (with_agent init_service stub_agent) c0 0
        = Ok r0 ->
        process_knowledge_chunk (with_agent init_service stub_agent) c1 1
        = Ok r1 ->
        process_knowledge_chunk (with_agent init_service stub_agent) c2 2
        = Ok r2 ->
        process_knowledge_chunk (with_agent init_service stub_agent) c3 3
        = Ok r3 ->
        _aggregate_processed_chunks [r0; r1; r2; r3]
        = Ok (PDict
                [("investment_principles",
                  PList [PStr "Circle of Competence"]);
                 ("key_insights", PList []);
                 ("memorable_quotes", PList []);
                 ("quantitative_metrics", PDict []);
                 ("chunk_summaries", PList []);
                 ("total_processed_chunks", PInt 4)])).
Proof.
  intros Hlen. split; [|split].
  - intros fuel. unfold chunk_knowledge_base.
    apply chunk_while_out_of_fuel; [reflexivity|]. rewrite Hlen. reflexivity.
  - destruct (chunk_iterate_25000 (encode knowledge_text) Hlen) as [_ ->].
    eexists. split; reflexivity.
  - intros c0 c1 c2 c3 r0 r1 r2 r3.
    rewrite !process_knowledge_chunk_stub.
    intros [= <-] [= <-] [= <-] [= <-].
    unfold _aggregate_processed_chunks, py_list_set. simpl.
    pose proof (Permutation_nil
                  (Permutation_sym (iteration_order_perm []))) as ->.
    pose proof (Permutation_length_1_inv
                  (Permutation_sym
                     (iteration_order_perm [PStr "Circle of Competence"])))
      as ->.
    reflexivity.
Qed.

Lemma end_to_end_scenario_witness :
  Z.of_nat (length (encode (Tokenizer := char_tokenizer)
                      (text_of_length 25000))) = 25000
  /\ (forall fuel,
        chunk_knowledge_base (T := char_tokenizer) init_service fuel
          (text_of_length 25000) = None).
Proof.
  assert (Hlen : Z.of_nat (length (encode (Tokenizer := char_tokenizer)
                                     (text_of_length 25000))) = 25000)
    by (vm_compute; reflexivity).
  split; [exact Hlen|].
  exact (proj1 (end_to_end_scenario (T := char_tokenizer)
                  (O := insertion_order) (text_of_length 25000) Hlen)).
Defined.

(** ** Text *)

#[local] Arguments String.append !s1 s2 : simpl nomatch.

Lemma append_assoc (a b c : string) : (a +:+ b) +:+ c = a +:+ (b +:+ c).
Proof. induction a as [|x a IH]; simpl; [reflexivity|now rewrite IH]. Qed.

Lemma append_nil_r (a : string) : a +:+ "" = a.
Proof. induction a as [|x a IH]; simpl; [reflexivity|now rewrite IH]. Qed.

Lemma join_cons sep p q parts :
  join sep (p :: q :: parts) = p +:+ sep +:+ join sep (q :: parts).
Proof. reflexivity. Qed.

Lemma length_append (a b : string) :
  String.length (a +:+ b) = (String.length a + String.length b)%nat.
Proof. induction a as [|x a IH]; simpl; [reflexivity|now rewrite IH]. Qed.

(** ** The JSON codec: string literals *)

Lemma scanstring_escape_char c tail :
  scanstring (escape_char c +:+ tail)
  = '(content, rest) ← scanstring tail; Ok (String c content, rest).
Proof. destruct c as [[] [] [] [] [] [] [] []]; reflexivity. Qed.

Lemma scanstring_escape_string s rest :
  scanstring (escape_string s +:+ String dquote rest) = Ok (s, rest).
Proof.
  induction s as [|c s IH]; [reflexivity|].
  simpl escape_string. rewrite append_assoc, scanstring_escape_char.
  now rewrite IH.
Qed.

(** ** The JSON codec: integers *)

Lemma span_digits_uint d rest :
  number_ends rest = true ->
  span_digits (NilEmpty.string_of_uint d +:+ rest)
  = (NilEmpty.string_of_uint d, rest).
Proof.
  intros Hend.
  induction d as [|d IH|d IH|d IH|d IH|d IH|d IH|d IH|d IH|d IH|d IH];
    try (simpl; rewrite IH; reflexivity).
  simpl. destruct rest as [|c rest]; [reflexivity|].
  simpl. unfold number_ends in Hend.
  destruct (is_digit c); [discriminate|reflexivity].
Qed.

(** The decimal form of a positive number does not start with a zero. *)
Lemma to_uint_head p :
  match Pos.to_uint p with
  | Decimal.Nil | Decimal.D0 _ => False
  | _ => True
  end.
Proof.
  pose proof (DecimalPos.Unsigned.to_of (Pos.to_uint p)) as Hnorm.
  rewrite DecimalPos.Unsigned.of_to in Hnorm. simpl in Hnorm.
  pose proof (DecimalPos.Unsigned.to_uint_nonnil p) as Hnil.
  pose proof (DecimalPos.Unsigned.to_uint_nonzero p) as Hzero.
  destruct (Pos.to_uint p) as [|u|u|u|u|u|u|u|u|u|u]; try exact I.
  - now apply Hnil.
  - rewrite DecimalFacts.unorm_D0 in Hnorm.
    assert (Hu : u = Decimal.Nil \/ u <> Decimal.Nil)
      by (destruct u; [now left|right; discriminate ..]).
    destruct Hu as [->|Hu]; [now apply Hzero|].
    pose proof (DecimalFacts.nb_digits_unorm u Hu) as Hlen.
    rewrite <- Hnorm in Hlen. simpl in Hlen. lia.
Qed.

Lemma number_ends_no_frac rest :
  number_ends rest = true -> has_frac rest || has_exp rest = false.
Proof.
  destruct rest as [|c rest]; [reflexivity|].
  unfold number_ends, has_frac, has_exp.
  rewrite !negb_true_iff, !orb_false_iff. intros [[[_ Hdot] He] HE].
  rewrite Hdot, He, HE. now destruct rest.
Qed.

Lemma match_integer_digits sign c ds rest :
  (sign = EmptyString \/ sign = "-"%string) ->
  is_digit c = true -> Ascii.eqb c "0" = false ->
  span_digits (ds +:+ rest) = (ds, rest) ->
  match_integer (sign +:+ String c ds +:+ rest)
  = Some (sign +:+ String c ds, rest).
Proof.
  intros Hsign Hdigit Hzero Hspan. unfold match_integer.
  assert (Hminus : Ascii.eqb c "-" = false).
  { destruct c as [[] [] [] [] [] [] [] []]; try reflexivity; discriminate. }
  destruct Hsign as [-> | ->]; simpl.
  - now rewrite Hminus, Hzero, Hdigit, Hspan.
  - now rewrite Hzero, Hdigit, Hspan.
Qed.

Lemma match_integer_Z z rest :
  number_ends rest = true ->
  match_integer (Z_to_string z +:+ rest) = Some (Z_to_string z, rest).
Proof.
  intros Hend. unfold Z_to_string.
  destruct z as [|p|p]; [reflexivity| |].
  - pose proof (to_uint_head p) as Hhead. simpl.
    destruct (Pos.to_uint p) as [|d|d|d|d|d|d|d|d|d|d];
      try contradiction;
      apply (match_integer_digits EmptyString); auto using span_digits_uint.
  - pose proof (to_uint_head p) as Hhead. simpl.
    destruct (Pos.to_uint p) as [|d|d|d|d|d|d|d|d|d|d];
      try contradiction;
      apply (match_integer_digits "-"); auto using span_digits_uint.
Qed.

Lemma int_of_text_Z z : int_of_text (Z_to_string z) = z.
Proof.
  unfold int_of_text, Z_to_string.
  now rewrite NilEmpty.isi, DecimalZ.of_to.
Qed.

Lemma Z_to_string_starts_number z rest :
  starts_number (Z_to_string z +:+ rest) = true.
Proof.
  unfold Z_to_string. destruct z as [|p|p]; [reflexivity| |reflexivity].
  pose proof (to_uint_head p) as Hhead. simpl.
  now destruct (Pos.to_uint p).
Qed.

Lemma scan_once_number fuel s :
  starts_number s = true ->
  scan_once (S fuel) s =
  match match_integer s with
  | Some (integer, rest) =>
      if has_frac rest || has_exp rest then Raise float_outside_model
      else Ok (PInt (int_of_text integer), rest)
  | None =>
      if startswith s "NaN" || startswith s "Infinity"
         || startswith s "-Infinity"
      then Raise float_outside_model
      else Raise (decode_error "Expecting value")
  end.
Proof.
  destruct s as [|c s]; [discriminate|].
  destruct c as [[] [] [] [] [] [] [] []]; try discriminate;
    intros _; reflexivity.
Qed.

Lemma scan_once_int fuel z rest :
  number_ends rest = true ->
  scan_once (S fuel) (Z_to_string z +:+ rest) = Ok (PInt z, rest).
Proof.
  intros Hend.
  rewrite scan_once_number by apply Z_to_string_starts_number.
  rewrite match_integer_Z by assumption.
  now rewrite number_ends_no_frac, int_of_text_Z.
Qed.

(** ** The JSON codec: values *)

(** Induction on a value with the hypothesis for the items of a list and
    the values of a dict. *)
Lemma pyval_induction (P : pyval -> Prop) :
  P PNone ->
  (forall b, P (PBool b)) ->
  (forall z, P (PInt z)) ->
  (forall s, P (PStr s)) ->
  (forall l, Forall P l -> P (PList l)) ->
  (forall d, Forall (fun kv => P (snd kv)) d -> P (PDict d)) ->
  forall v, P v.
Proof.
  intros HNone HBool HInt HStr HList HDict.
  fix IH 1. intros [| b | z | s | l | d].
  - exact HNone.
  - apply HBool.
  - apply HInt.
  - apply HStr.
  - apply HList. induction l as [|x l IHl]; constructor; [apply IH|exact IHl].
  - apply HDict. induction d as [|kv d IHd]; constructor;
      [apply IH|exact IHd].
Qed.

Lemma skip_ws_spaces n s : skip_ws (spaces n +:+ s) = skip_ws s.
Proof. induction n as [|n IH]; simpl; [reflexivity|exact IH]. Qed.

Lemma skip_ws_newline_indent level s :
  skip_ws (newline_indent level +:+ s) = skip_ws s.
Proof. unfold newline_indent. simpl. apply skip_ws_spaces. Qed.

Lemma number_ends_newline_indent level s :
  number_ends (newline_indent level +:+ s) = true.
Proof. reflexivity. Qed.

Lemma starts_number_plain_head s : starts_number s = true -> plain_head s = true.
Proof.
  destruct s as [|c s]; [discriminate|].
  destruct c as [[] [] [] [] [] [] [] []]; try discriminate; reflexivity.
Qed.

Lemma iterencode_plain_head level v rest :
  plain_head (iterencode level v +:+ rest) = true.
Proof.
  destruct v as [| [] | z | s | [|x l] | [|kv d]]; try reflexivity.
  simpl. apply starts_number_plain_head, Z_to_string_starts_number.
Qed.

Lemma skip_ws_plain_head s : plain_head s = true -> skip_ws s = s.
Proof.
  destruct s as [|c s]; [discriminate|]. simpl.
  now destruct (is_json_ws c).
Qed.

Lemma skip_ws_iterencode level v rest :
  skip_ws (iterencode level v +:+ rest) = iterencode level v +:+ rest.
Proof. apply skip_ws_plain_head, iterencode_plain_head. Qed.

Lemma join_single sep p close : join sep [p] +:+ close = p +:+ close.
Proof. reflexivity. Qed.

Lemma join_more sep p q parts close :
  join sep (p :: q :: parts) +:+ close
  = p +:+ sep +:+ (join sep (q :: parts) +:+ close).
Proof. cbn [join]. now rewrite !append_assoc. Qed.

(** The unfolding of the three readers, one step each. *)
Lemma array_items_step fuel s values :
  array_items (S fuel) s values =
  '(value, rest) ← scan_once fuel s;
  match skip_ws rest with
  | String c rest' =>
      if Ascii.eqb c "]" then Ok (PList (values ++ [value]), rest')
      else if Ascii.eqb c "," then
        array_items fuel (skip_ws rest') (values ++ [value])
      else Raise (decode_error "Expecting ',' delimiter")
  | EmptyString => Raise (decode_error "Expecting ',' delimiter")
  end.
Proof. reflexivity. Qed.

Lemma object_items_step fuel s pairs :
  object_items (S fuel) s pairs =
  '(key, rest) ← scanstring s;
  match skip_ws rest with
  | String c rest1 =>
      if Ascii.eqb c ":" then
        '(value, rest2) ← scan_once fuel (skip_ws rest1);
        match skip_ws rest2 with
        | String c' rest3 =>
            if Ascii.eqb c' "}" then
              Ok (PDict (dict_merge [] (pairs ++ [(key, value)])), rest3)
            else if Ascii.eqb c' "," then
              match skip_ws rest3 with
              | String q rest4 =>
                  if Ascii.eqb q dquote then
                    object_items fuel rest4 (pairs ++ [(key, value)])
                  else Raise (decode_error
                    "Expecting property name enclosed in double quotes")
              | EmptyString => Raise (decode_error
                    "Expecting property name enclosed in double quotes")
              end
            else Raise (decode_error "Expecting ',' delimiter")
        | EmptyString => Raise (decode_error "Expecting ',' delimiter")
        end
      else Raise (decode_error "Expecting ':' delimiter")
  | EmptyString => Raise (decode_error "Expecting ':' delimiter")
  end.
Proof. reflexivity. Qed.

Lemma scan_once_array fuel s :
  scan_once (S fuel) (String "[" s) =
  match skip_ws s with
  | String c rest =>
      if Ascii.eqb c "]" then Ok (PList [], rest)
      else array_items fuel (skip_ws s) []
  | EmptyString => Raise (decode_error "Expecting value")
  end.
Proof. reflexivity. Qed.

Lemma scan_once_object fuel s :
  scan_once (S fuel) (String "{" s) =
  match skip_ws s with
  | String c rest =>
      if Ascii.eqb c "}" then Ok (PDict [], rest)
      else if Ascii.eqb c dquote then object_items fuel rest []
      else Raise (decode_error
        "Expecting property name enclosed in double quotes")
  | EmptyString => Raise (decode_error
        "Expecting property name enclosed in double quotes")
  end.
Proof. reflexivity. Qed.

Lemma scan_once_string fuel s :
  scan_once (S fuel) (String dquote s) =
  '(content, rest) ← scanstring s; Ok (PStr content, rest).
Proof. reflexivity. Qed.

Lemma skip_ws_plain c s :
  is_json_ws c = false -> skip_ws (String c s) = String c s.
Proof. intros H. simpl. now rewrite H. Qed.

Lemma skip_ws_blank c s :
  is_json_ws c = true -> skip_ws (String c s) = skip_ws s.
Proof. intros H. simpl. now rewrite H. Qed.

Ltac step_ok := rewrite bind_Ok; cbv beta iota.
Ltac step_char :=
  rewrite skip_ws_plain by reflexivity; cbv beta iota;
  simpl (Ascii.eqb _ _); cbv beta iota.

Lemma join_items_more level p q parts close :
  join (item_separator level) (p :: q :: parts) +:+ close
  = p +:+ String "," (newline_indent level
                       +:+ (join (item_separator level) (q :: parts)
                            +:+ close)).
Proof. cbn [join]. unfold item_separator. now rewrite !append_assoc. Qed.

Lemma join_plain_head sep level x parts close :
  plain_head (join sep (iterencode level x :: parts) +:+ close) = true.
Proof.
  destruct parts as [|q parts].
  - rewrite join_single. apply iterencode_plain_head.
  - rewrite join_more. apply iterencode_plain_head.
Qed.

(** The loop of [JSONArray] reads back the items of a list. *)
Lemma array_items_reads_back level l :
  Forall reads_back l -> l <> [] ->
  forall values fuel rest,
    (list_sum (map (fun x => S (fuel_needed x)) l) <= fuel)%nat ->
    array_items fuel
      (join (item_separator (S level)) (map (iterencode (S level)) l)
       +:+ (newline_indent level +:+ String "]" rest)) values
    = Ok (PList (values ++ l), rest).
Proof.
  induction 1 as [|x l Hx Hl IH]; [congruence|].
  intros _ values fuel rest Hfuel.
  simpl in Hfuel.
  destruct fuel as [|fuel]; [lia|].
  rewrite array_items_step.
  destruct l as [|y l'].
  - cbn [map]. rewrite join_single.
    rewrite Hx by (lia || apply number_ends_newline_indent).
    step_ok. rewrite skip_ws_newline_indent. step_char. reflexivity.
  - cbn [map]. rewrite join_items_more.
    rewrite Hx by (lia || reflexivity).
    step_ok. step_char. rewrite skip_ws_newline_indent.
    rewrite skip_ws_plain_head by apply join_plain_head.
    change (iterencode (S level) y :: map (iterencode (S level)) l')
      with (map (iterencode (S level)) (y :: l')).
    rewrite IH by (congruence || lia).
    now rewrite <- app_assoc.
Qed.

Lemma encode_pair_text level kv more :
  encode_pair level kv +:+ more
  = String dquote
      (escape_string (fst kv)
       +:+ String dquote
             (String ":" (String " " (iterencode level (snd kv) +:+ more)))).
Proof.
  unfold encode_pair, encode_basestring. simpl. now rewrite !append_assoc.
Qed.

Lemma join_pairs_head sep level kv parts close :
  exists tail,
    join sep (encode_pair level kv :: parts) +:+ close = String dquote tail.
Proof.
  destruct parts as [|q parts].
  - rewrite join_single, encode_pair_text. eauto.
  - rewrite join_more, encode_pair_text. eauto.
Qed.

Lemma string_tail_eq c a b : String c a = String c b -> a = b.
Proof. congruence. Qed.

(** The loop of [JSONObject] reads back the entries of a dict. *)
Lemma object_items_reads_back level d :
  Forall (fun kv => reads_back (snd kv)) d -> d <> [] ->
  forall pairs fuel rest tail,
    (list_sum (map (fun kv => S (fuel_needed (snd kv))) d) <= fuel)%nat ->
    String dquote tail
    = join (item_separator (S level)) (map (encode_pair (S level)) d)
      +:+ (newline_indent level +:+ String "}" rest) ->
    object_items fuel tail pairs
    = Ok (PDict (dict_merge [] (pairs ++ d)), rest).
Proof.
  induction 1 as [|[key x] d Hx Hd IH]; [congruence|].
  intros _ pairs fuel rest tail Hfuel Htail.
  simpl in Hfuel. cbn [snd] in Hx.
  destruct fuel as [|fuel]; [lia|].
  rewrite object_items_step.
  destruct d as [|kv2 d'].
  - cbn [map] in Htail. rewrite join_single, encode_pair_text in Htail.
    apply string_tail_eq in Htail. subst tail. cbn [fst snd].
    rewrite scanstring_escape_string. step_ok. step_char.
    rewrite skip_ws_blank by reflexivity.
    rewrite skip_ws_iterencode.
    rewrite Hx by (lia || apply number_ends_newline_indent).
    step_ok. rewrite skip_ws_newline_indent. step_char. reflexivity.
  - cbn [map] in Htail. rewrite join_items_more, encode_pair_text in Htail.
    apply string_tail_eq in Htail. subst tail. cbn [fst snd].
    rewrite scanstring_escape_string. step_ok. step_char.
    rewrite skip_ws_blank by reflexivity.
    rewrite skip_ws_iterencode.
    rewrite Hx by (lia || reflexivity).
    step_ok. step_char. rewrite skip_ws_newline_indent.
    destruct (join_pairs_head (item_separator (S level)) (S level)
                kv2 (map (encode_pair (S level)) d')
                (newline_indent level +:+ String "}" rest)) as [tail' Htail'].
    rewrite Htail'. step_char.
    rewrite (IH ltac:(congruence) (pairs ++ [(key, x)]) fuel rest tail')
      by (lia || (symmetry; exact Htail')).
    now rewrite <- app_assoc.
Qed.

Lemma dict_insert_fresh key v d :
  existsb (String.eqb key) (map fst d) = false ->
  dict_insert key v d = d ++ [(key, v)].
Proof.
  induction d as [|[k w] d IH]; [reflexivity|].
  simpl. intros H. apply orb_false_iff in H as [Hk Hd].
  rewrite String.eqb_sym, Hk. now rewrite IH.
Qed.

Lemma distinct_app_fresh acc key rest :
  distinct (map fst acc ++ key :: rest) = true ->
  existsb (String.eqb key) (map fst acc) = false
  /\ distinct (map fst (acc ++ [(key, PNone)]) ++ rest) = true.
Proof.
  induction acc as [|[k w] acc IH]; simpl.
  - intros H. split; [reflexivity|]. exact H.
  - rewrite !andb_true_iff, !negb_true_iff, !existsb_app. simpl.
    rewrite !orb_false_iff. intros [(Hk1 & Hk2 & Hk3) Hd].
    destruct (IH Hd) as [Hf Hd'].
    split; [split; [now rewrite String.eqb_sym|assumption]|].
    split; [|assumption].
    rewrite map_app, existsb_app. simpl.
    now rewrite Hk1, Hk2, Hk3.
Qed.

Lemma dict_merge_distinct d : forall acc,
  distinct (map fst acc ++ map fst d) = true ->
  dict_merge acc d = acc ++ d.
Proof.
  unfold dict_merge.
  induction d as [|[key v] d IH]; intros acc Hd; simpl.
  - now rewrite app_nil_r.
  - simpl in Hd. destruct (distinct_app_fresh acc key (map fst d) Hd)
      as [Hfresh Hrest].
    rewrite dict_insert_fresh by assumption.
    rewrite IH.
    + now rewrite <- app_assoc.
    + rewrite map_app. rewrite map_app in Hrest. exact Hrest.
Qed.

Lemma forallb_Forall_imp {A : Type} (f : A -> bool) (P : A -> Prop) l :
  Forall (fun x => f x = true -> P x) l -> forallb f l = true -> Forall P l.
Proof.
  induction 1 as [|x l Hx Hl IH]; simpl; [constructor|].
  intros H. apply andb_prop in H as [Hfx Hfl]. constructor; auto.
Qed.

Lemma plain_head_not_bracket s :
  plain_head s = true ->
  exists c t, s = String c t /\ Ascii.eqb c "]" = false.
Proof.
  destruct s as [|c t]; [discriminate|]. simpl.
  rewrite !andb_true_iff, !negb_true_iff. intros [[_ H] _]. eauto.
Qed.

Lemma prefix_empty s : String.prefix "" s = true.
Proof. now destruct s. Qed.

Lemma scan_once_keyword fuel rest :
  scan_once (S fuel) ("null" +:+ rest) = Ok (PNone, rest)
  /\ scan_once (S fuel) ("true" +:+ rest) = Ok (PBool true, rest)
  /\ scan_once (S fuel) ("false" +:+ rest) = Ok (PBool false, rest).
Proof.
  repeat split; cbn -[String.prefix]; unfold startswith;
    simpl (String.prefix _ _); now rewrite prefix_empty.
Qed.

(** Every value with distinct keys is read back from its encoding. *)
Lemma iterencode_reads_back v : distinct_keys v = true -> reads_back v.
Proof.
  induction v as [| b | z | s | l IH | d IH] using pyval_induction;
    intros Hkeys level fuel rest Hfuel Hend.
  - destruct fuel; [simpl in Hfuel; lia|]. apply scan_once_keyword.
  - destruct fuel; [simpl in Hfuel; lia|].
    destruct b; apply scan_once_keyword.
  - destruct fuel; [simpl in Hfuel; lia|]. now apply scan_once_int.
  - destruct fuel; [simpl in Hfuel; lia|].
    cbn [iterencode]. unfold encode_basestring.
    change (String dquote (escape_string s +:+ String dquote "") +:+ rest)
      with (String dquote ((escape_string s +:+ String dquote "") +:+ rest)).
    rewrite scan_once_string, append_assoc.
    change (String dquote "" +:+ rest) with (String dquote rest).
    now rewrite scanstring_escape_string.
  - simpl in Hkeys. pose proof (forallb_Forall_imp _ _ _ IH Hkeys) as Hitems.
    destruct fuel as [|fuel]; [simpl in Hfuel; lia|].
    destruct l as [|x l]; [reflexivity|].
    cbn [fuel_needed] in Hfuel. apply le_S_n in Hfuel.
    cbn [iterencode].
    change (String "[" ?a +:+ rest) with (String "["%char (a +:+ rest)).
    rewrite !append_assoc.
    change ("]" +:+ rest) with (String "]"%char rest).
    rewrite scan_once_array, skip_ws_newline_indent.
    rewrite skip_ws_plain_head by apply join_plain_head.
    destruct (plain_head_not_bracket _
                (join_plain_head (item_separator (S level)) (S level) x
                   (map (iterencode (S level)) l)
                   (newline_indent level +:+ String "]" rest)))
      as (c & t & Ehead & Hc).
    cbn [map]. rewrite Ehead, Hc, <- Ehead.
    change (iterencode (S level) x :: map (iterencode (S level)) l)
      with (map (iterencode (S level)) (x :: l)).
    now rewrite array_items_reads_back by (assumption || congruence).
  - simpl in Hkeys. apply andb_prop in Hkeys as [Hvals Hdist].
    pose proof (forallb_Forall_imp (fun kv => distinct_keys (snd kv))
                  (fun kv => reads_back (snd kv)) _ IH Hvals) as Hitems.
    destruct fuel as [|fuel]; [simpl in Hfuel; lia|].
    destruct d as [|kv d]; [reflexivity|].
    cbn [fuel_needed] in Hfuel. apply le_S_n in Hfuel.
    cbn [iterencode].
    change (String "{" ?a +:+ rest) with (String "{"%char (a +:+ rest)).
    rewrite !append_assoc.
    change ("}" +:+ rest) with (String "}"%char rest).
    rewrite scan_once_object, skip_ws_newline_indent.
    change (map (fun kv0 : string * pyval =>
                   encode_basestring (fst kv0) +:+ ": "
                   +:+ iterencode (S level) (snd kv0)) (kv :: d))
      with (map (encode_pair (S level)) (kv :: d)).
    destruct (join_pairs_head (item_separator (S level)) (S level) kv
                (map (encode_pair (S level)) d)
                (newline_indent level +:+ String "}" rest)) as [tail Htail].
    cbn [map]. rewrite Htail. step_char.
    rewrite (object_items_reads_back level (kv :: d) Hitems ltac:(congruence)
               [] fuel rest tail Hfuel (eq_sym Htail)).
    now rewrite dict_merge_distinct.
Qed.

Lemma Z_to_string_nonempty z : (1 <= String.length (Z_to_string z))%nat.
Proof.
  pose proof (Z_to_string_starts_number z "") as H.
  rewrite append_nil_r in H.
  destruct (Z_to_string z); [discriminate|simpl; lia].
Qed.

Lemma join_length_bound {A : Type} (need : A -> nat) (enc : A -> string)
    sep (l : list A) :
  (1 <= String.length sep)%nat ->
  Forall (fun x => (need x <= String.length (enc x))%nat) l ->
  (list_sum (map (fun x => S (need x)) l)
   <= S (String.length (join sep (map enc l))))%nat.
Proof.
  intros Hsep. induction 1 as [|x l Hx Hl IH]; [simpl; lia|].
  destruct l as [|y l'].
  - simpl. lia.
  - cbn [map join list_sum fold_right] in *.
    rewrite !length_append. lia.
Qed.

Lemma fuel_needed_le_length v :
  forall level, (fuel_needed v <= String.length (iterencode level v))%nat.
Proof.
  induction v as [| b | z | s | l IH | d IH] using pyval_induction;
    intros level.
  - simpl. lia.
  - destruct b; simpl; lia.
  - apply Z_to_string_nonempty.
  - simpl. lia.
  - destruct l as [|x l]; [simpl; lia|].
    cbn [fuel_needed iterencode]. cbn [String.length].
    rewrite !length_append.
    pose proof (join_length_bound fuel_needed (iterencode (S level))
                  (item_separator (S level)) (x :: l)) as Hb.
    unfold item_separator, newline_indent in *. cbn [String.length] in *.
    assert (Hall : Forall (fun x => (fuel_needed x
                     <= String.length (iterencode (S level) x))%nat) (x :: l)).
    { eapply List.Forall_impl; [|exact IH]. intros a Ha. apply Ha. }
    specialize (Hb ltac:(lia) Hall). lia.
  - destruct d as [|kv d]; [simpl; lia|].
    cbn [fuel_needed iterencode]. cbn [String.length].
    rewrite !length_append.
    pose proof (join_length_bound (fun kv => fuel_needed (snd kv))
                  (fun kv => encode_basestring (fst kv) +:+ ": "
                             +:+ iterencode (S level) (snd kv))
                  (item_separator (S level)) (kv :: d)) as Hb.
    unfold item_separator, newline_indent in *. cbn [String.length] in *.
    assert (Hall : Forall (fun kv : string * pyval => (fuel_needed (snd kv)
                     <= String.length (encode_basestring (fst kv) +:+ ": "
                             +:+ iterencode (S level) (snd kv)))%nat) (kv :: d)).
    { eapply List.Forall_impl; [|exact IH]. intros a Ha. cbv beta in Ha.
      rewrite !length_append. specialize (Ha (S level)). lia. }
    specialize (Hb ltac:(lia) Hall). lia.
Qed.

Lemma plain_head_no_bom s : plain_head s = true -> startswith s utf8_bom = false.
Proof.
  destruct s as [|c t]; [discriminate|].
  unfold plain_head, startswith, utf8_bom.
  rewrite !andb_true_iff, !negb_true_iff. intros [_ Hbom].
  cbn [String.prefix].
  destruct (ascii_dec (ascii_of_nat 239) c) as [E|E]; [|reflexivity].
  rewrite <- E, Ascii.eqb_refl in Hbom. discriminate.
Qed.

(** [json.loads] inverts [json.dump] with [indent=2]. *)
Lemma json_loads_dump v :
  distinct_keys v = true -> json_loads (json_dump v) = Ok v.
Proof.
  intros Hkeys. unfold json_loads, json_dump.
  pose proof (iterencode_plain_head 0%nat v "") as Hhead.
  rewrite append_nil_r in Hhead.
  rewrite plain_head_no_bom, skip_ws_plain_head by assumption.
  rewrite <- (append_nil_r (iterencode 0 v)) at 2.
  rewrite (iterencode_reads_back v Hkeys 0%nat); [reflexivity| |reflexivity].
  pose proof (fuel_needed_le_length v 0%nat). lia.
Qed.

(** ** The JSON codec: the errors of the decoder *)

Ltac split_cases :=
  repeat match goal with
         | |- context [match ?x with _ => _ end] => destruct x eqn:?
         end.

Lemma scanstring_raises n : forall s e,
  (String.length s <= n)%nat ->
  scanstring s = Raise e -> is_Exception e = true.
Proof.
  induction n as [|n IH]; intros s e Hlen.
  - destruct s; [|simpl in Hlen; lia]. now intros [= <-].
  - destruct s as [|c s]; [now intros [= <-]|].
    simpl in Hlen. cbn [scanstring]. unfold mbind, result_bind.
    split_cases; subst; try discriminate; try (now intros [= <-]);
      intros [= <-];
      match goal with
      | H : scanstring ?t = Raise ?e |- _ =>
          apply (IH t e); [simpl in *; lia|exact H]
      end.
Qed.

Lemma scanstring_raises_any s e : scanstring s = Raise e -> is_Exception e = true.
Proof. apply (scanstring_raises (String.length s)). lia. Qed.

Lemma scan_raises fuel :
  (forall s e, scan_once fuel s = Raise e -> is_Exception e = true)
  /\ (forall s values e,
        array_items fuel s values = Raise e -> is_Exception e = true)
  /\ (forall s pairs e,
        object_items fuel s pairs = Raise e -> is_Exception e = true).
Proof.
  induction fuel as [|fuel (IHs & IHa & IHo)].
  - repeat split; intros; simpl in *;
      match goal with
      | H : Raise _ = Raise _ |- _ => injection H as <-; reflexivity
      end.
  - repeat split.
    + intros s e. cbn [scan_once]. unfold mbind, result_bind.
      split_cases; subst; try discriminate; try (now intros [= <-]);
        try (intros [= <-]; eapply scanstring_raises_any; eassumption);
        eauto.
    + intros s values e. rewrite array_items_step. unfold mbind, result_bind.
      split_cases; subst; try discriminate; try (now intros [= <-]);
        try (intros [= <-]; eauto); eauto.
    + intros s pairs e. rewrite object_items_step. unfold mbind, result_bind.
      split_cases; subst; try discriminate; try (now intros [= <-]);
        try (intros [= <-]; first [eapply scanstring_raises_any; eassumption
                                  | eauto]); eauto.
Qed.

Lemma json_loads_raises s e : json_loads s = Raise e -> is_Exception e = true.
Proof.
  unfold json_loads, mbind, result_bind.
  split_cases; subst; try discriminate; try (now intros [= <-]).
  intros [= <-]. eapply (proj1 (scan_raises _)); eassumption.
Qed.

(** ** The JSON codec: line feeds *)

Lemma no_line_feed_app a b :
  no_line_feed (a +:+ b) = no_line_feed a && no_line_feed b.
Proof.
  induction a as [|c a IH]; [reflexivity|].
  simpl. rewrite IH. now rewrite andb_assoc.
Qed.

Lemma single_line_no_feed s : no_line_feed s = true -> single_line s = true.
Proof.
  induction s as [|c s IH]; [reflexivity|]. simpl.
  destruct (Ascii.eqb c newline); [discriminate|exact IH].
Qed.

Lemma escape_char_no_feed c : no_line_feed (escape_char c) = true.
Proof. destruct c as [[] [] [] [] [] [] [] []]; reflexivity. Qed.

Lemma escape_string_no_feed s : no_line_feed (escape_string s) = true.
Proof.
  induction s as [|c s IH]; [reflexivity|].
  simpl. now rewrite no_line_feed_app, escape_char_no_feed, IH.
Qed.

Lemma string_of_uint_no_feed d :
  no_line_feed (NilEmpty.string_of_uint d) = true.
Proof. induction d; simpl; auto. Qed.

Lemma Z_to_string_no_feed z : no_line_feed (Z_to_string z) = true.
Proof.
  unfold Z_to_string. destruct z; simpl; auto using string_of_uint_no_feed.
Qed.

(** The encoder puts every item of a list or dict on a line of its own:
    its text is on one line exactly when the value has no item. *)
Lemma single_line_json_dump v :
  single_line (json_dump v) = negb (has_entries v).
Proof.
  unfold json_dump.
  destruct v as [| [] | z | s | [|x l] | [|kv d]]; try reflexivity.
  - apply single_line_no_feed, Z_to_string_no_feed.
  - apply single_line_no_feed. simpl.
    now rewrite no_line_feed_app, escape_string_no_feed.
Qed.

Lemma no_line_feed_join sep parts :
  no_line_feed sep = true ->
  Forall (fun p => no_line_feed p = true) parts ->
  no_line_feed (join sep parts) = true.
Proof.
  intros Hsep. induction 1 as [|p parts Hp Hparts IH]; [reflexivity|].
  destruct parts as [|q parts]; [exact Hp|].
  rewrite join_cons, !no_line_feed_app, Hp, Hsep. exact IH.
Qed.

Lemma encode_basestring_no_feed s : no_line_feed (encode_basestring s) = true.
Proof.
  unfold encode_basestring. simpl.
  now rewrite no_line_feed_app, escape_string_no_feed.
Qed.

Lemma iterencode_flat_no_feed v : no_line_feed (iterencode_flat v) = true.
Proof.
  induction v as [| [] | z | s | l IH | d IH] using pyval_induction;
    try reflexivity.
  - apply Z_to_string_no_feed.
  - apply encode_basestring_no_feed.
  - destruct l as [|x l]; [reflexivity|].
    cbn [iterencode_flat]. cbn [no_line_feed Ascii.eqb]. 
    rewrite no_line_feed_app.
    rewrite no_line_feed_join; [reflexivity|reflexivity|].
    apply Forall_map. exact IH.
  - destruct d as [|kv d]; [reflexivity|].
    cbn [iterencode_flat]. cbn [no_line_feed].
    rewrite no_line_feed_app.
    rewrite no_line_feed_join; [reflexivity|reflexivity|].
    apply Forall_map. eapply List.Forall_impl; [|exact IH].
    intros [k v] Hv. cbn [fst snd] in *.
    now rewrite !no_line_feed_app, encode_basestring_no_feed, Hv.
Qed.

Lemma single_line_ended s :
  no_line_feed s = true -> single_line (s +:+ String newline "") = true.
Proof.
  induction s as [|c s IH]; [reflexivity|]. simpl.
  destruct (Ascii.eqb c newline); [discriminate|exact IH].
Qed.

(** ** Saving and loading *)

Lemma save_processed_knowledge_files self filepath fs fs' :
  save_processed_knowledge self filepath fs = Ok fs' ->
  files fs' = <[filepath := json_dump (processed_knowledge self)]> (files fs).
Proof.
  unfold save_processed_knowledge, write_text.
  destruct (writable fs filepath); [|discriminate].
  now intros [= <-].
Qed.

(** X20. The save in force. [save_processed_knowledge] replaces the file by
    the whole record as one JSON document, which [json.loads] reads back to
    the record, and leaves the other files alone. The document is written
    with [indent=2], every item of a list or dict on a line of its own: it
    occupies one line exactly when the record has no entry, and several
    lines as soon as it has one. *)
Lemma save_processed_knowledge_spec self filepath fs fs' :
  save_processed_knowledge self filepath fs = Ok fs' ->
  files fs' !! filepath = Some (json_dump (processed_knowledge self))
  /\ (forall other, other <> filepath ->
        files fs' !! other = files fs !! other)
  /\ (distinct_keys (processed_knowledge self) = true ->
      json_loads (json_dump (processed_knowledge self))
      = Ok (processed_knowledge self))
  /\ single_line (json_dump (processed_knowledge self))
     = negb (has_entries (processed_knowledge self)).
Proof.
  intros Hsave. apply save_processed_knowledge_files in Hsave.
  rewrite Hsave. repeat split.
  - apply lookup_insert_eq.
  - intros other Hne. now apply lookup_insert_ne.
  - apply json_loads_dump.
  - apply single_line_json_dump.
Qed.

Lemma save_processed_knowledge_spec_witness :
  files (Filesystem
           (<["knowledge.json" := json_dump sample_record]> ∅)
           (fun _ => true)) !! "knowledge.json"
  = Some (json_dump sample_record)
  /\ single_line (json_dump sample_record) = false.
Proof.
  pose proof (save_processed_knowledge_spec
                (set_processed_knowledge init_service sample_record)
                "knowledge.json" empty_disk
                (Filesystem
                   (<["knowledge.json" := json_dump sample_record]> ∅)
                   (fun _ => true))
                eq_refl) as (Hfile & _ & _ & Hline).
  split; [exact Hfile|exact Hline].
Defined.

Lemma earlier_save_files {P : PathRules} self filepath fs fs' :
  Earlier.save_processed_knowledge self filepath fs = Ok fs' ->
  exists filepath',
    with_suffix filepath ".jsonl" = Ok filepath'
    /\ files fs'
       = <[filepath' := iterencode_flat (processed_knowledge self)
                        +:+ String newline ""]> (files fs).
Proof.
  unfold Earlier.save_processed_knowledge, write_text.
  destruct (with_suffix filepath ".jsonl") as [filepath'|e]; [|discriminate].
  rewrite bind_Ok.
  destruct (writable fs filepath'); [|discriminate].
  intros [= <-]. eauto.
Qed.

(** C6 on the code. The claim holds of the earlier definition of
    [save_processed_knowledge] and fails on the one in force. For every
    record with at least one entry, the definition in force writes the
    record with [indent=2], on several lines, at the path it is given; the
    earlier definition writes it on one line ended by a line feed, at the
    path with the suffix [.jsonl]. *)
Theorem save_processed_knowledge_not_one_line {P : PathRules}
    self filepath fs fs' :
  has_entries (processed_knowledge self) = true ->
  save_processed_knowledge self filepath fs = Ok fs' ->
  (exists content,
     files fs' !! filepath = Some content
     /\ content = json_dump (processed_knowledge self)
     /\ single_line content = false)
  /\ (forall fs'',
        Earlier.save_processed_knowledge self filepath fs = Ok fs'' ->
        exists filepath' content,
          with_suffix filepath ".jsonl" = Ok filepath'
          /\ files fs'' !! filepath' = Some content
          /\ content = iterencode_flat (processed_knowledge self)
                       +:+ String newline ""
          /\ single_line content = true).
Proof.
  intros Hentries Hsave. split.
  - apply save_processed_knowledge_files in Hsave.
    eexists. rewrite Hsave, lookup_insert_eq.
    split; [reflexivity|]. split; [reflexivity|].
    now rewrite single_line_json_dump, Hentries.
  - intros fs'' Hearlier.
    apply earlier_save_files in Hearlier as (filepath' & Hpath & Hfiles).
    eexists. eexists. rewrite Hfiles, lookup_insert_eq.
    split; [exact Hpath|]. split; [reflexivity|]. split; [reflexivity|].
    apply single_line_ended, iterencode_flat_no_feed.
Qed.

Lemma save_processed_knowledge_not_one_line_witness :
  has_entries sample_record = true
  /\ (exists content,
        files (Filesystem
                 (<["knowledge.jsonl" := json_dump sample_record]> ∅)
                 (fun _ => true)) !! "knowledge.jsonl" = Some content
        /\ content = json_dump sample_record
        /\ single_line content = false).
Proof.
  split; [reflexivity|].
  exact (proj1 (save_processed_knowledge_not_one_line
                  (P := last_dot_rule)
                  (set_processed_knowledge init_service sample_record)
                  "knowledge.jsonl" empty_disk
                  (Filesystem
                     (<["knowledge.jsonl" := json_dump sample_record]> ∅)
                     (fun _ => true))
                  eq_refl eq_refl)).
Defined.

(** The two definitions on the record of a processed knowledge base: the
    one in force writes 20 lines, the earlier one writes one. *)
Example save_two_definitions :
  (exists fs' content,
     save_processed_knowledge
       (set_processed_knowledge init_service sample_record)
       "knowledge.jsonl" empty_disk = Ok fs'
     /\ files fs' !! "knowledge.jsonl" = Some content
     /\ single_line content = false
     /\ length (split_lines content) = 20%nat)
  /\ (exists fs' content,
        Earlier.save_processed_knowledge (P := last_dot_rule)
          (set_processed_knowledge init_service sample_record)
          "knowledge.jsonl" empty_disk = Ok fs'
        /\ files fs' !! "knowledge.jsonl" = Some content
        /\ single_line content = true).
Proof.
  split.
  - eexists. eexists. split; [reflexivity|].
    split; [apply lookup_insert_eq|].
    split; vm_compute; reflexivity.
  - eexists. eexists. split; [reflexivity|].
    split; [apply lookup_insert_eq|].
    vm_compute; reflexivity.
Qed.



(** C8. [load_processed_knowledge] never raises: it always returns a
    boolean, and the boolean is [False], with the service untouched, when
    the file is missing and when its text is not a JSON document (a
    truncated file, a malformed record). *)
Theorem load_processed_knowledge_never_raises self filepath fs :
  (exists self' loaded,
     load_processed_knowledge self filepath fs = Ok (self', loaded))
  /\ (files fs !! filepath = None ->
      load_processed_knowledge self filepath fs = Ok (self, false))
  /\ (forall content e,
        files fs !! filepath = Some content ->
        json_loads content = Raise e ->
        load_processed_knowledge self filepath fs = Ok (self, false)).
Proof.
  unfold load_processed_knowledge, read_text, try_except.
  repeat split.
  - destruct (files fs !! filepath) as [content|]; simpl; [|eauto].
    destruct (json_loads content) as [v|e] eqn:Hload; simpl; [eauto|].
    rewrite (json_loads_raises _ _ Hload). eauto.
  - now intros ->.
  - intros content e -> Hload. simpl. rewrite Hload. simpl.
    now rewrite (json_loads_raises _ _ Hload).
Qed.

(** A truncated record and a text that is not JSON are both refused. *)
Example load_truncated_or_garbage :
  load_processed_knowledge init_service "knowledge.json"
    (disk_with "knowledge.json"
       (String.substring 0 60 (json_dump sample_record)))
  = Ok (init_service, false)
  /\ load_processed_knowledge init_service "knowledge.json"
       (disk_with "knowledge.json" "not a record")
     = Ok (init_service, false)
  /\ load_processed_knowledge init_service "knowledge.json" empty_disk
     = Ok (init_service, false).
Proof. repeat split; vm_compute; reflexivity. Qed.

(** C10. A load that fails leaves the service as it was: when the call
    returns [False] the file is missing or its text is refused by the
    decoder, and the service after the call is the service before it;
    [processed_knowledge] is replaced, by the decoded record, only when the
    call returns [True]. *)
Theorem load_processed_knowledge_atomic self filepath fs self' loaded :
  load_processed_knowledge self filepath fs = Ok (self', loaded) ->
  if loaded then
    exists content v,
      files fs !! filepath = Some content
      /\ json_loads content = Ok v
      /\ self' = set_processed_knowledge self v
  else
    self' = self
    /\ processed_knowledge self' = processed_knowledge self
    /\ (files fs !! filepath = None
        \/ exists content e,
             files fs !! filepath = Some content
             /\ json_loads content = Raise e).
Proof.
  unfold load_processed_knowledge, read_text, try_except.
  destruct (files fs !! filepath) as [content|] eqn:Hfile; simpl.
  - destruct (json_loads content) as [v|e] eqn:Hload; simpl.
    + intros [= <- <-]. eauto.
    + rewrite (json_loads_raises _ _ Hload). intros [= <- <-].
      repeat split; eauto.
  - intros [= <- <-]. repeat split; eauto.
Qed.

Lemma load_processed_knowledge_atomic_witness :
  load_processed_knowledge
    (set_processed_knowledge init_service sample_record) "knowledge.json"
    (disk_with "knowledge.json"
       (String.substring 0 60 (json_dump sample_record)))
  = Ok (set_processed_knowledge init_service sample_record, false)
  /\ processed_knowledge
       (set_processed_knowledge init_service sample_record)
     = sample_record.
Proof.
  assert (Hload :
    load_processed_knowledge
      (set_processed_knowledge init_service sample_record) "knowledge.json"
      (disk_with "knowledge.json"
       (String.substring 0 60 (json_dump sample_record)))
    = Ok (set_processed_knowledge init_service sample_record, false))
    by (vm_compute; reflexivity).
  split; [exact Hload|].
  exact (proj1 (proj2 (load_processed_knowledge_atomic _ _ _ _ false Hload))).
Defined.

(** ** The condensed text *)

Lemma py_slice_length {A : Type} (l : list A) stop :
  0 <= stop -> (length (py_slice l 0 stop) <= Z.to_nat stop)%nat.
Proof.
  intros Hstop. unfold py_slice, slice_bound.
  rewrite length_firstn. simpl.
  destruct (stop <? 0) eqn:E; [apply Z.ltb_lt in E; lia|].
  lia.
Qed.

Lemma sliced_items_length v stop items :
  0 <= stop ->
  sliced_items v stop = Ok items -> (length items <= Z.to_nat stop)%nat.
Proof.
  intros Hstop. destruct v; simpl; try discriminate; intros [= <-].
  - rewrite length_map. now apply py_slice_length.
  - now apply py_slice_length.
Qed.

Lemma lines_length_bound parts n B :
  (length parts <= n)%nat ->
  (forall p, In p parts -> (String.length p <= B)%nat) ->
  (String.length (lines parts) <= n * (B + 1))%nat.
Proof.
  unfold lines. revert n.
  induction parts as [|p parts IH]; intros n Hn Hp; [simpl; lia|].
  destruct n as [|n]; [simpl in Hn; lia|].
  assert (Hlen : (String.length p <= B)%nat) by (apply Hp; now left).
  destruct parts as [|q parts].
  - simpl. lia.
  - rewrite join_cons, !length_append.
    assert (IHn : (String.length (join (String newline "") (q :: parts))
                   <= n * (B + 1))%nat).
    { apply IH; [simpl in *; lia|]. intros r Hr. apply Hp. now right. }
    change (String.length (String newline "")) with 1%nat. lia.
Qed.

Lemma condensed_sections_caps aggregated sections :
  condensed_sections_of aggregated = Ok sections ->
  (length (cs_principles sections) <= 20)%nat
  /\ (length (cs_insights sections) <= 15)%nat
  /\ (length (cs_quotes sections) <= 10)%nat.
Proof.
  unfold condensed_sections_of, mbind, result_bind.
  repeat match goal with
         | |- context [match ?x with _ => _ end] => destruct x eqn:?
         end; try discriminate.
  intros [= <-]. simpl.
  repeat split;
    match goal with
    | H : sliced_items _ ?n = Ok ?l |- (length ?l <= _)%nat =>
        apply (sliced_items_length _ n l) in H; [exact H|lia]
    end.
Qed.

Section CondensedFacts.
Context {R : Repr}.

Lemma render_condensed_length s :
  String.length (render_condensed s)
  = (banner_length + String.length (py_str (cs_total s))
     + String.length (lines (map bullet (cs_principles s)))
     + String.length (lines (map bullet (cs_insights s)))
     + String.length (lines (map quoted_bullet (cs_quotes s)))
     + String.length (lines (map metric_bullet (cs_metrics s))))%nat.
Proof.
  unfold render_condensed. rewrite !length_append.
  change banner_length with 163%nat. simpl String.length. lia.
Qed.

Lemma bullets_length_bound items n B :
  (length items <= n)%nat ->
  (forall item, In item items -> (String.length (py_str item) <= B)%nat) ->
  (String.length (lines (map bullet items)) <= n * (B + 5))%nat.
Proof.
  intros Hn Hitems.
  replace (B + 5)%nat with ((B + 4) + 1)%nat by lia.
  apply lines_length_bound; [now rewrite length_map|].
  intros p Hp. apply in_map_iff in Hp as (item & <- & Hin).
  unfold bullet. rewrite length_append. specialize (Hitems item Hin).
  simpl String.length. lia.
Qed.

Lemma quoted_bullets_length_bound items n B :
  (length items <= n)%nat ->
  (forall item, In item items -> (String.length (py_str item) <= B)%nat) ->
  (String.length (lines (map quoted_bullet items)) <= n * (B + 7))%nat.
Proof.
  intros Hn Hitems.
  replace (B + 7)%nat with ((B + 6) + 1)%nat by lia.
  apply lines_length_bound; [now rewrite length_map|].
  intros p Hp. apply in_map_iff in Hp as (item & <- & Hin).
  unfold quoted_bullet. rewrite length_append. specialize (Hitems item Hin).
  simpl String.length. rewrite length_append. simpl String.length. lia.
Qed.
End CondensedFacts.

(** X6. The rendering in force. Before any record is there the condensed text
    is empty. Otherwise, when the call returns, the text is the banners
    with three capped bulleted sections: at most 20 principles, 15 insights
    and 10 quotes. There is no section for strategies. With item texts of
    at most [B] bytes these three sections take at most [20 * (B + 5)],
    [15 * (B + 5)] and [10 * (B + 7)] bytes, and the whole text is that,
    the banners, the count, and the section of the metrics. *)
Lemma get_condensed_knowledge_for_prompt_spec {R : Repr} (self : service) :
  (py_truthy (processed_knowledge self) = false ->
   get_condensed_knowledge_for_prompt self = Ok "")
  /\ (forall out,
        py_truthy (processed_knowledge self) = true ->
        get_condensed_knowledge_for_prompt self = Ok out ->
        exists sections,
          out = render_condensed sections
          /\ (length (cs_principles sections) <= 20)%nat
          /\ (length (cs_insights sections) <= 15)%nat
          /\ (length (cs_quotes sections) <= 10)%nat
          /\ forall B,
               (forall item,
                   In item (cs_principles sections ++ cs_insights sections
                            ++ cs_quotes sections) ->
                   (String.length (py_str item) <= B)%nat) ->
               (String.length (lines (map bullet (cs_principles sections)))
                <= 20 * (B + 5))%nat
               /\ (String.length (lines (map bullet (cs_insights sections)))
                   <= 15 * (B + 5))%nat
               /\ (String.length
                     (lines (map quoted_bullet (cs_quotes sections)))
                   <= 10 * (B + 7))%nat
               /\ (String.length out
                   <= banner_length
                      + String.length (py_str (cs_total sections))
                      + 20 * (B + 5) + 15 * (B + 5) + 10 * (B + 7)
                      + String.length
                          (lines (map metric_bullet (cs_metrics sections))))%nat).
Proof.
  unfold get_condensed_knowledge_for_prompt. split.
  - now intros ->.
  - intros out ->. simpl negb. cbv iota.
    destruct (py_get (processed_knowledge self) "aggregated_knowledge"
                (PDict [])) as [aggregated|e]; [|discriminate].
    rewrite bind_Ok.
    destruct (condensed_sections_of aggregated) as [sections|e] eqn:Hs;
      [|discriminate].
    rewrite bind_Ok. intros [= <-].
    destruct (condensed_sections_caps _ _ Hs) as (Hp & Hi & Hq).
    exists sections.
    split; [reflexivity|]. split; [assumption|]. split; [assumption|].
    split; [assumption|]. intros B HB.
    assert (B1 : (String.length (lines (map bullet (cs_principles sections)))
               <= 20 * (B + 5))%nat).
    { apply bullets_length_bound; [assumption|].
      intros item Hin. apply HB. apply in_or_app. now left. }
    assert (B2 : (String.length (lines (map bullet (cs_insights sections)))
               <= 15 * (B + 5))%nat).
    { apply bullets_length_bound; [assumption|].
      intros item Hin. apply HB. apply in_or_app. right.
      apply in_or_app. now left. }
    assert (B3 : (String.length
                    (lines (map quoted_bullet (cs_quotes sections)))
               <= 10 * (B + 7))%nat).
    { apply quoted_bullets_length_bound; [assumption|].
      intros item Hin. apply HB. apply in_or_app. right.
      apply in_or_app. now right. }
    repeat split; try assumption.
    rewrite render_condensed_length. lia.
Qed.

Lemma distinct_NoDup (keys : list string) :
  List.NoDup keys -> distinct keys = true.
Proof.
  induction 1 as [|k keys Hk Hkeys IH]; [reflexivity|].
  simpl. rewrite IH, andb_true_r. apply negb_true_iff.
  destruct (existsb (String.eqb k) keys) eqn:E; [|reflexivity].
  apply existsb_exists in E as (k' & Hin & Heq).
  apply String.eqb_eq in Heq. now subst.
Qed.

Lemma NoDup_map_injective {A B : Type} (f : A -> B) (l : list A) :
  (forall a b, f a = f b -> a = b) ->
  List.NoDup l -> List.NoDup (map f l).
Proof.
  intros Hinj. induction 1 as [|a l Ha Hl IH]; simpl; constructor;
    [|exact IH].
  intros Hin. apply in_map_iff in Hin as (b & Hb & Hin).
  apply Hinj in Hb. now subst.
Qed.

Lemma record_with_metrics_valid n :
  distinct_keys (record_with_metrics n) = true.
Proof.
  unfold record_with_metrics. cbn [distinct_keys forallb map fst snd].
  rewrite !andb_true_r.
  apply andb_true_intro. split.
  - apply forallb_forall. intros kv Hin.
    apply in_map_iff in Hin as (i & <- & _). reflexivity.
  - apply distinct_NoDup. rewrite map_map. cbn [fst].
    apply NoDup_map_injective; [|apply List.seq_NoDup].
    intros a b Hab. apply (f_equal int_of_text) in Hab.
    rewrite !int_of_text_Z in Hab. lia.
Qed.

Lemma get_condensed_knowledge_for_prompt_spec_witness :
  get_condensed_knowledge_for_prompt (R := json_repr) init_service = Ok ""
  /\ exists sections,
       get_condensed_knowledge_for_prompt (R := json_repr)
         (set_processed_knowledge init_service sample_record)
       = Ok (render_condensed (R := json_repr) sections)
       /\ (length (cs_principles sections) <= 20)%nat.
Proof.
  pose proof (get_condensed_knowledge_for_prompt_spec (R := json_repr)
                init_service) as [Hempty _].
  pose proof (get_condensed_knowledge_for_prompt_spec (R := json_repr)
                (set_processed_knowledge init_service sample_record))
    as [_ Hfull].
  split; [exact (Hempty eq_refl)|].
  destruct (Hfull _ eq_refl eq_refl) as (sections & Hout & Hp & _).
  exists sections. split; [|exact Hp].
  rewrite <- Hout. reflexivity.
Defined.

(** *** The earlier definition and the one in force *)

Lemma earlier_condensed_sections_caps aggregated sections :
  Earlier.condensed_sections_of aggregated = Ok sections ->
  (length (Earlier.cs_principles sections) <= 25)%nat
  /\ (length (Earlier.cs_strategies sections) <= 20)%nat
  /\ (length (Earlier.cs_metrics sections) <= 15)%nat
  /\ (length (Earlier.cs_insights sections) <= 20)%nat
  /\ (length (Earlier.cs_quotes sections) <= 10)%nat.
Proof.
  unfold Earlier.condensed_sections_of, mbind, result_bind.
  repeat match goal with
         | |- context [match ?x with _ => _ end] => destruct x eqn:?
         end; try discriminate.
  intros [= <-]. simpl.
  repeat split;
    match goal with
    | H : sliced_items _ ?n = Ok ?l |- (length ?l <= _)%nat =>
        apply (sliced_items_length _ n l) in H; [exact H|lia]
    end.
Qed.

Lemma earlier_render_condensed_length {R : Repr} s :
  String.length (Earlier.render_condensed s)
  = (earlier_banner_length + String.length (py_str (Earlier.cs_total s))
     + String.length (lines (map bullet (Earlier.cs_principles s)))
     + String.length (lines (map bullet (Earlier.cs_strategies s)))
     + String.length (lines (map bullet (Earlier.cs_metrics s)))
     + String.length (lines (map bullet (Earlier.cs_insights s)))
     + String.length (lines (map quoted_bullet (Earlier.cs_quotes s))))%nat.
Proof.
  unfold Earlier.render_condensed. rewrite !length_append.
  change earlier_banner_length with 199%nat. simpl String.length. lia.
Qed.

(** C9 on the code. The claim holds of the earlier definition of
    [get_condensed_knowledge_for_prompt] and fails on the one in force. The
    earlier definition caps its five sections at 25, 20, 15, 20 and 10
    items, so that with item texts of at most [B] bytes its text is bounded;
    the definition in force has no cap on the metrics (no number bounds the
    items of every section: a digest with [n] metrics gives [n] bullets) and
    no section for the strategies (the text does not depend on them). *)
Theorem condensed_knowledge_not_capped {R : Repr} :
  (forall self out,
      py_truthy (processed_knowledge self) = true ->
      Earlier.get_condensed_knowledge_for_prompt self = Ok out ->
      exists sections,
        out = Earlier.render_condensed sections
        /\ (length (Earlier.cs_principles sections) <= 25)%nat
        /\ (length (Earlier.cs_strategies sections) <= 20)%nat
        /\ (length (Earlier.cs_metrics sections) <= 15)%nat
        /\ (length (Earlier.cs_insights sections) <= 20)%nat
        /\ (length (Earlier.cs_quotes sections) <= 10)%nat
        /\ forall B,
             (forall item,
                 In item (Earlier.cs_principles sections
                          ++ Earlier.cs_strategies sections
                          ++ Earlier.cs_metrics sections
                          ++ Earlier.cs_insights sections
                          ++ Earlier.cs_quotes sections) ->
                 (String.length (py_str item) <= B)%nat) ->
             (String.length out
              <= earlier_banner_length
                 + String.length (py_str (Earlier.cs_total sections))
                 + 25 * (B + 5) + 20 * (B + 5) + 15 * (B + 5) + 20 * (B + 5)
                 + 10 * (B + 7))%nat)
  /\ ~ (exists cap, sections_capped cap)
  /\ (forall n, exists sections,
        condensed_sections_of
          (PDict [("quantitative_metrics",
                   PDict (map (fun i => (Z_to_string (Z.of_nat i),
                                         PStr "high")) (seq 0 n)))])
        = Ok sections
        /\ length (cs_metrics sections) = n)
  /\ (forall strategies strategies',
        get_condensed_knowledge_for_prompt
          (set_processed_knowledge init_service
             (record_with_strategies strategies))
        = get_condensed_knowledge_for_prompt
            (set_processed_knowledge init_service
               (record_with_strategies strategies'))).
Proof.
  split; [|split; [|split]].
  - intros self out Htruthy.
    unfold Earlier.get_condensed_knowledge_for_prompt. rewrite Htruthy.
    simpl negb. cbv iota.
    destruct (py_get (processed_knowledge self) "aggregated_knowledge"
                (PDict [])) as [aggregated|e]; [|discriminate].
    rewrite bind_Ok.
    destruct (Earlier.condensed_sections_of aggregated) as [sections|e] eqn:Hs;
      [|discriminate].
    rewrite bind_Ok. intros [= <-].
    destruct (earlier_condensed_sections_caps _ _ Hs)
      as (Hp & Hst & Hm & Hi & Hq).
    exists sections. repeat (split; [first [reflexivity|assumption]|]).
    intros B HB.
    assert (B1 : (String.length
                    (lines (map bullet (Earlier.cs_principles sections)))
                  <= 25 * (B + 5))%nat).
    { apply bullets_length_bound; [assumption|].
      intros item Hin. apply HB. rewrite !in_app_iff. tauto. }
    assert (B2 : (String.length
                    (lines (map bullet (Earlier.cs_strategies sections)))
                  <= 20 * (B + 5))%nat).
    { apply bullets_length_bound; [assumption|].
      intros item Hin. apply HB. rewrite !in_app_iff. tauto. }
    assert (B3 : (String.length
                    (lines (map bullet (Earlier.cs_metrics sections)))
                  <= 15 * (B + 5))%nat).
    { apply bullets_length_bound; [assumption|].
      intros item Hin. apply HB. rewrite !in_app_iff. tauto. }
    assert (B4 : (String.length
                    (lines (map bullet (Earlier.cs_insights sections)))
                  <= 20 * (B + 5))%nat).
    { apply bullets_length_bound; [assumption|].
      intros item Hin. apply HB. rewrite !in_app_iff. tauto. }
    assert (B5 : (String.length
                    (lines (map quoted_bullet (Earlier.cs_quotes sections)))
                  <= 10 * (B + 7))%nat).
    { apply quoted_bullets_length_bound; [assumption|].
      intros item Hin. apply HB. rewrite !in_app_iff. tauto. }
    rewrite earlier_render_condensed_length. lia.
  - intros [cap Hcap].
    destruct (Hcap (set_processed_knowledge init_service
                      (record_with_metrics (S cap)))
                (PDict [("quantitative_metrics",
                         PDict (map (fun i => (Z_to_string (Z.of_nat i),
                                               PStr "high"))
                                  (seq 0 (S cap))))])
                (Sections (PInt 0) [] [] []
                   (map (fun i => (Z_to_string (Z.of_nat i), PStr "high"))
                      (seq 0 (S cap))))
                (record_with_metrics_valid (S cap)) eq_refl eq_refl)
      as (_ & _ & _ & Hm).
    cbn [cs_metrics] in Hm. rewrite length_map, length_seq in Hm. lia.
  - intros n. eexists. split; [reflexivity|].
    cbn [cs_metrics]. now rewrite length_map, length_seq.
  - intros strategies strategies'. reflexivity.
Qed.

(** A digest of 30 principles: the earlier definition keeps 25 of them, the
    one in force 20. *)
Example condensed_two_definitions :
  let aggregated :=
    PDict [("investment_principles",
            PList (map (fun i => PStr (Z_to_string (Z.of_nat i)))
                     (seq 0 30)))] in
  (exists sections,
     Earlier.condensed_sections_of aggregated = Ok sections
     /\ length (Earlier.cs_principles sections) = 25%nat)
  /\ (exists sections,
        condensed_sections_of aggregated = Ok sections
        /\ length (cs_principles sections) = 20%nat).
Proof. split; eexists; split; reflexivity. Qed.

(** ** The chunker: when it returns *)

Section ChunkerReturns.
Context {T : Tokenizer}.
Variable self : service.
Variable tokens : list token.

Lemma py_slice_window (s e : Z) :
  0 <= s -> s <= e -> e <= Z.of_nat (length tokens) ->
  py_slice tokens s e = firstn (Z.to_nat (e - s)) (skipn (Z.to_nat s) tokens).
Proof.
  intros Hs Hse He. unfold py_slice, slice_bound.
  destruct (Z.ltb_spec s 0) as [?|_]; [lia|].
  destruct (Z.ltb_spec e 0) as [?|_]; [lia|].
  now rewrite !Z.min_l by lia.
Qed.

Lemma chunk_while_S fuel s chunks :
  chunk_while self tokens (S fuel) s chunks
  = match chunk_step self tokens s chunks with
    | Returned chunks' => Some chunks'
    | Running s' chunks' => chunk_while self tokens fuel s' chunks'
    end.
Proof. reflexivity. Qed.

(** Without overlap the loop walks the tokens window by window. *)
Lemma chunk_while_no_overlap (n : nat) : forall s chunks,
  overlap_tokens self = 0 ->
  0 < max_tokens_per_chunk self ->
  0 <= s <= Z.of_nat (length tokens) ->
  Z.of_nat (length tokens) - s <= Z.of_nat n ->
  exists windows,
    chunk_while self tokens (S n) s chunks = Some (chunks ++ map decode windows)
    /\ concat windows = skipn (Z.to_nat s) tokens
    /\ Forall (fun w => w <> []
                        /\ Z.of_nat (length w) <= max_tokens_per_chunk self)
         windows
    /\ Forall (fun w => Z.of_nat (length w) = max_tokens_per_chunk self)
         (removelast windows)
    /\ Z.of_nat (length windows)
       = (Z.of_nat (length tokens) - s + max_tokens_per_chunk self - 1)
         / max_tokens_per_chunk self.
Proof.
  induction n as [|n IH]; intros s chunks Hov Hmax Hs Hn.
  - assert (s = Z.of_nat (length tokens)) as -> by lia.
    exists []. rewrite chunk_while_S. unfold chunk_step.
    rewrite Z.ltb_irrefl. rewrite Nat2Z.id, skipn_all, app_nil_r.
    repeat split; try constructor.
    rewrite Z.sub_diag. simpl. symmetry. apply Z.div_small. lia.
  - destruct (Z.eq_dec s (Z.of_nat (length tokens))) as [->|Hne].
    + exists []. rewrite chunk_while_S. unfold chunk_step.
      rewrite Z.ltb_irrefl. rewrite Nat2Z.id, skipn_all, app_nil_r.
      repeat split; try constructor.
      rewrite Z.sub_diag. simpl. symmetry. apply Z.div_small. lia.
    + rewrite chunk_while_S. unfold chunk_step.
      destruct (Z.ltb_spec s (Z.of_nat (length tokens))) as [Hlt|?]; [|lia].
      rewrite Hov, Z.sub_0_r.
      set (e := Z.min (s + max_tokens_per_chunk self)
                  (Z.of_nat (length tokens))).
      assert (He : s < e <= Z.of_nat (length tokens)) by (subst e; lia).
      rewrite py_slice_window by lia.
      assert (Hskip : skipn (Z.to_nat e) tokens
                      = skipn (Z.to_nat (e - s)) (skipn (Z.to_nat s) tokens)).
      { rewrite skipn_skipn. f_equal. lia. }
      assert (Hwlen : length (firstn (Z.to_nat (e - s))
                                (skipn (Z.to_nat s) tokens))
                      = Z.to_nat (e - s)).
      { rewrite length_firstn, length_skipn. lia. }
      destruct (Z.geb_spec e (Z.of_nat (length tokens))) as [Hend|Hmore].
      * assert (e = Z.of_nat (length tokens)) as Ee by lia.
        exists [firstn (Z.to_nat (e - s)) (skipn (Z.to_nat s) tokens)].
        split; [reflexivity|]. split.
        { simpl. rewrite app_nil_r. apply firstn_all2.
          rewrite length_skipn. lia. }
        split.
        { constructor; [|constructor]. split.
          - intros Hnil. rewrite Hnil in Hwlen. simpl in Hwlen. lia.
          - rewrite Hwlen. subst e. lia. }
        split; [constructor|].
        simpl length.
        apply Z.div_unique with
          (r := Z.of_nat (length tokens) - s - 1).
        { left. subst e. lia. }
        lia.
      * assert (Ee : e = s + max_tokens_per_chunk self) by (subst e; lia).
        destruct (IH e (chunks ++ [decode (firstn (Z.to_nat (e - s))
                                             (skipn (Z.to_nat s) tokens))])
                    Hov Hmax ltac:(lia) ltac:(lia))
          as (ws & Hrun & Hcat & Hall & Hfull & Hcount).
        exists (firstn (Z.to_nat (e - s)) (skipn (Z.to_nat s) tokens) :: ws).
        split.
        { rewrite Hrun. now rewrite <- app_assoc. }
        split.
        { cbn [concat]. rewrite Hcat, Hskip. apply firstn_skipn. }
        split.
        { constructor; [|exact Hall]. split.
          - intros Hnil. rewrite Hnil in Hwlen. simpl in Hwlen. lia.
          - rewrite Hwlen. lia. }
        split.
        { destruct ws as [|w ws].
          - exfalso. simpl in Hcat.
            assert (Hl : length (skipn (Z.to_nat e) tokens) = 0%nat)
              by now rewrite <- Hcat.
            rewrite length_skipn in Hl. lia.
          - cbn [removelast]. constructor; [|exact Hfull].
            rewrite Hwlen. lia. }
        cbn [length]. rewrite Nat2Z.inj_succ, Hcount.
        replace (Z.of_nat (length tokens) - s + max_tokens_per_chunk self - 1)
          with ((Z.of_nat (length tokens) - e + max_tokens_per_chunk self - 1)
                + 1 * max_tokens_per_chunk self) by lia.
        rewrite Z.div_add by lia. lia.
Qed.

Lemma chunk_while_more_fuel fuel : forall fuel' s chunks out,
  (fuel <= fuel')%nat ->
  chunk_while self tokens fuel s chunks = Some out ->
  chunk_while self tokens fuel' s chunks = Some out.
Proof.
  induction fuel as [|fuel IH]; intros fuel' s chunks out Hle; [discriminate|].
  destruct fuel' as [|fuel']; [lia|].
  rewrite !chunk_while_S.
  destruct (chunk_step self tokens s chunks) as [s' chunks'|chunks'];
    [|trivial].
  apply IH. lia.
Qed.

(** With an overlap that is not positive and below the window size, every
    turn of the loop moves the start index forward. *)
Lemma chunk_while_returns (n : nat) : forall s chunks,
  overlap_tokens self <= 0 ->
  overlap_tokens self < max_tokens_per_chunk self ->
  Z.of_nat (length tokens) - s <= Z.of_nat n ->
  exists out, chunk_while self tokens (S n) s chunks = Some out.
Proof.
  induction n as [|n IH]; intros s chunks Hov Hmax Hn;
    rewrite chunk_while_S; unfold chunk_step.
  - destruct (Z.ltb_spec s (Z.of_nat (length tokens))); [lia|eauto].
  - destruct (Z.ltb_spec s (Z.of_nat (length tokens))) as [Hlt|?]; [|eauto].
    set (e := Z.min (s + max_tokens_per_chunk self)
                (Z.of_nat (length tokens))).
    destruct (Z.geb_spec (e - overlap_tokens self) (Z.of_nat (length tokens)))
      as [?|Hmore]; [eauto|].
    apply IH; try assumption. subst e. lia.
Qed.

(** With an overlap that is not positive and a window size that is not
    above it, the start index never moves forward. *)
Lemma chunk_while_stuck (fuel : nat) : forall s chunks,
  overlap_tokens self <= 0 ->
  max_tokens_per_chunk self <= overlap_tokens self ->
  s < Z.of_nat (length tokens) ->
  chunk_while self tokens fuel s chunks = None.
Proof.
  induction fuel as [|fuel IH]; intros s chunks Hov Hmax Hlt; [reflexivity|].
  rewrite chunk_while_S. unfold chunk_step.
  destruct (Z.ltb_spec s (Z.of_nat (length tokens))) as [_|?]; [|lia].
  set (e := Z.min (s + max_tokens_per_chunk self)
              (Z.of_nat (length tokens))).
  destruct (Z.geb_spec (e - overlap_tokens self) (Z.of_nat (length tokens)))
    as [?|Hmore]; [subst e; lia|].
  apply IH; try assumption.
Qed.
End ChunkerReturns.

(** X1. Without overlap the chunker cuts the tokens into consecutive
    windows. With [overlap_tokens = 0] and a positive
    [max_tokens_per_chunk], [chunk_knowledge_base] returns (as soon as the
    fuel exceeds the number of tokens) the decoded windows of a partition of
    the tokens: put end to end the windows give the tokens back, no window
    is empty, every window but the last holds exactly
    [max_tokens_per_chunk] tokens and the last one at most that many, and
    their number is the number of tokens divided by the window size, rounded
    up. A text without a token gives no chunk. *)
Theorem chunk_knowledge_base_no_overlap {T : Tokenizer} (self : service)
    (knowledge_text : string) :
  overlap_tokens self = 0 ->
  0 < max_tokens_per_chunk self ->
  exists windows,
    (forall fuel,
        (length (encode knowledge_text) < fuel)%nat ->
        chunk_knowledge_base self fuel knowledge_text
        = Some (map decode windows))
    /\ concat windows = encode knowledge_text
    /\ Forall (fun w => w <> []
                        /\ Z.of_nat (length w) <= max_tokens_per_chunk self)
         windows
    /\ Forall (fun w => Z.of_nat (length w) = max_tokens_per_chunk self)
         (removelast windows)
    /\ Z.of_nat (length windows)
       = (Z.of_nat (length (encode knowledge_text))
          + max_tokens_per_chunk self - 1) / max_tokens_per_chunk self.
Proof.
  intros Hov Hmax.
  assert (H0 : 0 <= 0 <= Z.of_nat (length (encode knowledge_text))) by lia.
  assert (Hn : Z.of_nat (length (encode knowledge_text)) - 0
               <= Z.of_nat (length (encode knowledge_text))) by lia.
  destruct (chunk_while_no_overlap self (encode knowledge_text)
              (length (encode knowledge_text)) 0 [] Hov Hmax H0 Hn)
    as (windows & Hrun & Hcat & Hall & Hfull & Hcount).
  exists windows. split; [|split; [|split; [|split]]];
    try assumption.
  - intros fuel Hfuel. unfold chunk_knowledge_base.
    apply (chunk_while_more_fuel self (encode knowledge_text)
             (S (length (encode knowledge_text)))); [lia|exact Hrun].
  - now rewrite Z.sub_0_r in Hcount.
Qed.

Lemma chunk_knowledge_base_no_overlap_witness :
  overlap_tokens (with_limits init_service 2 0) = 0
  /\ 0 < max_tokens_per_chunk (with_limits init_service 2 0)
  /\ exists windows,
       chunk_knowledge_base (T := char_tokenizer)
         (with_limits init_service 2 0) 6 "abcde"
       = Some (map (decode (Tokenizer := char_tokenizer)) windows)
       /\ concat windows = encode (Tokenizer := char_tokenizer) "abcde"
       /\ Z.of_nat (length windows) = 3.
Proof.
  split; [reflexivity|]. split; [reflexivity|].
  destruct (chunk_knowledge_base_no_overlap (T := char_tokenizer)
              (with_limits init_service 2 0) "abcde" eq_refl eq_refl)
    as (windows & Hrun & Hcat & _ & _ & Hcount).
  exists windows. split; [|split].
  - apply Hrun. simpl. lia.
  - exact Hcat.
  - exact Hcount.
Defined.

(** X2. When the chunker returns. [chunk_knowledge_base] returns, for some
    amount of fuel, if and only if the text has no token or the overlap is
    not positive and is below the window size: with a positive overlap, or
    with a window size that is not above the overlap, the loop never ends
    on a text that has a token. *)
Theorem chunk_knowledge_base_returns_iff {T : Tokenizer} (self : service)
    (knowledge_text : string) :
  (exists fuel chunks,
      chunk_knowledge_base self fuel knowledge_text = Some chunks)
  <-> (encode knowledge_text = []
       \/ (overlap_tokens self <= 0
           /\ overlap_tokens self < max_tokens_per_chunk self)).
Proof.
  unfold chunk_knowledge_base. split.
  - intros (fuel & chunks & Hrun).
    destruct (encode knowledge_text) as [|t tokens] eqn:Htokens; [now left|].
    right.
    assert (Hlen : 0 < Z.of_nat (length (t :: tokens))) by (simpl; lia).
    destruct (Z.lt_ge_cases 0 (overlap_tokens self)) as [Hpos|Hov].
    { rewrite (chunk_while_out_of_fuel self (t :: tokens) fuel 0 [] Hpos Hlen)
        in Hrun. discriminate. }
    split; [exact Hov|].
    destruct (Z.lt_ge_cases (overlap_tokens self) (max_tokens_per_chunk self))
      as [Hmax|Hmax]; [exact Hmax|].
    rewrite (chunk_while_stuck self (t :: tokens) fuel 0 [] Hov Hmax Hlen)
      in Hrun. discriminate.
  - intros [Hempty|[Hov Hmax]].
    + exists 1%nat, []. now rewrite Hempty.
    + assert (Hn : Z.of_nat (length (encode knowledge_text)) - 0
                   <= Z.of_nat (length (encode knowledge_text))) by lia.
      destruct (chunk_while_returns self (encode knowledge_text)
                  (length (encode knowledge_text)) 0 [] Hov Hmax Hn)
        as [out Hout].
      eauto.
Qed.

(** ** The response parser: the items *)

(** ** Text: characters *)

Lemma cat_app (l m : list string) : cat (l ++ m) = cat l +:+ cat m.
Proof.
  induction l as [|p l IH]; [reflexivity|].
  simpl. now rewrite IH, append_assoc.
Qed.

Lemma cat_utf8_chars s : cat (utf8_chars s) = s.
Proof.
  induction s as [|c s IH]; [reflexivity|]. cbn [utf8_chars].
  destruct (continues s).
  - destruct (utf8_chars s) as [|ch rest].
    + simpl in IH. now subst s.
    + simpl in *. now rewrite IH.
  - simpl. now rewrite IH.
Qed.

Lemma continues_append ch tail :
  ch <> EmptyString -> continues (ch +:+ tail) = continues ch.
Proof. destruct ch; [congruence|reflexivity]. Qed.

Lemma utf8_chars_well_split s : well_split (utf8_chars s).
Proof.
  induction s as [|c s IH]; [exact I|]. cbn [utf8_chars].
  destruct (continues s) eqn:Hs.
  - pose proof (cat_utf8_chars s) as Hcat.
    destruct (utf8_chars s) as [|ch rest].
    + simpl in Hcat. subst s. discriminate.
    + destruct IH as (Hch & Hrest & IH). simpl.
      split; [|split; assumption].
      destruct ch as [|d ch]; [discriminate|]. simpl in Hch, Hcat.
      subst s. simpl in Hs. simpl. now rewrite Hs, Hch.
  - simpl. now rewrite cat_utf8_chars.
Qed.

Lemma utf8_chars_String c s :
  utf8_chars (String c s)
  = if continues s then
      match utf8_chars s with
      | ch :: rest => String c ch :: rest
      | [] => [String c EmptyString]
      end
    else String c EmptyString :: utf8_chars s.
Proof. reflexivity. Qed.

Lemma utf8_chars_char c tail : forall text,
  all_continuation tail = true -> continues text = false ->
  utf8_chars (String c (tail +:+ text)) = String c tail :: utf8_chars text.
Proof.
  revert c. induction tail as [|d tail IH]; intros c text Htail Htext.
  - simpl. now rewrite Htext.
  - simpl in Htail. apply andb_prop in Htail as [Hd Htail].
    change (String c (String d tail +:+ text))
      with (String c (String d (tail +:+ text))).
    rewrite utf8_chars_String. cbn [continues]. rewrite Hd.
    now rewrite (IH d text Htail Htext).
Qed.

Lemma utf8_chars_cat chars : well_split chars -> utf8_chars (cat chars) = chars.
Proof.
  induction chars as [|ch rest IH]; [reflexivity|].
  intros (Hch & Hrest & Hsplit). simpl.
  destruct ch as [|c tail]; [discriminate|].
  change (String c tail +:+ cat rest) with (String c (tail +:+ cat rest)).
  rewrite utf8_chars_char by assumption. now rewrite IH.
Qed.

(** ** Text: [str.strip] *)

Lemma lstrip_suffix chars : exists spaces, chars = spaces ++ lstrip chars.
Proof.
  induction chars as [|ch rest [spaces IH]]; [now exists []|]. simpl.
  destruct (isspace ch).
  - exists (ch :: spaces). simpl. now rewrite <- IH.
  - now exists [].
Qed.

Lemma rstrip_prefix chars : exists spaces, chars = rstrip chars ++ spaces.
Proof.
  induction chars as [|ch rest [spaces IH]]; [now exists []|]. simpl.
  destruct (rstrip rest) as [|kept keeps].
  - destruct (isspace ch).
    + now exists (ch :: rest).
    + exists spaces. simpl in *. now rewrite <- IH.
  - exists spaces. simpl in *. now rewrite <- IH.
Qed.

Lemma lstrip_head chars :
  match lstrip chars with
  | [] => True
  | ch :: _ => isspace ch = false
  end.
Proof.
  induction chars as [|ch rest IH]; [exact I|]. simpl.
  destruct (isspace ch) eqn:E; [exact IH|exact E].
Qed.

Lemma rstrip_last chars ch :
  last (rstrip chars) = Some ch -> isspace ch = false.
Proof.
  induction chars as [|first rest IH]; [discriminate|]. simpl.
  destruct (rstrip rest) as [|kept keeps].
  - destruct (isspace first) eqn:E; [discriminate|]. now intros [= <-].
  - exact IH.
Qed.

(** What [rstrip] keeps starts as the sequence does. *)
Lemma rstrip_cons chars ch kept :
  rstrip chars = ch :: kept -> exists rest, chars = ch :: rest.
Proof.
  destruct chars as [|first rest]; [discriminate|]. simpl.
  destruct (rstrip rest); [destruct (isspace first)|];
    intros [= <- _]; eauto.
Qed.

Lemma rstrip_idem chars : rstrip (rstrip chars) = rstrip chars.
Proof.
  induction chars as [|ch rest IH]; [reflexivity|]. simpl.
  destruct (rstrip rest) as [|kept keeps] eqn:E.
  - destruct (isspace ch) eqn:Hch; [reflexivity|]. simpl. now rewrite Hch.
  - cbn [rstrip]. cbn [rstrip] in IH. now rewrite IH.
Qed.

Lemma lstrip_rstrip_lstrip chars :
  lstrip (rstrip (lstrip chars)) = rstrip (lstrip chars).
Proof.
  pose proof (lstrip_head chars) as Hhead.
  destruct (lstrip chars) as [|ch rest]; [reflexivity|].
  simpl. destruct (rstrip rest); [rewrite Hhead|]; simpl; now rewrite Hhead.
Qed.

Lemma well_split_lstrip chars : well_split chars -> well_split (lstrip chars).
Proof.
  induction chars as [|ch rest IH]; [trivial|]. simpl.
  intros (Hch & Hrest & Hsplit).
  destruct (isspace ch); [now apply IH|]. simpl. auto.
Qed.

Lemma well_split_rstrip chars : well_split chars -> well_split (rstrip chars).
Proof.
  induction chars as [|ch rest IH]; [trivial|]. simpl.
  intros (Hch & Hrest & Hsplit). specialize (IH Hsplit).
  destruct (rstrip rest) as [|kept keeps] eqn:E.
  - destruct (isspace ch); simpl; auto.
  - destruct (rstrip_cons _ _ _ E) as [rest' ->].
    split; [exact Hch|]. split; [|exact IH].
    destruct IH as (Hkept & _). simpl in *.
    destruct kept; [discriminate|]. exact Hrest.
Qed.

(** The characters of a stripped text. *)
Lemma utf8_chars_strip s :
  utf8_chars (strip s) = rstrip (lstrip (utf8_chars s)).
Proof.
  unfold strip. apply utf8_chars_cat.
  apply well_split_rstrip, well_split_lstrip, utf8_chars_well_split.
Qed.

Lemma strip_idem s : strip (strip s) = strip s.
Proof.
  unfold strip at 1. rewrite utf8_chars_strip.
  now rewrite lstrip_rstrip_lstrip, rstrip_idem.
Qed.

(** A stripped text neither starts nor ends with white space. *)
Lemma strip_ends s :
  strip s <> EmptyString ->
  (exists ch, head (utf8_chars (strip s)) = Some ch /\ isspace ch = false)
  /\ (exists ch, last (utf8_chars (strip s)) = Some ch /\ isspace ch = false).
Proof.
  intros Hne. rewrite utf8_chars_strip.
  assert (Hchars : rstrip (lstrip (utf8_chars s)) <> []).
  { intros E. apply Hne. unfold strip. now rewrite E. }
  split.
  - pose proof (lstrip_head (utf8_chars s)) as Hhead.
    destruct (rstrip (lstrip (utf8_chars s))) as [|ch kept] eqn:E;
      [congruence|].
    destruct (rstrip_cons _ _ _ E) as [rest Hrest].
    rewrite Hrest in Hhead. exists ch. now split.
  - destruct (last (rstrip (lstrip (utf8_chars s)))) as [ch|] eqn:E.
    + exists ch. split; [reflexivity|]. exact (rstrip_last _ _ E).
    + apply last_None in E. congruence.
Qed.

(** A stripped text is a part of the text. *)
Lemma strip_part s : exists before after, s = before +:+ strip s +:+ after.
Proof.
  destruct (lstrip_suffix (utf8_chars s)) as [before Hbefore].
  destruct (rstrip_prefix (lstrip (utf8_chars s))) as [after Hafter].
  exists (cat before), (cat after). unfold strip.
  rewrite <- !cat_app, <- Hafter, <- Hbefore. symmetry. apply cat_utf8_chars.
Qed.

Lemma strip_no_feed s : no_line_feed s = true -> no_line_feed (strip s) = true.
Proof.
  destruct (strip_part s) as (before & after & Hs). intros H.
  rewrite Hs, !no_line_feed_app in H.
  apply andb_prop in H as [_ H]. now apply andb_prop in H as [H _].
Qed.

Lemma strip_length s : (String.length (strip s) <= String.length s)%nat.
Proof.
  destruct (strip_part s) as (before & after & Hs).
  rewrite Hs at 2. rewrite !length_append. lia.
Qed.

Lemma drop_chars_no_feed n : forall s,
  no_line_feed s = true -> no_line_feed (drop_chars n s) = true.
Proof.
  induction n as [|n IH]; intros [|c s] H; try assumption.
  simpl. apply IH. simpl in H. now apply andb_prop in H as [_ H].
Qed.

Lemma drop_chars_length n : forall s,
  String.length (drop_chars n s) = (String.length s - n)%nat.
Proof.
  induction n as [|n IH]; intros [|c s]; simpl; try lia. apply IH.
Qed.

Lemma startswith_length s p :
  startswith s p = true -> (String.length p <= String.length s)%nat.
Proof.
  unfold startswith. revert s.
  induction p as [|c p IH]; intros s; [simpl; lia|].
  destruct s as [|d s]; simpl; [discriminate|].
  destruct (Ascii.ascii_dec c d); [|discriminate].
  intros H. apply IH in H. lia.
Qed.

(** The lines that [split] gives hold no line feed, and none is longer
    than the text. *)
Lemma split_lines_lines s :
  Forall (fun line => no_line_feed line = true
                      /\ (String.length line <= String.length s)%nat)
    (split_lines s).
Proof.
  induction s as [|c s IH]; [repeat constructor|].
  assert (Hweak : forall ls,
    Forall (fun line => no_line_feed line = true
                        /\ (String.length line <= String.length s)%nat) ls ->
    Forall (fun line => no_line_feed line = true
                        /\ (String.length line
                            <= String.length (String c s))%nat) ls).
  { intros ls. apply List.Forall_impl. simpl. intros l [? ?].
    split; [assumption|lia]. }
  cbn [split_lines]. destruct (Ascii.eqb c newline) eqn:E.
  - constructor; [split; [reflexivity|simpl; lia]|]. now apply Hweak.
  - destruct (split_lines s) as [|l ls].
    + constructor; [|constructor]. simpl. rewrite E. split; [reflexivity|lia].
    + inversion IH as [|? ? [Hl Hlen] Hls]; subst.
      constructor; [|now apply Hweak].
      simpl. rewrite E, Hl. split; [reflexivity|lia].
Qed.

Lemma nth_split_lines s i :
  no_line_feed (nth i (split_lines s) EmptyString) = true
  /\ (String.length (nth i (split_lines s) EmptyString) <= String.length s)%nat.
Proof.
  destruct (Nat.lt_ge_cases i (length (split_lines s))) as [Hi|Hi].
  - pose proof (split_lines_lines s) as H. rewrite List.Forall_forall in H.
    apply H, nth_In, Hi.
  - rewrite nth_overflow by assumption. split; [reflexivity|simpl; lia].
Qed.

Lemma collected_at_item key lines i item :
  In item (collected_at key lines i) ->
  is_empty item = false
  /\ item = strip (drop_chars 2 (strip (nth i lines EmptyString)))
  /\ startswith (strip (nth i lines EmptyString)) "- " = true.
Proof.
  unfold collected_at, bullet_item.
  destruct (recognized_header _); [intros []|].
  destruct (startswith _ "- "); [|intros []].
  destruct (is_empty _) eqn:E; [intros []|].
  destruct (active_section _) as [key'|]; [|intros []].
  destruct (section_key_eqb key' key); [|intros []].
  intros [<-|[]]. auto.
Qed.

(** X3. The items that the parser collects are clean. Every item of every
    section of [_parse_structured_response] is a non-empty text whose first
    and last characters are not white space (any white space of Unicode,
    as [str.strip] takes it away), so that stripping it again changes
    nothing; it holds no line feed, and it is shorter than the response by
    the two bytes of its bullet marker at least. *)
Theorem parsed_items_clean (response : string) (key : section_key)
    (item : string) :
  In item (section_items key (_parse_structured_response response)) ->
  item <> EmptyString
  /\ (exists ch, head (utf8_chars item) = Some ch /\ isspace ch = false)
  /\ (exists ch, last (utf8_chars item) = Some ch /\ isspace ch = false)
  /\ strip item = item
  /\ no_line_feed item = true
  /\ (String.length item + 2 <= String.length response)%nat.
Proof.
  unfold _parse_structured_response. intros Hin.
  rewrite (proj2 (parse_lines_invariant _)) in Hin.
  unfold spec_collect in Hin. apply in_flat_map in Hin as (i & _ & Hin).
  apply collected_at_item in Hin as (Hne & -> & Hbullet).
  destruct (nth_split_lines response i) as [Hfeed Hlen].
  assert (Hitem : strip (drop_chars 2 (strip (nth i (split_lines response) "")))
                  <> EmptyString)
    by (intros E; now rewrite E in Hne).
  split; [exact Hitem|].
  split; [exact (proj1 (strip_ends _ Hitem))|].
  split; [exact (proj2 (strip_ends _ Hitem))|].
  split; [apply strip_idem|].
  split; [now apply strip_no_feed, drop_chars_no_feed, strip_no_feed|].
  pose proof (strip_length
                (drop_chars 2 (strip (nth i (split_lines response) ""))))
    as H1.
  rewrite drop_chars_length in H1.
  pose proof (strip_length (nth i (split_lines response) "")) as H2.
  apply startswith_length in Hbullet. simpl in Hbullet. lia.
Qed.

Lemma parsed_items_clean_witness :
  In "Moat" (section_items principles
               (_parse_structured_response
                  ("PRINCIPLES:
   -   Moat " +:+ utf8_encode 160 +:+ utf8_encode 8195)))
  /\ strip "Moat" = "Moat".
Proof.
  assert (Hin : In "Moat" (section_items principles
               (_parse_structured_response
                  ("PRINCIPLES:
   -   Moat " +:+ utf8_encode 160 +:+ utf8_encode 8195))))
    by (vm_compute; auto).
  split; [exact Hin|].
  exact (proj1 (proj2 (proj2 (proj2 (parsed_items_clean _ _ _ Hin))))).
Defined.

(** ** The chunk processor: every outcome *)

(** The record of a chunk that was processed. *)
Lemma process_knowledge_chunk_success self chunk chunk_index run answer :
  agent self = Some run ->
  run (processing_prompt chunk chunk_index) = Ok (PDict answer) ->
  process_knowledge_chunk self chunk chunk_index
  = Ok (PDict
          [("chunk_index", PInt chunk_index);
           ("summary", default (PStr "") (dict_lookup answer "summary"));
           ("principles",
            default (PList []) (dict_lookup answer "principles"));
           ("insights", default (PList []) (dict_lookup answer "insights"));
           ("quotes", default (PList []) (dict_lookup answer "quotes"));
           ("metrics", default (PDict []) (dict_lookup answer "metrics"));
           ("processed", PBool true)]).
Proof.
  intros Hagent Hrun.
  unfold process_knowledge_chunk, chunk_attempt, agent_run.
  rewrite Hagent, bind_Ok, Hrun. reflexivity.
Qed.

(** What the call returns, by the outcome of the attempt. *)
Lemma process_knowledge_chunk_cases self chunk chunk_index :
  (exists run answer,
      agent self = Some run
      /\ run (processing_prompt chunk chunk_index) = Ok (PDict answer))
  \/ (exists e,
         chunk_attempt self chunk chunk_index = Raise e
         /\ ~ (exists run answer,
                  agent self = Some run
                  /\ run (processing_prompt chunk chunk_index)
                     = Ok (PDict answer))
         /\ process_knowledge_chunk self chunk chunk_index
            = if is_Exception e then
                Ok (PDict [("chunk_index", PInt chunk_index);
                           ("error", PStr (exn_msg e));
                           ("processed", PBool false)])
              else Raise e).
Proof.
  unfold process_knowledge_chunk, chunk_attempt, agent_run.
  destruct (agent self) as [run|] eqn:Hagent.
  - rewrite bind_Ok.
    destruct (run (processing_prompt chunk chunk_index)) as [answer|e]
      eqn:Hrun.
    + destruct answer as [| | | | |answer];
        try (right; eexists; split; [reflexivity|]; split;
             [intros (run' & answer' & [= <-] & Hr); congruence
             |reflexivity]).
      left. eauto.
    + right. exists e. split; [reflexivity|]. split.
      * intros (run' & answer' & [= <-] & Hr). congruence.
      * unfold try_except. simpl. reflexivity.
  - right. eexists. split; [reflexivity|]. split.
    + intros (run' & answer' & [=] & _).
    + reflexivity.
Qed.

Lemma process_knowledge_chunk_index self chunk chunk_index d :
  process_knowledge_chunk self chunk chunk_index = Ok (PDict d) ->
  dict_lookup d "chunk_index" = Some (PInt chunk_index).
Proof.
  destruct (process_knowledge_chunk_cases self chunk chunk_index)
    as [(run & answer & Hagent & Hrun)|(e & _ & _ & Hcall)].
  - rewrite (process_knowledge_chunk_success _ _ _ _ _ Hagent Hrun).
    now intros [= <-].
  - rewrite Hcall. destruct (is_Exception e); [|discriminate].
    now intros [= <-].
Qed.


(** ** The knowledge loader *)

Lemma setitem_not_nil key value d : setitem key value d <> [].
Proof.
  destruct d as [|[k w] d]; simpl; [|destruct (String.eqb k key)];
    discriminate.
Qed.

Lemma getitem_setitem key value d key' :
  getitem (setitem key value d) key'
  = if String.eqb key key' then Some value else getitem d key'.
Proof.
  induction d as [|[k w] d IH]; simpl.
  - reflexivity.
  - destruct (String.eqb k key) eqn:Ek; simpl.
    + apply String.eqb_eq in Ek. subst k.
      now destruct (String.eqb key key').
    + destruct (String.eqb k key') eqn:Ek'; [|exact IH].
      apply String.eqb_eq in Ek'. subst k.
      destruct (String.eqb key key') eqn:E; [|reflexivity].
      apply String.eqb_eq in E. subst. now rewrite String.eqb_refl in Ek.
Qed.

Lemma getitem_In d key value :
  getitem d key = Some value -> In (key, value) d.
Proof.
  induction d as [|[k w] d IH]; simpl; [discriminate|].
  destruct (String.eqb k key) eqn:E.
  - apply String.eqb_eq in E. intros [= ->]. left. now subst.
  - intros H. right. now apply IH.
Qed.

Lemma load_file_cases prefix data named stem text :
  load_file prefix (data, named) (stem, text)
  = if usable text then
      (setitem (prefix +:+ stem) (strip (default "" text)) data,
       setitem stem (strip (default "" text)) named)
    else (data, named).
Proof.
  unfold load_file, usable. destruct text as [raw|]; [|reflexivity].
  simpl. now destruct (is_empty (strip raw)).
Qed.

(** The dict of a folder stays empty exactly when no file of the folder is
    kept. *)
Lemma load_files_named_nil prefix files : forall data named,
  snd (fold_left (load_file prefix) files (data, named)) = []
  <-> named = [] /\ existsb (fun file => usable (snd file)) files = false.
Proof.
  induction files as [|[stem text] files IH]; intros data named;
    cbn [fold_left existsb snd].
  - tauto.
  - rewrite load_file_cases. destruct (usable text); cbn [orb].
    + rewrite IH. split; [intros [H _]; now apply setitem_not_nil in H|].
      intros [_ H]. discriminate.
    + apply IH.
Qed.

(** The keys that a folder adds to [_data] begin with its prefix. *)
Lemma load_files_data_other prefix key files : forall data named,
  (forall stem, String.eqb (prefix +:+ stem) key = false) ->
  getitem (fst (fold_left (load_file prefix) files (data, named))) key
  = getitem data key.
Proof.
  induction files as [|[stem text] files IH]; intros data named Hkey;
    [reflexivity|].
  cbn [fold_left]. rewrite load_file_cases. destruct (usable text).
  - rewrite IH by assumption. now rewrite getitem_setitem, Hkey.
  - now apply IH.
Qed.

Lemma load_folder_named_nil prefix folder data :
  snd (load_folder prefix folder data) = []
  <-> existsb (fun file => usable (snd file)) (files_of folder) = false.
Proof.
  destruct folder as [files|]; simpl; [|tauto].
  rewrite load_files_named_nil. tauto.
Qed.

Lemma load_folder_data_other prefix key folder data :
  (forall stem, String.eqb (prefix +:+ stem) key = false) ->
  getitem (fst (load_folder prefix folder data)) key = getitem data key.
Proof.
  intros Hkey. destruct folder as [files|]; [|reflexivity].
  now apply load_files_data_other.
Qed.

(** The three parts of the knowledge base after a first load. *)
Lemma load_data_parts self disk :
  _loaded self = false ->
  _books (_load_data self disk)
  = snd (load_folder "BOOK_" (extracted_texts disk) [])
  /\ _transcripts (_load_data self disk)
     = snd (load_folder "TRANSCRIPT_" (transcripts_raw disk)
              (fst (load_folder "BOOK_" (extracted_texts disk) [])))
  /\ getitem (_data (_load_data self disk)) "KNOWLEDGE_BASE"
     = match knowledge_base_file disk with
       | Some text =>
           if usable text then Some (strip (default "" text)) else None
       | None => None
       end
  /\ _loaded (_load_data self disk) = true.
Proof.
  intros Hfresh. unfold _load_data. rewrite Hfresh.
  destruct (load_folder "BOOK_" (extracted_texts disk) [])
    as [data books] eqn:Hbooks.
  destruct (load_folder "TRANSCRIPT_" (transcripts_raw disk) data)
    as [data' transcripts] eqn:Htranscripts.
  assert (Hnone : getitem data' "KNOWLEDGE_BASE" = None).
  { change data' with (fst (data', transcripts)). rewrite <- Htranscripts.
    rewrite load_folder_data_other by reflexivity.
    change data with (fst (data, books)). rewrite <- Hbooks.
    now rewrite load_folder_data_other by reflexivity. }
  cbn [_books _transcripts _data _loaded fst snd].
  rewrite Htranscripts. cbn [snd].
  split; [reflexivity|]. split; [reflexivity|]. split; [|reflexivity].
  destruct (knowledge_base_file disk) as [[raw|]|]; cbn [usable default];
    try assumption.
  destruct (is_empty (strip raw)); cbn [negb]; [assumption|].
  rewrite getitem_setitem. reflexivity.
Qed.

Lemma join_head_not_empty sep c p rest :
  join sep (String c p :: rest) <> EmptyString.
Proof. destruct rest; simpl; discriminate. Qed.

Lemma formatted_sections_nil self :
  lines (formatted_sections self) = EmptyString
  <-> getitem (_data self) "KNOWLEDGE_BASE" = None
      /\ _books self = [] /\ _transcripts self = [].
Proof.
  unfold formatted_sections, lines. split.
  - destruct (getitem (_data self) "KNOWLEDGE_BASE");
      [intros H; now apply join_head_not_empty in H|].
    destruct (_books self);
      [|intros H; now apply join_head_not_empty in H].
    destruct (_transcripts self);
      [|intros H; now apply join_head_not_empty in H].
    auto.
  - intros (-> & -> & ->). reflexivity.
Qed.

(** X8. The knowledge text is empty exactly when the disk holds nothing
    that the loader keeps: on a first load, [get_warren_buffett_knowledge]
    returns the empty text if and only if no file of [extracted_texts] and
    of [transcripts_raw] and not the knowledge base file can be read with a
    text that is not blank (a folder or a file that does not exist counts
    as nothing). *)
Theorem knowledge_text_empty_iff (kb : WarrenBuffettKnowledgeBase)
    (disk : dataset) :
  _loaded kb = false ->
  snd (get_warren_buffett_knowledge kb disk) = EmptyString
  <-> existsb (fun file => usable (snd file))
        (files_of (extracted_texts disk)) = false
      /\ existsb (fun file => usable (snd file))
           (files_of (transcripts_raw disk)) = false
      /\ match knowledge_base_file disk with
         | Some text => usable text
         | None => false
         end = false.
Proof.
  intros Hfresh.
  unfold get_warren_buffett_knowledge, get_formatted_knowledge_base.
  cbn [snd]. rewrite formatted_sections_nil.
  destruct (load_data_parts kb disk Hfresh) as (-> & -> & -> & _).
  rewrite !load_folder_named_nil.
  destruct (knowledge_base_file disk) as [text|]; [|tauto].
  destruct (usable text); [|tauto].
  split; [intros [[=] _]|intros (_ & _ & [=])].
Qed.

Lemma knowledge_text_empty_iff_witness :
  _loaded new_knowledge_base = false
  /\ snd (get_warren_buffett_knowledge new_knowledge_base
            (Dataset (Some [("essays", Some "   "); ("letters", None)])
                     None (Some None)))
     = EmptyString.
Proof.
  split; [reflexivity|].
  apply (knowledge_text_empty_iff new_knowledge_base
           (Dataset (Some [("essays", Some "   "); ("letters", None)])
                    None (Some None)) eq_refl).
  repeat split.
Defined.

Lemma load_files_named_other prefix stem files : forall data named,
  ~ In stem (map fst files) ->
  getitem (snd (fold_left (load_file prefix) files (data, named))) stem
  = getitem named stem.
Proof.
  induction files as [|[stem' text] files IH]; intros data named Hnot;
    [reflexivity|].
  cbn [fold_left]. rewrite load_file_cases.
  assert (Hne : String.eqb stem' stem = false).
  { apply String.eqb_neq. intros ->. apply Hnot. now left. }
  assert (Hrest : ~ In stem (map fst files))
    by (intros H; apply Hnot; now right).
  destruct (usable text).
  - rewrite IH by assumption. now rewrite getitem_setitem, Hne.
  - now apply IH.
Qed.

(** A kept file is found under its stem, when no two files of the folder
    have the same stem. *)
Lemma load_files_named_lookup prefix stem text files : forall data named,
  List.NoDup (map fst files) ->
  In (stem, text) files ->
  usable text = true ->
  getitem (snd (fold_left (load_file prefix) files (data, named))) stem
  = Some (strip (default "" text)).
Proof.
  induction files as [|[stem' text'] files IH]; intros data named Hnodup Hin
    Huse; [destruct Hin|].
  inversion Hnodup as [|? ? Hfresh Hrest]; subst.
  cbn [fold_left]. rewrite load_file_cases.
  destruct Hin as [[= -> ->]|Hin].
  - rewrite Huse, load_files_named_other by assumption.
    now rewrite getitem_setitem, String.eqb_refl.
  - destruct (usable text'); now apply IH.
Qed.

Lemma occurs_in_refl s : occurs_in s s.
Proof. exists EmptyString, EmptyString. simpl. now rewrite append_nil_r. Qed.

Lemma occurs_in_after s a b : occurs_in s b -> occurs_in s (a +:+ b).
Proof.
  intros (before & after & ->). exists (a +:+ before), after.
  now rewrite append_assoc.
Qed.

Lemma occurs_in_before s a b : occurs_in s a -> occurs_in s (a +:+ b).
Proof.
  intros (before & after & ->). exists before, (after +:+ b).
  now rewrite !append_assoc.
Qed.

Lemma join_occurs sep part parts :
  In part parts -> occurs_in part (join sep parts).
Proof.
  induction parts as [|p parts IH]; [intros []|].
  intros Hin. destruct parts as [|q parts].
  - destruct Hin as [->|[]]. apply occurs_in_refl.
  - rewrite join_cons. destruct Hin as [->|Hin].
    + apply occurs_in_before, occurs_in_refl.
    + apply occurs_in_after, occurs_in_after. now apply IH.
Qed.

Lemma formatted_sections_hold self content :
  getitem (_data self) "KNOWLEDGE_BASE" = Some content
  \/ (exists name, In (name, content) (_books self))
  \/ (exists name, In (name, content) (_transcripts self)) ->
  In content (formatted_sections self).
Proof.
  unfold formatted_sections. rewrite !in_app_iff.
  intros [Hkb|[[name Hbook]|[name Htranscript]]].
  - left. rewrite Hkb. simpl. tauto.
  - right. left. destruct (_books self) as [|entry books]; [destruct Hbook|].
    apply in_app_iff. right. apply in_flat_map.
    exists (name, content). split; [exact Hbook|]. simpl. tauto.
  - right. right.
    destruct (_transcripts self) as [|entry transcripts];
      [destruct Htranscript|].
    apply in_app_iff. right. apply in_flat_map.
    exists (name, content). split; [exact Htranscript|]. simpl. tauto.
Qed.

Lemma load_folder_named_lookup prefix folder data stem raw :
  List.NoDup (map fst (files_of folder)) ->
  In (stem, Some raw) (files_of folder) ->
  strip raw <> EmptyString ->
  In (stem, strip raw) (snd (load_folder prefix folder data)).
Proof.
  intros Hnodup Hin Hne. destruct folder as [files|]; [|destruct Hin].
  apply getitem_In.
  apply (load_files_named_lookup prefix stem (Some raw) files data []
           Hnodup Hin).
  simpl. now destruct (strip raw).
Qed.

(** X9. No kept file is lost: after a first load the knowledge text holds
    the stripped text of every file that can be read and is not blank, of
    both folders (where the stems of a folder are distinct, as the names of
    the files of a folder are) and of the knowledge base file. *)
Theorem knowledge_text_holds_every_file (kb : WarrenBuffettKnowledgeBase)
    (disk : dataset) (raw : string) :
  _loaded kb = false ->
  strip raw <> EmptyString ->
  (exists stem,
      List.NoDup (map fst (files_of (extracted_texts disk)))
      /\ In (stem, Some raw) (files_of (extracted_texts disk)))
  \/ (exists stem,
         List.NoDup (map fst (files_of (transcripts_raw disk)))
         /\ In (stem, Some raw) (files_of (transcripts_raw disk)))
  \/ knowledge_base_file disk = Some (Some raw) ->
  occurs_in (strip raw) (snd (get_warren_buffett_knowledge kb disk)).
Proof.
  intros Hfresh Hne Hfile.
  unfold get_warren_buffett_knowledge, get_formatted_knowledge_base.
  cbn [snd]. apply join_occurs, formatted_sections_hold.
  destruct (load_data_parts kb disk Hfresh) as (-> & -> & -> & _).
  destruct Hfile as [(stem & Hnodup & Hin)|[(stem & Hnodup & Hin)|Hkb]].
  - right. left. exists stem. now apply load_folder_named_lookup.
  - right. right. exists stem. now apply load_folder_named_lookup.
  - left. rewrite Hkb. simpl. now destruct (strip raw).
Qed.

Lemma knowledge_text_holds_every_file_witness :
  _loaded new_knowledge_base = false
  /\ strip "  Price is what you pay.  " <> EmptyString
  /\ occurs_in "Price is what you pay."
       (snd (get_warren_buffett_knowledge new_knowledge_base
               (Dataset (Some [("essays", Some "  Price is what you pay.  ")])
                        (Some []) None))).
Proof.
  assert (Hne : strip "  Price is what you pay.  " <> EmptyString)
    by discriminate.
  split; [reflexivity|]. split; [exact Hne|].
  apply (knowledge_text_holds_every_file new_knowledge_base
           (Dataset (Some [("essays", Some "  Price is what you pay.  ")])
                    (Some []) None)
           "  Price is what you pay.  " eq_refl Hne).
  left. exists "essays". split; [|now left].
  repeat constructor. intros [].
Defined.

(** X10. The loader reads the disk once: after a call of
    [get_warren_buffett_knowledge], a second call returns the same text and
    leaves the knowledge base as it is, whatever the disk holds by then. *)
Theorem knowledge_is_loaded_once (kb : WarrenBuffettKnowledgeBase)
    (disk disk' : dataset) :
  get_warren_buffett_knowledge
    (fst (get_warren_buffett_knowledge kb disk)) disk'
  = get_warren_buffett_knowledge kb disk.
Proof.
  unfold get_warren_buffett_knowledge, get_formatted_knowledge_base.
  cbn [fst].
  assert (Hloaded : _loaded (_load_data kb disk) = true).
  { unfold _load_data. destruct (_loaded kb) eqn:E; [exact E|].
    destruct (load_folder "BOOK_" (extracted_texts disk) []) as [data books].
    now destruct (load_folder "TRANSCRIPT_" (transcripts_raw disk) data). }
  assert (Hsame : _load_data (_load_data kb disk) disk' = _load_data kb disk).
  { unfold _load_data at 1. now rewrite Hloaded. }
  now rewrite Hsame.
Qed.

(** The text for one book, one transcript and the knowledge base file. *)
Example knowledge_text_sample :
  snd (get_warren_buffett_knowledge new_knowledge_base
         (Dataset
            (Some [("The_Essays_(Z-Library)", Some "  Price is what you pay.
")])
            (Some [("annual-meeting_2008", Some "Value is what you get.")])
            (Some (Some "Be fearful when others are greedy."))))
  = "========================================
WARREN BUFFETT COMPREHENSIVE KNOWLEDGE BASE
========================================
Be fearful when others are greedy.
========================================
WARREN BUFFETT BOOKS & LITERATURE
========================================
The following books contain Warren Buffett's investment philosophy, strategies, and wisdom:

--- The Essays ---
Price is what you pay.

========================================
WARREN BUFFETT INTERVIEWS & TRANSCRIPTS
========================================
The following transcripts contain Warren Buffett's actual words from interviews, shareholder meetings, and speeches:

--- Annual Meeting 2008 ---
Value is what you get."
  /\ title "it's a b-c d3e" = "It'S A B-C D3E"
  /\ replace "aaa" "aa" "b" = "ba".
Proof. repeat split; vm_compute; reflexivity. Qed.

(** ** The full run *)

Lemma Forall_imap {A B : Type} (P : B -> Prop) (l : list A) :
  forall f : nat -> A -> B,
  (forall i x, P (f i x)) -> List.Forall P (imap f l).
Proof.
  induction l as [|x l IH]; intros f Hf; [constructor|].
  cbn [imap]. constructor; [apply Hf|]. apply IH. intros i y. apply Hf.
Qed.

Lemma nth_error_imap {A B : Type} (l : list A) :
  forall (f : nat -> A -> B) i,
  nth_error (imap f l) i = option_map (f i) (nth_error l i).
Proof.
  induction l as [|x l IH]; intros f [|i]; try reflexivity.
  cbn [imap nth_error]. apply (IH (f ∘ S)).
Qed.

(** The outcomes of tasks that end with a dict or with an exception
    outside [Exception]. *)
Lemma gather_records tasks : forall outcomes,
  List.Forall (fun task =>
                 (exists d, task = Ok (PDict d))
                 \/ (exists e, task = Raise e /\ is_Exception e = false))
    tasks ->
  gather tasks = Ok outcomes ->
  exists records,
    tasks = map Ok records
    /\ outcomes = map inl records
    /\ List.Forall (fun record => is_dict record = true) records.
Proof.
  induction tasks as [|task tasks IH]; intros outcomes Htasks.
  - intros [= <-]. exists []. repeat split. constructor.
  - inversion Htasks as [|? ? Htask Hrest]; subst. cbn [gather].
    destruct Htask as [[d ->]|(e & -> & He)].
    + destruct (gather tasks) as [outcomes'|e] eqn:Hg; [|discriminate].
      rewrite bind_Ok. intros [= <-].
      destruct (IH outcomes' Hrest eq_refl) as (records & -> & -> & Hd).
      exists (PDict d :: records). repeat split. now constructor.
    + rewrite He. discriminate.
Qed.

Lemma filter_chunks_failed records :
  List.Forall (fun record => is_dict record = true) records ->
  filter_chunks is_failed (map inl records)
  = Ok (List.filter (fun chunk => negb (is_successful chunk))
          (map inl records)).
Proof.
  induction 1 as [|record records Hd _ IH]; [reflexivity|].
  destruct record; try discriminate.
  cbn [map filter_chunks]. rewrite IH. reflexivity.
Qed.

Lemma filter_lengths {A : Type} (p : A -> bool) (l : list A) :
  length (List.filter (fun x => negb (p x)) l)
  = (length l - length (List.filter p l))%nat.
Proof.
  induction l as [|x l IH]; [reflexivity|]. simpl.
  pose proof (List.filter_length_le p l).
  destruct (p x); simpl; lia.
Qed.

Lemma dicts_of_inl records : dicts_of (map inl records) = records.
Proof.
  unfold dicts_of. induction records as [|r records IH]; [reflexivity|].
  simpl. f_equal. exact IH.
Qed.

Lemma filter_map_inl (records : list pyval) :
  List.filter is_successful (map inl records)
  = map inl (List.filter was_processed records).
Proof.
  induction records as [|r records IH]; [reflexivity|].
  cbn [map List.filter]. rewrite IH.
  change (was_processed r) with (is_successful (inl r)).
  destruct (is_successful (inl r)); reflexivity.
Qed.

Section FullRun.
Context {T : Tokenizer} {O : SetOrder}.

Lemma process_knowledge_chunk_task self chunk chunk_index :
  (exists d, process_knowledge_chunk self chunk chunk_index = Ok (PDict d))
  \/ (exists e, process_knowledge_chunk self chunk chunk_index = Raise e
                /\ is_Exception e = false).
Proof.
  destruct (process_knowledge_chunk_cases self chunk chunk_index)
    as [(run & answer & Hagent & Hrun)|(e & _ & _ & Hcall)].
  - left. rewrite (process_knowledge_chunk_success _ _ _ _ _ Hagent Hrun).
    eauto.
  - rewrite Hcall. destruct (is_Exception e) eqn:E; [left|right]; eauto.
Qed.

(** The run, once the chunker has returned. *)
Lemma process_full_knowledge_base_chunks self fuel kb disk chunks :
  chunk_knowledge_base self fuel (snd (get_warren_buffett_knowledge kb disk))
  = Some chunks ->
  process_full_knowledge_base self fuel kb disk
  = Some (fst (get_warren_buffett_knowledge kb disk),
          (processed_chunks ←
             gather (imap (fun i chunk =>
                             process_knowledge_chunk self chunk (Z.of_nat i))
                       chunks);
           failed_chunks ← filter_chunks is_failed processed_chunks;
           aggregated_knowledge ←
             _aggregate_processed_chunks
               (dicts_of (List.filter is_successful processed_chunks));
           Ok (PDict
                 [("total_chunks", PInt (Z.of_nat (length chunks)));
                  ("successful_chunks",
                   PInt (Z.of_nat
                           (length (dicts_of (List.filter is_successful
                                                processed_chunks)))));
                  ("failed_chunks", PInt (Z.of_nat (length failed_chunks)));
                  ("aggregated_knowledge", aggregated_knowledge);
                  ("processing_stats",
                   PDict [("total_tokens",
                           PInt (count_tokens
                                   (snd (get_warren_buffett_knowledge kb
                                           disk))));
                          ("tokens_per_chunk",
                           PInt (max_tokens_per_chunk self));
                          ("overlap_tokens",
                           PInt (overlap_tokens self))])]))).
Proof.
  intros Hchunks. unfold process_full_knowledge_base.
  destruct (get_warren_buffett_knowledge kb disk) as [kb' text].
  cbn [fst snd] in *. rewrite Hchunks. reflexivity.
Qed.

Lemma process_full_knowledge_base_fuel self fuel kb disk :
  chunk_knowledge_base self fuel (snd (get_warren_buffett_knowledge kb disk))
  = None ->
  process_full_knowledge_base self fuel kb disk = None.
Proof.
  intros Hchunks. unfold process_full_knowledge_base.
  destruct (get_warren_buffett_knowledge kb disk) as [kb' text].
  cbn [fst snd] in *. now rewrite Hchunks.
Qed.
End FullRun.

(** What a run that returns has done. *)
Lemma process_full_knowledge_base_returns {T : Tokenizer} {O : SetOrder}
    (self : service) (fuel : nat) (kb kb' : WarrenBuffettKnowledgeBase)
    (disk : dataset) (record : pyval) :
  process_full_knowledge_base self fuel kb disk = Some (kb', Ok record) ->
  exists chunks records digest,
    kb' = fst (get_warren_buffett_knowledge kb disk)
    /\ chunk_knowledge_base self fuel
         (snd (get_warren_buffett_knowledge kb disk)) = Some chunks
    /\ imap (fun i chunk => process_knowledge_chunk self chunk (Z.of_nat i))
         chunks = map Ok records
    /\ length records = length chunks
    /\ _aggregate_processed_chunks (List.filter was_processed records)
       = Ok digest
    /\ record
       = knowledge_record self (snd (get_warren_buffett_knowledge kb disk))
           (length chunks)
           (length (List.filter was_processed records)) digest.
Proof.
  intros Hrun.
  destruct (chunk_knowledge_base self fuel
              (snd (get_warren_buffett_knowledge kb disk)))
    as [chunks|] eqn:Hchunks;
    [|now rewrite process_full_knowledge_base_fuel in Hrun].
  rewrite (process_full_knowledge_base_chunks _ _ _ _ _ Hchunks) in Hrun.
  injection Hrun as <- Hrecord.
  destruct (gather _) as [outcomes|e] eqn:Hgather; [|discriminate].
  rewrite bind_Ok in Hrecord.
  apply gather_records in Hgather as (records & Htasks & -> & Hdicts);
    [|apply Forall_imap; intros i chunk; apply process_knowledge_chunk_task].
  rewrite filter_chunks_failed, bind_Ok in Hrecord by assumption.
  rewrite filter_map_inl, dicts_of_inl in Hrecord.
  destruct (_aggregate_processed_chunks _) as [digest|e] eqn:Hdigest;
    [|discriminate].
  rewrite bind_Ok in Hrecord. injection Hrecord as <-.
  assert (Hlen : length records = length chunks).
  { apply (f_equal (@length _)) in Htasks.
    now rewrite length_imap, length_map in Htasks. }
  exists chunks, records, digest.
  repeat split; try assumption.
  unfold knowledge_record.
  now rewrite filter_lengths, filter_map_inl, !length_map, Hlen.
Qed.

(** X11. The record of a run counts every chunk once. When
    [process_full_knowledge_base] returns a record, the chunker has
    returned the chunks of the knowledge text, every chunk has its record
    from [process_knowledge_chunk], in the order of the chunks and with the
    position of the chunk as its index, and
    the record of the run holds the number of chunks, the number of records
    that are marked as processed, their difference as the number of failed
    chunks, the digest of the processed records, and the limits of the
    service with the token count of the text. *)
Theorem process_full_knowledge_base_accounts {T : Tokenizer} {O : SetOrder}
    (self : service) (fuel : nat) (kb kb' : WarrenBuffettKnowledgeBase)
    (disk : dataset) (record : pyval) :
  process_full_knowledge_base self fuel kb disk = Some (kb', Ok record) ->
  exists chunks records digest,
    chunk_knowledge_base self fuel
      (snd (get_warren_buffett_knowledge kb disk)) = Some chunks
    /\ length records = length chunks
    /\ (forall i chunk,
          nth_error chunks i = Some chunk ->
          exists d,
            nth_error records i = Some (PDict d)
            /\ process_knowledge_chunk self chunk (Z.of_nat i)
               = Ok (PDict d)
            /\ dict_lookup d "chunk_index" = Some (PInt (Z.of_nat i)))
    /\ _aggregate_processed_chunks (List.filter was_processed records)
       = Ok digest
    /\ (length (List.filter was_processed records) <= length chunks)%nat
    /\ record
       = knowledge_record self (snd (get_warren_buffett_knowledge kb disk))
           (length chunks)
           (length (List.filter was_processed records)) digest.
Proof.
  intros Hrun.
  destruct (process_full_knowledge_base_returns _ _ _ _ _ _ Hrun)
    as (chunks & records & digest & _ & Hchunks & Htasks & Hlen & Hdigest
        & Hrecord).
  exists chunks, records, digest.
  split; [exact Hchunks|]. split; [exact Hlen|].
  split; [|split; [exact Hdigest|split; [|exact Hrecord]]].
  - intros i chunk Hchunk.
    assert (Htask : nth_error
                      (imap (fun i chunk =>
                               process_knowledge_chunk self chunk (Z.of_nat i))
                         chunks) i
                    = Some (process_knowledge_chunk self chunk (Z.of_nat i))).
    { rewrite nth_error_imap, Hchunk. reflexivity. }
    rewrite Htasks, nth_error_map in Htask.
    destruct (nth_error records i) as [r|] eqn:Hr; [|discriminate].
    injection Htask as Htask.
    destruct (process_knowledge_chunk_task self chunk (Z.of_nat i))
      as [[d Hd]|(e & He & _)]; [|congruence].
    exists d. rewrite Hd in Htask. injection Htask as ->.
    split; [reflexivity|]. split; [exact Hd|].
    exact (process_knowledge_chunk_index _ _ _ _ Hd).
  - rewrite <- Hlen. apply List.filter_length_le.
Qed.

Lemma process_full_knowledge_base_accounts_witness :
  exists kb' record (chunks : list string) (records : list pyval),
    process_full_knowledge_base (T := char_tokenizer) (O := insertion_order)
      (with_limits (with_agent init_service stub_agent) 100 0) 200
      new_knowledge_base
      (Dataset None None (Some (Some "Price is what you pay.")))
    = Some (kb', Ok record)
    /\ length chunks = 2%nat
    /\ length records = length chunks
    /\ py_get record "successful_chunks" PNone = Ok (PInt 2).
Proof.
  assert (Hrun : exists kb' record,
    process_full_knowledge_base (T := char_tokenizer) (O := insertion_order)
      (with_limits (with_agent init_service stub_agent) 100 0) 200
      new_knowledge_base
      (Dataset None None (Some (Some "Price is what you pay.")))
    = Some (kb', Ok record)
    /\ py_get record "successful_chunks" PNone = Ok (PInt 2)
    /\ py_get record "total_chunks" PNone = Ok (PInt 2)).
  { eexists. eexists. split; [vm_compute; reflexivity|].
    split; reflexivity. }
  destruct Hrun as (kb' & record & Hrun & Hsuccessful & Htotal).
  destruct (process_full_knowledge_base_accounts _ _ _ _ _ _ Hrun)
    as (chunks & records & digest & _ & Hlen & _ & _ & _ & Hrecord).
  exists kb', record, chunks, records.
  repeat split; try assumption.
  rewrite Hrecord in Htotal. simpl in Htotal. injection Htotal. lia.
Defined.

Lemma imap_Ok {A : Type} (l : list A) :
  forall (f : nat -> A -> result pyval) (g : nat -> A -> pyval),
  (forall i x, f i x = Ok (g i x)) -> imap f l = map Ok (imap g l).
Proof.
  induction l as [|x l IH]; intros f g Hfg; [reflexivity|].
  cbn [imap map]. rewrite Hfg. f_equal. apply IH. intros i y. apply Hfg.
Qed.

Lemma gather_Ok records : gather (map Ok records) = Ok (map inl records).
Proof.
  induction records as [|r records IH]; [reflexivity|].
  cbn [map gather]. now rewrite IH.
Qed.

Lemma filter_none {A : Type} (p : A -> bool) (l : list A) :
  List.Forall (fun x => p x = false) l -> List.filter p l = [].
Proof.
  induction 1 as [|x l Hx _ IH]; [reflexivity|]. simpl. now rewrite Hx.
Qed.

Lemma aggregate_no_chunk {O : SetOrder} :
  _aggregate_processed_chunks [] = Ok empty_digest.
Proof.
  unfold _aggregate_processed_chunks, py_list_set. simpl.
  pose proof (Permutation_nil
                (Permutation_sym (iteration_order_perm []))) as ->.
  reflexivity.
Qed.

(** X12. A service without a summarizer, which is how [__init__] leaves
    it, processes nothing: whenever the chunker returns, the run returns a
    record (it does not raise) in which no chunk is successful, every chunk
    is failed, and the digest is the digest of no chunk. *)
Theorem process_full_knowledge_base_without_agent {T : Tokenizer}
    {O : SetOrder} (self : service) (fuel : nat)
    (kb : WarrenBuffettKnowledgeBase) (disk : dataset)
    (chunks : list string) :
  agent self = None ->
  chunk_knowledge_base self fuel (snd (get_warren_buffett_knowledge kb disk))
  = Some chunks ->
  process_full_knowledge_base self fuel kb disk
  = Some (fst (get_warren_buffett_knowledge kb disk),
          Ok (knowledge_record self
                (snd (get_warren_buffett_knowledge kb disk))
                (length chunks) 0 empty_digest)).
Proof.
  intros Hagent Hchunks.
  rewrite (process_full_knowledge_base_chunks _ _ _ _ _ Hchunks).
  set (e := Exn AttributeError
              "'KnowledgeChunkingService' object has no attribute 'agent'").
  rewrite (imap_Ok chunks _ (fun i _ => failed_record (Z.of_nat i) e)).
  2: { intros i chunk.
       unfold process_knowledge_chunk, chunk_attempt, agent_run.
       now rewrite Hagent. }
  set (records := imap (fun i _ => failed_record (Z.of_nat i) e) chunks).
  assert (Hfailed : List.Forall (fun r => was_processed r = false) records)
    by (apply Forall_imap; reflexivity).
  assert (Hdicts : List.Forall (fun r => is_dict r = true) records)
    by (apply Forall_imap; reflexivity).
  rewrite gather_Ok, bind_Ok.
  rewrite filter_chunks_failed, bind_Ok by assumption.
  rewrite filter_map_inl, dicts_of_inl, (filter_none _ _ Hfailed).
  rewrite aggregate_no_chunk, bind_Ok.
  rewrite filter_lengths, filter_map_inl, (filter_none _ _ Hfailed).
  cbn [map length]. rewrite length_map. subst records.
  rewrite length_imap, Nat.sub_0_r.
  unfold knowledge_record. now rewrite Nat.sub_0_r.
Qed.

Lemma process_full_knowledge_base_without_agent_witness :
  agent (with_limits init_service 100 0) = None
  /\ exists chunks : list string,
       length chunks = 2%nat
       /\ process_full_knowledge_base (T := char_tokenizer)
            (O := insertion_order) (with_limits init_service 100 0) 200
            new_knowledge_base
            (Dataset None None (Some (Some "Price is what you pay.")))
          = Some (fst (get_warren_buffett_knowledge new_knowledge_base
                         (Dataset None None
                            (Some (Some "Price is what you pay.")))),
                  Ok (knowledge_record (T := char_tokenizer)
                        (with_limits init_service 100 0)
                        (snd (get_warren_buffett_knowledge new_knowledge_base
                                (Dataset None None
                                   (Some (Some "Price is what you pay.")))))
                        (length chunks) 0 empty_digest)).
Proof.
  split; [reflexivity|].
  assert (Hchunks : exists chunks,
    chunk_knowledge_base (T := char_tokenizer) (with_limits init_service 100 0)
      200
      (snd (get_warren_buffett_knowledge new_knowledge_base
              (Dataset None None (Some (Some "Price is what you pay.")))))
    = Some chunks /\ length chunks = 2%nat).
  { eexists. split; [vm_compute; reflexivity|reflexivity]. }
  destruct Hchunks as (chunks & Hchunks & Hlen).
  exists chunks. split; [exact Hlen|].
  exact (process_full_knowledge_base_without_agent
           (T := char_tokenizer) (O := insertion_order)
           (with_limits init_service 100 0) 200 new_knowledge_base
           (Dataset None None (Some (Some "Price is what you pay.")))
           chunks eq_refl Hchunks).
Defined.

(** ** The initialisation, in the service and in the agents *)

Lemma cached_record_raises fs filepath e :
  cached_record fs filepath = Raise e -> is_Exception e = true.
Proof.
  unfold cached_record, read_text.
  destruct (files fs !! filepath) as [content|]; simpl.
  - apply json_loads_raises.
  - now intros [= <-].
Qed.

(** [load_processed_knowledge], told with the record of the file. *)
Lemma load_processed_knowledge_cached self filepath fs :
  load_processed_knowledge self filepath fs
  = match cached_record fs filepath with
    | Ok record => Ok (set_processed_knowledge self record, true)
    | Raise _ => Ok (self, false)
    end.
Proof.
  unfold load_processed_knowledge.
  replace (content ← read_text fs filepath;
           loaded ← json_loads content;
           Ok (set_processed_knowledge self loaded, true))
    with (record ← cached_record fs filepath;
          Ok (set_processed_knowledge self record, true))
    by (unfold cached_record; now destruct (read_text fs filepath)).
  destruct (cached_record fs filepath) as [record|e] eqn:Hrecord;
    [reflexivity|].
  unfold try_except. simpl. now rewrite (cached_record_raises _ _ _ Hrecord).
Qed.

Lemma cached_record_saved self filepath fs fs' :
  distinct_keys (processed_knowledge self) = true ->
  save_processed_knowledge self filepath fs = Ok fs' ->
  cached_record fs' filepath = Ok (processed_knowledge self).
Proof.
  intros Hkeys Hsave. apply save_processed_knowledge_files in Hsave.
  unfold cached_record, read_text.
  rewrite Hsave, lookup_insert_eq, bind_Ok. now apply json_loads_dump.
Qed.

(** The condensed text is a function of the record. *)
Lemma get_condensed_knowledge_for_prompt_record {R : Repr} self other :
  processed_knowledge self = processed_knowledge other ->
  get_condensed_knowledge_for_prompt self
  = get_condensed_knowledge_for_prompt other.
Proof. unfold get_condensed_knowledge_for_prompt. now intros ->. Qed.

Section ServiceInitialize.
Context {T : Tokenizer} {O : SetOrder}.

Lemma initialize_knowledge_base_cases self fuel kb disk :
  initialize_knowledge_base self fuel kb disk
  = match process_full_knowledge_base self fuel kb disk with
    | None => None
    | Some (kb', Ok record) =>
        Some (kb', Ok (set_processed_knowledge self record, true))
    | Some (kb', Raise e) =>
        Some (kb', if is_Exception e then Ok (self, false) else Raise e)
    end.
Proof.
  unfold initialize_knowledge_base.
  destruct (process_full_knowledge_base self fuel kb disk)
    as [[kb' [record|e]]|]; reflexivity.
Qed.

End ServiceInitialize.

Section AgentFacts.
Context {T : Tokenizer} {O : SetOrder} {R : Repr}.


End AgentFacts.



(** X15. [WarrenBuffettAgent.initialize_knowledge_base] reports what it
    did. A first call raises no exception that derives from [Exception].
    When it returns [True] the agent is marked as initialised and its
    condensed text is the text that the service gives for its record; when
    it returns [False] the agent is not marked and keeps the condensed text
    it had. *)
Theorem warren_buffett_agent_reports {T : Tokenizer} {O : SetOrder}
    {R : Repr} (self : WarrenBuffettAgent.t) (fuel : nat) (fs : filesystem)
    (kb : WarrenBuffettKnowledgeBase) (disk : dataset)
    (outcome : result (WarrenBuffettAgent.t * filesystem
                       * WarrenBuffettKnowledgeBase * bool)) :
  WarrenBuffettAgent.knowledge_initialized self = false ->
  WarrenBuffettAgent.initialize_knowledge_base self fuel fs kb disk
  = Some outcome ->
  match outcome with
  | Ok (self', _, _, true) =>
      WarrenBuffettAgent.knowledge_initialized self' = true
      /\ get_condensed_knowledge_for_prompt
           (WarrenBuffettAgent.knowledge_service self')
         = Ok (WarrenBuffettAgent.condensed_knowledge self')
  | Ok (self', _, _, false) =>
      WarrenBuffettAgent.knowledge_initialized self' = false
      /\ WarrenBuffettAgent.condensed_knowledge self'
         = WarrenBuffettAgent.condensed_knowledge self
  | Raise e => is_Exception e = false
  end.
Proof.
  intros Hfresh.
  assert (Hfailed : forall svc fs' kb' e,
    match WarrenBuffettAgent.failed self svc fs' kb' e with
    | Ok (self', _, _, true) =>
        WarrenBuffettAgent.knowledge_initialized self' = true
        /\ get_condensed_knowledge_for_prompt
             (WarrenBuffettAgent.knowledge_service self')
           = Ok (WarrenBuffettAgent.condensed_knowledge self')
    | Ok (self', _, _, false) =>
        WarrenBuffettAgent.knowledge_initialized self' = false
        /\ WarrenBuffettAgent.condensed_knowledge self'
           = WarrenBuffettAgent.condensed_knowledge self
    | Raise e => is_Exception e = false
    end).
  { intros svc fs' kb' e. unfold WarrenBuffettAgent.failed.
    destruct (is_Exception e) eqn:He; [|exact He].
    split; [exact Hfresh|reflexivity]. }
  assert (Hfinish : forall svc fs' kb',
    match WarrenBuffettAgent.finish self svc fs' kb' with
    | Ok (self', _, _, true) =>
        WarrenBuffettAgent.knowledge_initialized self' = true
        /\ get_condensed_knowledge_for_prompt
             (WarrenBuffettAgent.knowledge_service self')
           = Ok (WarrenBuffettAgent.condensed_knowledge self')
    | Ok (self', _, _, false) =>
        WarrenBuffettAgent.knowledge_initialized self' = false
        /\ WarrenBuffettAgent.condensed_knowledge self'
           = WarrenBuffettAgent.condensed_knowledge self
    | Raise e => is_Exception e = false
    end).
  { intros svc fs' kb'. unfold WarrenBuffettAgent.finish.
    destruct (get_condensed_knowledge_for_prompt svc) as [text|e] eqn:Htext;
      [|apply Hfailed].
    split; [reflexivity|exact Htext]. }
  unfold WarrenBuffettAgent.initialize_knowledge_base.
  rewrite Hfresh, load_processed_knowledge_cached.
  destruct (cached_record fs WarrenBuffettAgent.knowledge_cache_path)
    as [record|e0].
  - intros [= <-]. apply Hfinish.
  - rewrite initialize_knowledge_base_cases.
    destruct (process_full_knowledge_base
                (WarrenBuffettAgent.knowledge_service self) fuel kb disk)
      as [[kb1 [record|e]]|]; [| |discriminate].
    + destruct (save_processed_knowledge _ _ fs) as [fs1|e];
        intros [= <-]; [apply Hfinish|apply Hfailed].
    + destruct (is_Exception e) eqn:He; intros [= <-].
      * split; [exact Hfresh|reflexivity].
      * unfold WarrenBuffettAgent.failed. rewrite He. exact He.
Qed.

Lemma warren_buffett_agent_reports_witness :
  WarrenBuffettAgent.knowledge_initialized WarrenBuffettAgent.__init__ = false
  /\ exists self' fs' kb',
       WarrenBuffettAgent.initialize_knowledge_base (T := char_tokenizer)
         (O := insertion_order) (R := json_repr) WarrenBuffettAgent.__init__
         5 (disk_with "processed_knowledge.json" "[1, 2]")
         new_knowledge_base (Dataset None None None)
       = Some (Ok (self', fs', kb', false))
       /\ WarrenBuffettAgent.knowledge_initialized self' = false
       /\ WarrenBuffettAgent.condensed_knowledge self' = EmptyString.
Proof.
  split; [reflexivity|].
  assert (Hcall : exists self' fs' kb',
    WarrenBuffettAgent.initialize_knowledge_base (T := char_tokenizer)
      (O := insertion_order) (R := json_repr) WarrenBuffettAgent.__init__
      5 (disk_with "processed_knowledge.json" "[1, 2]")
      new_knowledge_base (Dataset None None None)
    = Some (Ok (self', fs', kb', false))).
  { eexists. eexists. eexists. vm_compute. reflexivity. }
  destruct Hcall as (self' & fs' & kb' & Hcall).
  exists self', fs', kb'. split; [exact Hcall|].
  exact (warren_buffett_agent_reports (T := char_tokenizer)
           (O := insertion_order) (R := json_repr)
           WarrenBuffettAgent.__init__ 5
           (disk_with "processed_knowledge.json" "[1, 2]")
           new_knowledge_base (Dataset None None None)
           (Ok (self', fs', kb', false)) eq_refl Hcall).
Defined.

(** X16. The cache gives back what the agent ended on. After a first call
    of [WarrenBuffettAgent.initialize_knowledge_base] that returns [True],
    the cache file holds the record of the service (a Python value, so
    with distinct keys in its dicts); and any agent that is not yet
    initialised and starts on these files takes that record and the same
    condensed text from the cache, without a run, whatever its own record
    and the knowledge base are. *)
Theorem warren_buffett_agent_cache_round_trip {T : Tokenizer} {O : SetOrder}
    {R : Repr} (self self' other : WarrenBuffettAgent.t) (fuel fuel' : nat)
    (fs fs' : filesystem) (kb kb' kb'' : WarrenBuffettKnowledgeBase)
    (disk disk' : dataset) :
  WarrenBuffettAgent.knowledge_initialized self = false ->
  WarrenBuffettAgent.initialize_knowledge_base self fuel fs kb disk
  = Some (Ok (self', fs', kb', true)) ->
  distinct_keys (processed_knowledge
                   (WarrenBuffettAgent.knowledge_service self')) = true ->
  WarrenBuffettAgent.knowledge_initialized other = false ->
  cached_record fs' WarrenBuffettAgent.knowledge_cache_path
  = Ok (processed_knowledge (WarrenBuffettAgent.knowledge_service self'))
  /\ WarrenBuffettAgent.initialize_knowledge_base other fuel' fs' kb'' disk'
     = Some (Ok (WarrenBuffettAgent.Agent
                   (set_processed_knowledge
                      (WarrenBuffettAgent.knowledge_service other)
                      (processed_knowledge
                         (WarrenBuffettAgent.knowledge_service self')))
                   true (WarrenBuffettAgent.condensed_knowledge self'),
                 fs', kb'', true)).
Proof.
  intros Hfresh Hcall Hkeys Hother.
  assert (Hfinish : forall svc fs1 kb1,
    WarrenBuffettAgent.finish self svc fs1 kb1 = Ok (self', fs', kb', true) ->
    fs1 = fs'
    /\ svc = WarrenBuffettAgent.knowledge_service self'
    /\ get_condensed_knowledge_for_prompt svc
       = Ok (WarrenBuffettAgent.condensed_knowledge self')).
  { intros svc fs1 kb1. unfold WarrenBuffettAgent.finish.
    destruct (get_condensed_knowledge_for_prompt svc) as [text|e].
    - intros [= <- <- <-]. auto.
    - unfold WarrenBuffettAgent.failed.
      destruct (is_Exception e); discriminate. }
  assert (Hcached :
    cached_record fs' WarrenBuffettAgent.knowledge_cache_path
    = Ok (processed_knowledge (WarrenBuffettAgent.knowledge_service self'))
    /\ get_condensed_knowledge_for_prompt
         (WarrenBuffettAgent.knowledge_service self')
       = Ok (WarrenBuffettAgent.condensed_knowledge self')).
  { revert Hcall. unfold WarrenBuffettAgent.initialize_knowledge_base.
    rewrite Hfresh, load_processed_knowledge_cached.
    destruct (cached_record fs WarrenBuffettAgent.knowledge_cache_path)
      as [record|e0] eqn:Hrecord.
    - intros [= Hend]. apply Hfinish in Hend as (<- & <- & Htext).
      split; [exact Hrecord|exact Htext].
    - rewrite initialize_knowledge_base_cases.
      destruct (process_full_knowledge_base
                  (WarrenBuffettAgent.knowledge_service self) fuel kb disk)
        as [[kb1 [record|e]]|]; [| |discriminate].
      + destruct (save_processed_knowledge _ _ fs) as [fs1|e] eqn:Hsave.
        * intros [= Hend]. apply Hfinish in Hend as (<- & Hsvc & Htext).
          rewrite <- Hsvc in *. split; [|exact Htext].
          now apply (cached_record_saved _ _ fs).
        * unfold WarrenBuffettAgent.failed.
          destruct (is_Exception e); discriminate.
      + destruct (is_Exception e) eqn:He; [discriminate|].
        unfold WarrenBuffettAgent.failed. rewrite He. discriminate. }
  destruct Hcached as [Hrecord Htext]. split; [exact Hrecord|].
  unfold WarrenBuffettAgent.initialize_knowledge_base.
  rewrite Hother, load_processed_knowledge_cached, Hrecord.
  unfold WarrenBuffettAgent.finish.
  rewrite (get_condensed_knowledge_for_prompt_record _
             (WarrenBuffettAgent.knowledge_service self'))
    by reflexivity.
  now rewrite Htext.
Qed.

Lemma warren_buffett_agent_cache_round_trip_witness :
  exists self' fs' kb',
    WarrenBuffettAgent.initialize_knowledge_base (T := char_tokenizer)
      (O := insertion_order) (R := json_repr) WarrenBuffettAgent.__init__
      1 empty_disk new_knowledge_base (Dataset None None None)
    = Some (Ok (self', fs', kb', true))
    /\ distinct_keys (processed_knowledge
                        (WarrenBuffettAgent.knowledge_service self')) = true
    /\ WarrenBuffettAgent.initialize_knowledge_base (T := char_tokenizer)
         (O := insertion_order) (R := json_repr) WarrenBuffettAgent.__init__
         0 fs' new_knowledge_base
         (Dataset None None (Some (Some "Price is what you pay.")))
       = Some (Ok (WarrenBuffettAgent.Agent
                     (set_processed_knowledge init_service
                        (processed_knowledge
                           (WarrenBuffettAgent.knowledge_service self')))
                     true (WarrenBuffettAgent.condensed_knowledge self'),
                   fs', new_knowledge_base, true)).
Proof.
  assert (Hcall : exists self' fs' kb',
    WarrenBuffettAgent.initialize_knowledge_base (T := char_tokenizer)
      (O := insertion_order) (R := json_repr) WarrenBuffettAgent.__init__
      1 empty_disk new_knowledge_base (Dataset None None None)
    = Some (Ok (self', fs', kb', true))
    /\ distinct_keys (processed_knowledge
                        (WarrenBuffettAgent.knowledge_service self')) = true).
  { eexists. eexists. eexists. split; vm_compute; reflexivity. }
  destruct Hcall as (self' & fs' & kb' & Hcall & Hkeys).
  exists self', fs', kb'. split; [exact Hcall|]. split; [exact Hkeys|].
  exact (proj2 (warren_buffett_agent_cache_round_trip (T := char_tokenizer)
                  (O := insertion_order) (R := json_repr)
                  WarrenBuffettAgent.__init__ self'
                  WarrenBuffettAgent.__init__ 1 0 empty_disk fs'
                  new_knowledge_base kb' new_knowledge_base
                  (Dataset None None None)
                  (Dataset None None (Some (Some "Price is what you pay.")))
                  eq_refl Hcall Hkeys eq_refl)).
Defined.



(** X18. A run that fails is cached by the LangGraph agent and not by the
    other one. When there is no usable cache and the initialisation of the
    service returns [False], [WarrenBuffettAgent.initialize_knowledge_base]
    returns [False] and writes nothing, while
    [LangGraphWarrenBuffettAgent._initialize_knowledge_base], which does
    not look at the result, saves the record that the service had before
    and ends on it. For a service that holds the empty record of
    [__init__] the file then reads [{}], the agent is marked as initialised
    with an empty condensed text, and so is every agent that starts on
    these files afterwards. *)
Theorem langgraph_agent_caches_failed_run {T : Tokenizer} {O : SetOrder}
    {R : Repr} (svc : service) (cache_path : string) (fuel : nat)
    (fs : filesystem) (kb kb' : WarrenBuffettKnowledgeBase)
    (disk : dataset) (e : exn) (text : string) :
  cached_record fs cache_path = Raise e ->
  initialize_knowledge_base svc fuel kb disk = Some (kb', Ok (svc, false)) ->
  writable fs cache_path = true ->
  processed_knowledge svc = PDict [] ->
  let fs' := {| files := <[cache_path := "{}"]> (files fs);
                writable := writable fs |} in
  LangGraphWarrenBuffettAgent._initialize_knowledge_base
    (LangGraphWarrenBuffettAgent.Agent svc false text) cache_path fuel fs kb
    disk
  = Some (Ok (LangGraphWarrenBuffettAgent.Agent svc true EmptyString,
              fs', kb'))
  /\ (forall other fuel' kb'' disk',
        LangGraphWarrenBuffettAgent.knowledge_initialized other = false ->
        LangGraphWarrenBuffettAgent._initialize_knowledge_base other
          cache_path fuel' fs' kb'' disk'
        = Some (Ok (LangGraphWarrenBuffettAgent.Agent
                      (set_processed_knowledge
                         (LangGraphWarrenBuffettAgent.knowledge_service other)
                         (PDict []))
                      true EmptyString, fs', kb'')))
  /\ (cached_record fs WarrenBuffettAgent.knowledge_cache_path = Raise e ->
      WarrenBuffettAgent.initialize_knowledge_base
        (WarrenBuffettAgent.Agent svc false text) fuel fs kb disk
      = Some (Ok (WarrenBuffettAgent.Agent svc false text, fs, kb', false))).
Proof.
  intros Hcache Hinit Hwritable Hrecord fs'. split; [|split].
  - unfold LangGraphWarrenBuffettAgent._initialize_knowledge_base.
    cbn [LangGraphWarrenBuffettAgent.knowledge_initialized
         LangGraphWarrenBuffettAgent.knowledge_service].
    rewrite load_processed_knowledge_cached, Hcache, Hinit.
    unfold save_processed_knowledge, write_text.
    rewrite Hwritable, bind_Ok, Hrecord.
    unfold LangGraphWarrenBuffettAgent.finish,
      get_condensed_knowledge_for_prompt.
    rewrite Hrecord. reflexivity.
  - intros other fuel' kb'' disk' Hother.
    unfold LangGraphWarrenBuffettAgent._initialize_knowledge_base.
    rewrite Hother, load_processed_knowledge_cached.
    assert (Hread : cached_record fs' cache_path = Ok (PDict [])).
    { unfold cached_record, read_text, fs'. cbn [files].
      now rewrite lookup_insert_eq. }
    rewrite Hread. reflexivity.
  - intros Hcache'.
    unfold WarrenBuffettAgent.initialize_knowledge_base.
    cbn [WarrenBuffettAgent.knowledge_initialized
         WarrenBuffettAgent.knowledge_service].
    rewrite load_processed_knowledge_cached, Hcache', Hinit. reflexivity.
Qed.

Lemma langgraph_agent_caches_failed_run_witness :
  exists kb',
    initialize_knowledge_base (T := char_tokenizer) (O := insertion_order)
      (with_limits (with_agent init_service ill_typed_agent) 100 0) 200
      new_knowledge_base
      (Dataset None None (Some (Some "Price is what you pay.")))
    = Some (kb', Ok (with_limits (with_agent init_service ill_typed_agent)
                       100 0, false))
    /\ LangGraphWarrenBuffettAgent._initialize_knowledge_base
         (T := char_tokenizer) (O := insertion_order) (R := json_repr)
         (LangGraphWarrenBuffettAgent.Agent
            (with_limits (with_agent init_service ill_typed_agent) 100 0)
            false EmptyString)
         "backend/processed_knowledge.jsonl" 200 empty_disk
         new_knowledge_base
         (Dataset None None (Some (Some "Price is what you pay.")))
       = Some (Ok (LangGraphWarrenBuffettAgent.Agent
                     (with_limits (with_agent init_service ill_typed_agent)
                        100 0)
                     true EmptyString,
                   {| files := <["backend/processed_knowledge.jsonl" := "{}"]>
                                 (files empty_disk);
                      writable := writable empty_disk |},
                   kb')).
Proof.
  assert (Hinit : exists kb',
    initialize_knowledge_base (T := char_tokenizer) (O := insertion_order)
      (with_limits (with_agent init_service ill_typed_agent) 100 0) 200
      new_knowledge_base
      (Dataset None None (Some (Some "Price is what you pay.")))
    = Some (kb', Ok (with_limits (with_agent init_service ill_typed_agent)
                       100 0, false))).
  { eexists. vm_compute. reflexivity. }
  destruct Hinit as [kb' Hinit]. exists kb'. split; [exact Hinit|].
  exact (proj1 (langgraph_agent_caches_failed_run (T := char_tokenizer)
                  (O := insertion_order) (R := json_repr)
                  (with_limits (with_agent init_service ill_typed_agent)
                     100 0)
                  "backend/processed_knowledge.jsonl" 200 empty_disk
                  new_knowledge_base kb'
                  (Dataset None None (Some (Some "Price is what you pay.")))
                  (Exn FileNotFoundError
                     "No such file or directory: 'backend/processed_knowledge.jsonl'")
                  EmptyString eq_refl Hinit eq_refl eq_refl)).
Defined.

(** ** The condensed text of a run *)


